(** * RouteGuard core: a shallow embedding of [routeguard_core.py]

    The development follows the Python module top to bottom: the string
    primitives the module relies on, the data classes, the WireGuard
    configuration reader, the nftables rule compiler, the route-leak
    detector, and finally the runner with its guaranteed teardown.

    Python [str] values are modelled as Rocq [string]s (byte strings, read
    as the UTF-8 encoding of the text); Python [int] as [Z]; a [dict] with
    string keys as a [gmap string _]; a [set] of strings as a [gset string];
    a [list] as a [list].  The string primitives know the white space,
    the line breaks and the digits of ASCII; what is proved of the way
    text is split, stripped or read as a number is stated for ASCII
    text.

    The runner is embedded twice: first on a host whose calls do not
    fail, then, in the part on the host where calls fail, with the
    failures that its [finally] and [except] clauses are written for.
    The two agree where nothing fails. *)

From stdpp Require Import gmap strings list fin_maps sorting pretty.
From Stdlib Require Import ZArith Ascii.

Local Open Scope Z_scope.

#[local] Set Warnings "-register-all".


(** ** Python string primitives *)

Module Py.

(** The double quote and the line feed, as one-character strings. *)
Definition dquote_chr : ascii := Ascii.ascii_of_nat 34.
Definition dquote : string := String dquote_chr EmptyString.
Definition nl_chr : ascii := Ascii.ascii_of_nat 10.
Definition nl : string := String nl_chr EmptyString.

(** [sep.join(xs)] *)
Definition join (sep : string) (xs : list string) : string :=
  String.concat sep xs.

(** [s.replace(c, '')] for a one-character [c]. *)
Fixpoint remove_chr (c : ascii) (s : string) : string :=
  match s with
  | EmptyString => EmptyString
  | String a s' =>
      if Ascii.eqb a c then remove_chr c s' else String a (remove_chr c s')
  end.

(** [c in s] for a one-character [c]. *)
Fixpoint has_chr (c : ascii) (s : string) : bool :=
  match s with
  | EmptyString => false
  | String a s' => Ascii.eqb a c || has_chr c s'
  end.

(** [s.count(c)] for a one-character [c]. *)
Fixpoint count_chr (c : ascii) (s : string) : nat :=
  match s with
  | EmptyString => O
  | String a s' => ((if Ascii.eqb a c then 1 else 0) + count_chr c s')%nat
  end.

(** [str.lower] on the ASCII letters; other bytes are kept. *)
Definition lower_chr (a : ascii) : ascii :=
  let n := Ascii.nat_of_ascii a in
  if (65 <=? n)%nat && (n <=? 90)%nat then Ascii.ascii_of_nat (n + 32) else a.

Fixpoint lower (s : string) : string :=
  match s with
  | EmptyString => EmptyString
  | String a s' => String (lower_chr a) (lower s')
  end.

(** [str.isspace] on one byte: TAB, LF, VT, FF, CR, FS, GS, RS, US, SPACE. *)
Definition is_space (a : ascii) : bool :=
  let n := Ascii.nat_of_ascii a in
  ((9 <=? n)%nat && (n <=? 13)%nat) || ((28 <=? n)%nat && (n <=? 32)%nat).

Fixpoint lstrip (s : string) : string :=
  match s with
  | EmptyString => EmptyString
  | String a s' => if is_space a then lstrip s' else s
  end.

(** Drops trailing white space: a character is kept when something
    non-blank follows it or when it is itself non-blank. *)
Fixpoint rstrip (s : string) : string :=
  match s with
  | EmptyString => EmptyString
  | String a s' =>
      match rstrip s' with
      | EmptyString => if is_space a then EmptyString else String a EmptyString
      | r => String a r
      end
  end.

(** [s.strip()] *)
Definition strip (s : string) : string := rstrip (lstrip s).

(** [s.startswith(p)] and [s.endswith(p)] *)
Fixpoint startswith (p s : string) : bool :=
  match p, s with
  | EmptyString, _ => true
  | String a p', String b s' => Ascii.eqb a b && startswith p' s'
  | String _ _, EmptyString => false
  end.

Definition endswith (p s : string) : bool :=
  startswith (String.rev p) (String.rev s).

(** [needle in hay] *)
Fixpoint contains (needle hay : string) : bool :=
  startswith needle hay ||
  match hay with
  | EmptyString => false
  | String _ hay' => contains needle hay'
  end.

(** [s.split(c, 1)] when [c] occurs in [s]: the text before the first
    [c] and the text after it; [None] when [c] does not occur. *)
Fixpoint split_first (c : ascii) (s : string) : option (string * string) :=
  match s with
  | EmptyString => None
  | String a s' =>
      if Ascii.eqb a c then Some (EmptyString, s')
      else match split_first c s' with
           | Some (l, r) => Some (String a l, r)
           | None => None
           end
  end.

(** [s.rsplit(c, 1)] when [c] occurs in [s]: split at the last [c]. *)
Fixpoint split_last (c : ascii) (s : string) : option (string * string) :=
  match s with
  | EmptyString => None
  | String a s' =>
      match split_last c s' with
      | Some (l, r) => Some (String a l, r)
      | None => if Ascii.eqb a c then Some (EmptyString, s') else None
      end
  end.

(** [s.isdigit()] on ASCII digits: non-empty and all digits. *)
Definition is_digit (a : ascii) : bool :=
  let n := Ascii.nat_of_ascii a in (48 <=? n)%nat && (n <=? 57)%nat.

Fixpoint all_digits (s : string) : bool :=
  match s with
  | EmptyString => true
  | String a s' => is_digit a && all_digits s'
  end.

Definition isdigit (s : string) : bool :=
  match s with
  | EmptyString => false
  | _ => all_digits s
  end.

(** [int(s)] for a string of ASCII digits (most significant first). *)
Fixpoint int_of_digits_from (acc : Z) (s : string) : Z :=
  match s with
  | EmptyString => acc
  | String a s' =>
      int_of_digits_from (10 * acc + (Z.of_nat (Ascii.nat_of_ascii a) - 48)) s'
  end.

Definition int_of_digits (s : string) : Z := int_of_digits_from 0 s.

(** [str(n)] / [f"{n}"] for an [int]. *)
Definition str_of_int (n : Z) : string := pretty n.

(** [str(b)] for a [bool]. *)
Definition str_of_bool (b : bool) : string := if b then "True" else "False".

(** [s[1:-1]] *)
Definition drop_first_last (s : string) : string :=
  match s with
  | EmptyString => EmptyString
  | String _ s' => String.rev (match String.rev s' with
                               | EmptyString => EmptyString
                               | String _ r => r
                               end)
  end.

(** [s[:-n]] for [n <= len(s)] *)
Definition drop_last (n : nat) (s : string) : string :=
  String.substring 0 (String.length s - n) s.

(** Truthiness of an optional string ([None] and [''] are falsy). *)
Definition truthy (o : option string) : bool :=
  match o with
  | Some (String _ _) => true
  | _ => false
  end.

(** [a or b] on optional strings. *)
Definition or_else (a b : option string) : option string :=
  if truthy a then a else b.


(** Line boundaries of [str.splitlines] among the ASCII characters:
    LF, VT, FF, CR, FS, GS, RS; CR LF counts once. *)
Definition is_linebreak (a : ascii) : bool :=
  let n := Ascii.nat_of_ascii a in
  ((10 <=? n)%nat && (n <=? 13)%nat) || ((28 <=? n)%nat && (n <=? 30)%nat).

Fixpoint splitlines_from (cur : string) (s : string) : list string :=
  match s with
  | EmptyString =>
      match cur with
      | EmptyString => []
      | _ => [String.rev cur]
      end
  | String a s' =>
      if is_linebreak a then
        String.rev cur ::
          match s' with
          | String b s'' =>
              if (Ascii.nat_of_ascii a =? 13)%nat && (Ascii.nat_of_ascii b =? 10)%nat
              then splitlines_from EmptyString s''
              else splitlines_from EmptyString s'
          | EmptyString => []
          end
      else splitlines_from (String a cur) s'
  end.

Definition splitlines (s : string) : list string :=
  splitlines_from EmptyString s.

(** [s.split(c)] for a one-character separator. *)
Fixpoint split_chr_from (c : ascii) (cur : string) (s : string) : list string :=
  match s with
  | EmptyString => [String.rev cur]
  | String a s' =>
      if Ascii.eqb a c then String.rev cur :: split_chr_from c EmptyString s'
      else split_chr_from c (String a cur) s'
  end.

Definition split_chr (c : ascii) (s : string) : list string :=
  split_chr_from c EmptyString s.

(** [Path(p).name]: the last component that is neither empty nor [.]. *)
Definition path_name (p : string) : string :=
  List.last
    (List.filter (fun x => negb (String.eqb x "" || String.eqb x "."))
                 (split_chr "/" p))
    "".

End Py.

(** ** Module constants *)

Definition ROUTEGUARD_TABLE_FAMILY : string := "inet".
Definition ROUTEGUARD_TABLE_NAME : string := "routeguard".
Definition DEFAULT_INTERVAL : Z := 5.
Definition PRIVATE_V4_CIDRS : list string :=
  ["10.0.0.0/8"; "172.16.0.0/12"; "192.168.0.0/16"].
Definition PRIVATE_V6_CIDR : string := "fc00::/7".
Definition LINK_LOCAL_V6 : list string := ["fe80::/10"; "ff00::/8"].
Definition STATE_PATHS : list string :=
  ["/run/routeguard-auto/state.json"; "/tmp/routeguard-auto-state.json"].

(** ** Data classes *)

Record EndpointRule := mkEndpointRule {
  ip : string;
  port : Z;
  proto : string
}.

(** [vpn_endpoints] defaults to [None] in the data class. *)
Record GeneratedConfig := mkGeneratedConfig {
  mode : string;
  vpn_iface : string;
  poll_interval_sec : Z;
  allow_lan : bool;
  allow_dhcp : bool;
  vpn_endpoints : option (list EndpointRule)
}.

#[global] Instance EndpointRule_eq_dec : EqDecision EndpointRule.
Proof. solve_decision. Defined.

#[global] Instance GeneratedConfig_eq_dec : EqDecision GeneratedConfig.
Proof. solve_decision. Defined.

(** [cfg.vpn_endpoints or []] *)
Definition endpoints_or_empty (cfg : GeneratedConfig) : list EndpointRule :=
  match vpn_endpoints cfg with
  | Some (e :: es) => e :: es
  | _ => []
  end.

(** ** The rule compiler: [build_nft_script] *)

Definition endpoint_line (ep : EndpointRule) : string :=
  let fam := if Py.has_chr ":" (ip ep) then "ip6" else "ip" in
  let proto := Py.lower (proto ep) in
  "    " +:+ fam +:+ " daddr " +:+ ip ep +:+ " " +:+ proto +:+ " dport "
    +:+ Py.str_of_int (port ep) +:+ " accept".

(** The value of the local variable [lines] when the function returns.
    Each [let] below is one statement of the source, in order. *)
Definition build_nft_lines (cfg : GeneratedConfig) : list string :=
  let iface := Py.remove_chr Py.dquote_chr (vpn_iface cfg) in
  let lines :=
    [ "table " +:+ ROUTEGUARD_TABLE_FAMILY +:+ " " +:+ ROUTEGUARD_TABLE_NAME +:+ " {";
      "  chain rg_output {";
      "    type filter hook output priority filter; policy accept;";
      "    oifname " +:+ Py.dquote +:+ "lo" +:+ Py.dquote +:+ " accept";
      "    oifname " +:+ Py.dquote +:+ iface +:+ Py.dquote +:+ " accept";
      "    ip6 daddr { " +:+ Py.join ", " LINK_LOCAL_V6 +:+ " } accept" ] in
  let lines :=
    if allow_dhcp cfg
    then lines ++ [ "    udp sport 68 udp dport 67 accept";
                    "    udp sport 546 udp dport 547 accept" ]
    else lines in
  let lines :=
    if allow_lan cfg
    then lines ++ [ "    ip daddr { " +:+ Py.join ", " PRIVATE_V4_CIDRS +:+ " } accept";
                    "    ip6 daddr " +:+ PRIVATE_V6_CIDR +:+ " accept" ]
    else lines in
  let lines :=
    fold_left (fun lines ep => lines ++ [endpoint_line ep])
              (endpoints_or_empty cfg) lines in
  lines ++ [ "    oifname != " +:+ Py.dquote +:+ iface +:+ Py.dquote +:+ " drop";
             "  }"; "}" ].

Definition build_nft_script (cfg : GeneratedConfig) : string :=
  Py.join Py.nl (build_nft_lines cfg) +:+ Py.nl.

(** ** JSON values and [GeneratedConfig.to_dict] / [to_json] *)

(** A Python [dict] keeps insertion order, which [json.dumps] follows, so
    an object is an association list. *)
Inductive json :=
| JNull
| JBool (b : bool)
| JInt (n : Z)
| JStr (s : string)
| JList (items : list json)
| JDict (fields : list (string * json)).

(** [d[k] = v] on an insertion-ordered dict: an existing key keeps its
    position, a new key goes last. *)
Fixpoint dict_set (k : string) (v : json) (d : list (string * json))
  : list (string * json) :=
  match d with
  | [] => [(k, v)]
  | (k', v') :: d' =>
      if String.eqb k' k then (k, v) :: d' else (k', v') :: dict_set k v d'
  end.

(** [d.get(k)] *)
Fixpoint dict_get (k : string) (d : list (string * json)) : option json :=
  match d with
  | [] => None
  | (k', v') :: d' => if String.eqb k' k then Some v' else dict_get k d'
  end.

(** [dataclasses.asdict] on the two data classes. *)
Definition asdict_endpoint (e : EndpointRule) : json :=
  JDict [("ip", JStr (ip e)); ("port", JInt (port e)); ("proto", JStr (proto e))].

Definition asdict_config (cfg : GeneratedConfig) : list (string * json) :=
  [ ("mode", JStr (mode cfg));
    ("vpn_iface", JStr (vpn_iface cfg));
    ("poll_interval_sec", JInt (poll_interval_sec cfg));
    ("allow_lan", JBool (allow_lan cfg));
    ("allow_dhcp", JBool (allow_dhcp cfg));
    ("vpn_endpoints",
      match vpn_endpoints cfg with
      | None => JNull
      | Some es => JList (List.map asdict_endpoint es)
      end) ].

Definition to_dict (cfg : GeneratedConfig) : list (string * json) :=
  let d := asdict_config cfg in
  dict_set "vpn_endpoints"
           (JList (List.map asdict_endpoint (endpoints_or_empty cfg))) d.

(** [json.dumps(v, indent=2, ensure_ascii=False)] *)
Module Json.

Definition hex_digit (n : nat) : ascii :=
  if (n <? 10)%nat then Ascii.ascii_of_nat (48 + n)
  else Ascii.ascii_of_nat (87 + n).

Definition backslash : string := String (Ascii.ascii_of_nat 92) EmptyString.

Definition escape_chr (a : ascii) : string :=
  let n := Ascii.nat_of_ascii a in
  if (n =? 34)%nat then backslash +:+ Py.dquote
  else if (n =? 92)%nat then backslash +:+ backslash
  else if (n =? 8)%nat then backslash +:+ "b"
  else if (n =? 12)%nat then backslash +:+ "f"
  else if (n =? 10)%nat then backslash +:+ "n"
  else if (n =? 13)%nat then backslash +:+ "r"
  else if (n =? 9)%nat then backslash +:+ "t"
  else if (n <? 32)%nat
       then backslash +:+ "u00"
            +:+ String (hex_digit (n / 16)) (String (hex_digit (n mod 16)) EmptyString)
  else String a EmptyString.

Fixpoint escape (s : string) : string :=
  match s with
  | EmptyString => EmptyString
  | String a s' => escape_chr a +:+ escape s'
  end.

Definition encode_str (s : string) : string :=
  Py.dquote +:+ escape s +:+ Py.dquote.

Fixpoint spaces (n : nat) : string :=
  match n with
  | O => EmptyString
  | S n' => String " " (spaces n')
  end.

Definition newline_indent (level : nat) : string :=
  Py.nl +:+ spaces (2 * level).

Fixpoint dumps_at (level : nat) (v : json) : string :=
  match v with
  | JNull => "null"
  | JBool true => "true"
  | JBool false => "false"
  | JInt n => Py.str_of_int n
  | JStr s => encode_str s
  | JList [] => "[]"
  | JList items =>
      "[" +:+ newline_indent (S level)
        +:+ Py.join ("," +:+ newline_indent (S level))
                    (List.map (dumps_at (S level)) items)
        +:+ newline_indent level +:+ "]"
  | JDict [] => "{}"
  | JDict fields =>
      "{" +:+ newline_indent (S level)
        +:+ Py.join ("," +:+ newline_indent (S level))
                    (List.map (fun kv => encode_str (fst kv) +:+ ": "
                                           +:+ dumps_at (S level) (snd kv))
                              fields)
        +:+ newline_indent level +:+ "}"
  end.

Definition dumps (v : json) : string := dumps_at 0 v.

End Json.

Definition to_json (cfg : GeneratedConfig) : string :=
  Json.dumps (JDict (to_dict cfg)).

(** ** The leak detector: [suspicious_routes] *)

(** A route is one object of the list that [ip -j route] prints; the
    detector reads the keys [dst], [dev], [oif] and [gateway], whose values
    are strings. *)
Definition split_default_targets (ipv6 : bool) : gset string :=
  if ipv6 then {[ "::/1"; "8000::/1" ]} else {[ "0.0.0.0/1"; "128.0.0.0/1" ]}.

(** [r.get('dev') or r.get('oif') or '']: the egress device of a route,
    its [dev] entry or, when that is missing or empty, its [oif] entry; the
    empty string when neither is set. *)
Definition route_dev (r : gmap string string) : string :=
  default "" (Py.or_else (Py.or_else (r !! "dev") (r !! "oif")) (Some "")).

(** [dst in targets] for the result of [r.get('dst')]. *)
Definition dst_in_targets (dst : option string) (targets : gset string) : bool :=
  match dst with
  | Some d => bool_decide (d ∈ targets)
  | None => false
  end.

(** [f"{dst} via dev={dev} gateway={r.get('gateway', '-')}"]; formatting
    [None] prints [None], which the guard excludes before it is reached. *)
Definition route_alert (r : gmap string string) : string :=
  default "None" (r !! "dst") +:+ " via dev=" +:+ route_dev r
    +:+ " gateway=" +:+ default "-" (r !! "gateway").

Definition suspicious_routes
  (routes : list (gmap string string)) (vpn_iface : string) (ipv6 : bool)
  : list string :=
  let targets := split_default_targets ipv6 in
  fold_left
    (fun out r =>
       let dst := r !! "dst" in
       let dev := route_dev r in
       if dst_in_targets dst targets
          && Py.truthy (Some dev)
          && negb (String.eqb dev vpn_iface)
       then out ++ [route_alert r]
       else out)
    routes [].

(** ** Exceptions and fallible results *)

(** The exceptions that occur: the module's own [RouteGuardError], the
    [FileNotFoundError] of [subprocess.run] for a program that is not
    installed, and [OSError] for a failed file operation.  All of them are
    subclasses of [Exception]. *)
Inductive exn :=
| RouteGuardError (msg : string)
| FileNotFoundError (msg : string)
| OSError (msg : string).

Inductive result (A : Type) :=
| Ok (a : A)
| Raise (e : exn).
Arguments Ok {A} a.
Arguments Raise {A} e.

#[global] Instance result_ret : MRet result := fun A a => Ok a.
#[global] Instance result_bind : MBind result := fun A B f m =>
  match m with
  | Ok a => f a
  | Raise e => Raise e
  end.

(** A [for] loop whose body may raise: the first exception stops it. *)
Fixpoint for_result {A S : Type} (body : S -> A -> result S) (xs : list A) (s : S)
  : result S :=
  match xs with
  | [] => Ok s
  | x :: xs' =>
      match body s x with
      | Ok s' => for_result body xs' s'
      | Raise e => Raise e
      end
  end.

(** ** The WireGuard configuration reader *)

(** What the file system answers for the configuration path. *)
Inductive file_view :=
| Missing
| Unreadable (why : string)
| Text (content : string).

(** The state of the parsing loop.  [current_peer] refers to a dict that
    is also an element of [peers]: it is kept as the index of that element,
    so that a write through [current_peer] is a write into the list. *)
Record ParseState := mkParseState {
  interface : gmap string string;
  peers : list (gmap string string);
  current_section : option string;
  current_peer : option nat
}.

Definition parse_line (st : ParseState) (raw_line : string) : ParseState :=
  let line := Py.strip raw_line in
  if String.eqb line "" || Py.startswith "#" line || Py.startswith ";" line
  then st
  else if Py.startswith "[" line && Py.endswith "]" line then
    let section := Py.lower (Py.strip (Py.drop_first_last line)) in
    if String.eqb section "interface" then
      mkParseState (interface st) (peers st) (Some "interface") None
    else if String.eqb section "peer" then
      mkParseState (interface st) (peers st ++ [∅]) (Some "peer")
                   (Some (length (peers st)))
    else
      mkParseState (interface st) (peers st) None None
  else if negb (Py.has_chr "=" line) then st
  else
    match Py.split_first "=" line with
    | None => st
    | Some (k, v) =>
        let key := Py.strip k in
        let value := Py.strip v in
        if bool_decide (current_section st = Some "interface") then
          mkParseState (<[key := value]> (interface st)) (peers st)
                       (current_section st) (current_peer st)
        else if bool_decide (current_section st = Some "peer") then
          match current_peer st with
          | Some i =>
              mkParseState (interface st)
                           (alter (fun d => <[key := value]> d) i (peers st))
                           (current_section st) (current_peer st)
          | None => st
          end
        else st
    end.

(** The returned dict [{'interface': ..., 'peers': ...}]. *)
Record WgData := mkWgData {
  wg_interface : gmap string string;
  wg_peers : list (gmap string string)
}.

Definition parse_wireguard_config (file : file_view) (path : string)
  : result WgData :=
  match file with
  | Missing => Raise (RouteGuardError ("WireGuard config not found: " +:+ path))
  | Unreadable why => Raise (OSError why)
  | Text content =>
      let st := fold_left parse_line (Py.splitlines content)
                          (mkParseState ∅ [] None None) in
      match peers st with
      | [] => Raise (RouteGuardError "No [Peer] section found in WireGuard config.")
      | _ => Ok (mkWgData (interface st) (peers st))
      end
  end.

Definition infer_iface_name_from_wg_path (path : string) : string :=
  let name := Py.path_name path in
  if Py.endswith ".conf" name then Py.drop_last 5 name else name.

(** ** Endpoint parsing and resolution *)

(** The pattern [^\[(.+)\]:(\d+)$] on a stripped string: [(\d+)$] is the
    text after the last colon, which must be digits, and what precedes that
    colon is [[], one or more characters other than a line feed, and []]. *)
Definition match_bracketed (endpoint : string) : option (string * string) :=
  match Py.split_last ":" endpoint with
  | Some (lhs, digits) =>
      let host := Py.drop_first_last lhs in
      if Py.isdigit digits
         && Py.startswith "[" lhs && Py.endswith "]" lhs
         && (2 <? String.length lhs)%nat
         && negb (Py.has_chr Py.nl_chr host)
      then Some (host, digits)
      else None
  | None => None
  end.

Definition parse_endpoint (endpoint : string) : result (string * Z) :=
  let endpoint := Py.strip endpoint in
  if Py.startswith "[" endpoint then
    match match_bracketed endpoint with
    | None => Raise (RouteGuardError ("Invalid endpoint format: " +:+ endpoint))
    | Some (host, digits) => Ok (host, Py.int_of_digits digits)
    end
  else if (Py.count_chr ":" endpoint =? 1)%nat then
    match Py.split_last ":" endpoint with
    | Some (host, port) =>
        if negb (Py.isdigit port)
        then Raise (RouteGuardError ("Invalid endpoint port: " +:+ endpoint))
        else Ok (host, Py.int_of_digits port)
    | None => Raise (RouteGuardError ("Unsupported endpoint format: " +:+ endpoint))
    end
  else Raise (RouteGuardError ("Unsupported endpoint format: " +:+ endpoint)).

(** The name service as the resolver sees it: whether [socket.inet_pton]
    accepts a host for a family ([false] is [AF_INET], [true] is
    [AF_INET6]), and what [socket.getaddrinfo] answers: the address of each
    returned entry, in order, or the text of a [gaierror]. *)
Record NameService := mkNameService {
  inet_pton_ok : bool -> string -> bool;
  getaddrinfo : string -> list string + string
}.

Definition resolve_host_ips (ns : NameService) (host : string)
  : result (list string) :=
  if inet_pton_ok ns false host then Ok [host]
  else if inet_pton_ok ns true host then Ok [host]
  else
    match getaddrinfo ns host with
    | inr e =>
        Raise (RouteGuardError
                 ("Cannot resolve endpoint host '" +:+ host +:+ "': " +:+ e))
    | inl infos =>
        let ips :=
          fold_left (fun ips ip => if bool_decide (ip ∈ ips) then ips else ips ++ [ip])
                    infos [] in
        match ips with
        | [] => Raise (RouteGuardError ("No IPs resolved for " +:+ host))
        | _ => Ok ips
        end
    end.

(** ** [build_generated_config_from_wg] *)

(** The key under which an endpoint is remembered in [seen]. *)
Definition endpoint_key (e : EndpointRule) : string * Z * string :=
  (ip e, port e, proto e).

(** The two accumulators of the loop: [endpoints] and [seen]. *)
Definition add_resolved (port : Z)
  (acc : list EndpointRule * gset (string * Z * string)) (ip : string)
  : list EndpointRule * gset (string * Z * string) :=
  let key := (ip, port, "udp") in
  if bool_decide (key ∈ acc.2) then acc
  else (acc.1 ++ [mkEndpointRule ip port "udp"], {[ key ]} ∪ acc.2).

Definition peer_endpoints (ns : NameService)
  (acc : list EndpointRule * gset (string * Z * string))
  (peer : gmap string string)
  : result (list EndpointRule * gset (string * Z * string)) :=
  let ep := peer !! "Endpoint" in
  if negb (Py.truthy ep) then Ok acc
  else
    hp ← parse_endpoint (default "" ep);
    ips ← resolve_host_ips ns hp.1;
    Ok (fold_left (add_resolved hp.2) ips acc).

Definition build_generated_config_from_wg
  (file : file_view) (ns : NameService) (wg_config_path : string)
  (mode : string) (vpn_iface : option string)
  (allow_lan allow_dhcp : bool) (poll_interval_sec : Z)
  : result GeneratedConfig :=
  data ← parse_wireguard_config file wg_config_path;
  let iface_name :=
    if Py.truthy vpn_iface then default "" vpn_iface
    else infer_iface_name_from_wg_path wg_config_path in
  acc ← for_result (peer_endpoints ns) (wg_peers data) ([], ∅);
  match acc.1 with
  | [] => Raise (RouteGuardError "No Peer Endpoint found in WireGuard config.")
  | endpoints =>
      Ok (mkGeneratedConfig mode iface_name (Z.max 1 poll_interval_sec)
                            allow_lan allow_dhcp (Some endpoints))
  end.

(** ** The host: what the runner acts on and observes *)

(** The runner talks to the operating system through [run_cmd], the file
    system and the logger.  What the model takes from them:
    - [subprocess.run] with [check=False] returns a completed process
      whatever the return code, and raises [FileNotFoundError] when the
      program is not installed; it raises for no other reason;
    - the kernel answers [nft list table] and [nft delete table] with
      return code 0 exactly when the table is loaded, and a script that
      [nft -f -] accepts loads the table;
    - [Path.unlink] removes a file that exists and raises
      [FileNotFoundError] otherwise; [Path.write_text] may fail;
    - a logger is called for its effect and returns: the runner's logger
      hands the line on, [lambda _msg: None] drops it;
    - time is not measured: how often [_wait_for_iface] polls before its
      timeout, how many monitoring cycles start before the stop event is
      seen set, and what other actors do to the host in between, is given
      by a [Schedule].  [_install_signals] only arranges for signals to set
      the stop event.
    The part on the host where calls fail embeds the runner again
    without the assumptions on [subprocess.run], [Path.unlink] and the
    logger. *)

Record CompletedProcess := mkCompletedProcess {
  returncode : Z;
  stdout : string;
  stderr : string
}.

(** Calls issued to the operating system and lines handed to the logger,
    in the order they happen. *)
Inductive event :=
| Exec (argv : list string) (input : option string)
| Log (line : string)
| Write (path : string)
| Unlink (path : string).

#[global] Instance event_eq_dec : EqDecision event.
Proof. solve_decision. Defined.

(** The state of the host.
    - [on_path prog]: [shutil.which(prog)] finds the program;
    - [nft_table]: the kernel holds the table [inet routeguard];
    - [nft_verdict script]: how [nft -f -] answers a script (a zero
      return code loads the table);
    - [wg_quick_verdict verb iface]: how [wg-quick] answers;
    - [links]: the interfaces [ip link show] finds;
    - [routes v6]: the list that [json.loads] yields on the output of
      [ip -j [-6] route show table main] (output that is no JSON list
      counts as the empty list), [None] when [ip] exits non-zero;
    - [can_mkdir dir], [can_write path]: whether the directory can be
      created (or exists) and whether the file can be written;
    - [files]: the state files present, with the value whose JSON text
      they hold;
    - [pid], [clock]: [os.getpid()] and [timestamp()];
    - [trace]: the events so far, oldest first. *)
Record World := mkWorld {
  on_path : string -> bool;
  nft_table : bool;
  nft_verdict : string -> CompletedProcess;
  wg_quick_verdict : string -> string -> CompletedProcess;
  links : list string;
  routes : bool -> option (list (gmap string string));
  can_mkdir : string -> bool;
  can_write : string -> bool;
  files : gmap string json;
  pid : Z;
  clock : string;
  trace : list event
}.

Definition set_nft_table (b : bool) (w : World) : World :=
  mkWorld (on_path w) b (nft_verdict w) (wg_quick_verdict w) (links w)
          (routes w) (can_mkdir w) (can_write w) (files w) (pid w) (clock w)
          (trace w).

Definition set_links (l : list string) (w : World) : World :=
  mkWorld (on_path w) (nft_table w) (nft_verdict w) (wg_quick_verdict w) l
          (routes w) (can_mkdir w) (can_write w) (files w) (pid w) (clock w)
          (trace w).

Definition set_routes (r : bool -> option (list (gmap string string)))
  (w : World) : World :=
  mkWorld (on_path w) (nft_table w) (nft_verdict w) (wg_quick_verdict w)
          (links w) r (can_mkdir w) (can_write w) (files w) (pid w) (clock w)
          (trace w).

Definition set_files (f : gmap string json) (w : World) : World :=
  mkWorld (on_path w) (nft_table w) (nft_verdict w) (wg_quick_verdict w)
          (links w) (routes w) (can_mkdir w) (can_write w) f (pid w) (clock w)
          (trace w).

Definition record (e : event) (w : World) : World :=
  mkWorld (on_path w) (nft_table w) (nft_verdict w) (wg_quick_verdict w)
          (links w) (routes w) (can_mkdir w) (can_write w) (files w) (pid w)
          (clock w) (trace w ++ [e]).

(** What other actors may have done to the host while the runner slept:
    each field is [None] when that part is untouched. *)
Record Drift := mkDrift {
  drift_table : option bool;
  drift_links : option (list string);
  drift_routes : option (bool -> option (list (gmap string string)))
}.

Definition apply_drift (d : Drift) (w : World) : World :=
  let w := match drift_table d with Some b => set_nft_table b w | None => w end in
  let w := match drift_links d with Some l => set_links l w | None => w end in
  match drift_routes d with Some r => set_routes r w | None => w end.

(** ** Computations on the host that may raise *)

Definition M (A : Type) : Type := World -> result A * World.

#[global] Instance M_ret : MRet M := fun A a w => (Ok a, w).
#[global] Instance M_bind : MBind M := fun A B f m w =>
  match m w with
  | (Ok a, w') => f a w'
  | (Raise e, w') => (Raise e, w')
  end.

Definition raise {A : Type} (e : exn) : M A := fun w => (Raise e, w).

Definition get_world : M World := fun w => (Ok w, w).

Definition modify (f : World -> World) : M unit := fun w => (Ok tt, f w).

(** [try: body finally: fin].  The outcome of [body] stands unless [fin]
    raises, in which case the exception of [fin] replaces it. *)
Definition try_finally {A : Type} (body : M A) (fin : M unit) : M A :=
  fun w =>
    let '(r, w1) := body w in
    match fin w1 with
    | (Ok _, w2) => (r, w2)
    | (Raise e, w2) => (Raise e, w2)
    end.

(** [try: body except Exception as e: handler(e)] *)
Definition try_except {A : Type} (body : M A) (handler : exn -> M A) : M A :=
  fun w =>
    match body w with
    | (Ok a, w1) => (Ok a, w1)
    | (Raise e, w1) => handler e w1
    end.

(** A [for] loop over a list, for its effects. *)
Fixpoint for_each {A : Type} (xs : list A) (body : A -> M unit) : M unit :=
  match xs with
  | [] => mret tt
  | x :: xs' => _ ← body x; for_each xs' body
  end.

(** [str(e)] *)
Definition exn_str (e : exn) : string :=
  match e with
  | RouteGuardError msg => msg
  | FileNotFoundError msg => msg
  | OSError msg => msg
  end.

(** The two loggers in use: one that hands the line on (the runner's
    logger, [default_logger]), and [lambda _msg: None]. *)
Inductive Logger :=
| Recording
| Discarding.

Definition call_logger (lg : Logger) (msg : string) : M unit :=
  match lg with
  | Recording => modify (record (Log msg))
  | Discarding => mret tt
  end.

(** ** Running commands *)

Definition command_exists (cmd : string) : M bool :=
  fun w => (Ok (on_path w cmd), w).

Definition nft_list_argv : list string :=
  ["nft"; "list"; "table"; ROUTEGUARD_TABLE_FAMILY; ROUTEGUARD_TABLE_NAME].
Definition nft_delete_argv : list string :=
  ["nft"; "delete"; "table"; ROUTEGUARD_TABLE_FAMILY; ROUTEGUARD_TABLE_NAME].
Definition nft_load_argv : list string := ["nft"; "-f"; "-"].
Definition ip_route_argv (ipv6 : bool) : list string :=
  let args := ["ip"; "-j"] in
  let args := if ipv6 then args ++ ["-6"] else args in
  args ++ ["route"; "show"; "table"; "main"].

Definition exit_status (ok : bool) : CompletedProcess :=
  mkCompletedProcess (if ok then 0 else 1) "" "".

(** How the host answers a command that was found on the search path. *)
Definition host_answer (args : list string) (input : option string) (w : World)
  : CompletedProcess * World :=
  if bool_decide (args = nft_list_argv) then
    (exit_status (nft_table w), w)
  else if bool_decide (args = nft_delete_argv) then
    (exit_status (nft_table w), set_nft_table false w)
  else if bool_decide (args = nft_load_argv) then
    let cp := nft_verdict w (default "" input) in
    (cp, if returncode cp =? 0 then set_nft_table true w else w)
  else if bool_decide (args = ip_route_argv false) then
    (exit_status (bool_decide (is_Some (routes w false))), w)
  else if bool_decide (args = ip_route_argv true) then
    (exit_status (bool_decide (is_Some (routes w true))), w)
  else
    match args with
    | [prog; a; b; iface] =>
        if bool_decide (prog = "ip" ∧ a = "link" ∧ b = "show")
        then (exit_status (bool_decide (iface ∈ links w)), w)
        else (exit_status false, w)
    | [prog; verb; iface] =>
        if bool_decide (prog = "wg-quick")
        then (wg_quick_verdict w verb iface, w)
        else (exit_status false, w)
    | _ => (exit_status false, w)
    end.

(** [run_cmd(args, check=False, input_data=...)]: [subprocess.run] raises
    [FileNotFoundError] when the program is not installed and otherwise
    returns the completed process whatever its return code. *)
Definition run_cmd (args : list string) (input_data : option string)
  : M CompletedProcess :=
  fun w =>
    let w := record (Exec args input_data) w in
    match args with
    | [] => (Raise (OSError "empty argv"), w)
    | prog :: _ =>
        if on_path w prog
        then let '(cp, w') := host_answer args input_data w in (Ok cp, w')
        else (Raise (FileNotFoundError prog), w)
    end.

Definition interface_exists (iface : string) : M bool :=
  cp ← run_cmd ["ip"; "link"; "show"; iface] None;
  mret (returncode cp =? 0).

(** ** The firewall controller *)

Definition routeguard_table_exists : M bool :=
  found ← command_exists "nft";
  if (found : bool)
  then cp ← run_cmd nft_list_argv None; mret (returncode cp =? 0)
  else mret false.

Definition remove_nft_rules (logger : Logger) : M unit :=
  found ← command_exists "nft";
  if negb found then mret tt
  else
    cp ← run_cmd nft_delete_argv None;
    if returncode cp =? 0
    then call_logger logger "Removed nftables table inet routeguard."
    else call_logger logger
           "nftables table inet routeguard was not present (nothing to remove).".

(** [a or b or ''] on two strings. *)
Definition first_nonempty (a b : string) : string :=
  default "" (Py.or_else (Py.or_else (Some a) (Some b)) (Some "")).

Definition apply_nft_rules (cfg : GeneratedConfig) (logger : Logger) : M unit :=
  found ← command_exists "nft";
  if negb found
  then raise (RouteGuardError "nft command not found. Install nftables.")
  else
    _ ← remove_nft_rules Discarding;
    let script := build_nft_script cfg in
    cp ← run_cmd nft_load_argv (Some script);
    if negb (returncode cp =? 0) then
      let err := Py.strip (first_nonempty (stderr cp) (stdout cp)) in
      raise (RouteGuardError
               ("nft failed to apply rules: "
                  +:+ first_nonempty err "unknown error"))
    else
      present ← routeguard_table_exists;
      if negb present
      then raise (RouteGuardError
                    "Failed to apply nft rules (table inet routeguard missing).")
      else
        call_logger logger
          ("Applied nftables rules for iface '" +:+ vpn_iface cfg +:+ "' ("
             +:+ Py.str_of_int (Z.of_nat (length (endpoints_or_empty cfg)))
             +:+ " endpoint rule(s)).").

(** ** Polling the routing tables *)

Definition ip_json_routes (ipv6 : bool) : M (list (gmap string string)) :=
  cp ← run_cmd (ip_route_argv ipv6) None;
  if negb (returncode cp =? 0) then mret []
  else w ← get_world; mret (default [] (routes w ipv6)).

(** ** The tunnel commands *)

Definition wg_quick_up (iface : string) (logger : Logger) : M unit :=
  found ← command_exists "wg-quick";
  if negb found
  then raise (RouteGuardError "wg-quick not found. Install wireguard-tools.")
  else
    cp ← run_cmd ["wg-quick"; "up"; iface] None;
    let out := stdout cp +:+ stderr cp in
    if negb (returncode cp =? 0)
       && negb (Py.contains "already exists" out)
       && negb (Py.contains "already up" out)
    then raise (RouteGuardError
                  ("wg-quick up " +:+ iface +:+ " failed:" +:+ Py.nl
                     +:+ Py.strip out))
    else call_logger logger
           ("WireGuard interface '" +:+ iface +:+ "' is up (or already up).").

Definition wg_quick_down (iface : string) (logger : Logger) : M unit :=
  found ← command_exists "wg-quick";
  if negb found then mret tt
  else
    cp ← run_cmd ["wg-quick"; "down"; iface] None;
    let out := stdout cp +:+ stderr cp in
    if returncode cp =? 0
    then call_logger logger ("WireGuard interface '" +:+ iface +:+ "' is down.")
    else call_logger logger
           ("wg-quick down " +:+ iface +:+ ": "
              +:+ first_nonempty (Py.strip out) "no action").

(** ** The state store *)

(** [p.parent] for an absolute path with at least one component. *)
Definition path_parent (p : string) : string :=
  match Py.split_last "/" p with
  | Some (EmptyString, _) => "/"
  | Some (dir, _) => dir
  | None => "."
  end.

(** The loop of [_state_path]: the first candidate whose directory can be
    made, or the fixed fallback. *)
Fixpoint first_usable (can_mkdir : string -> bool) (candidates : list string)
  : string :=
  match candidates with
  | [] => "/tmp/routeguard-auto-state.json"
  | p :: rest =>
      if can_mkdir (path_parent p) then p else first_usable can_mkdir rest
  end.

Definition state_path : M string :=
  fun w => (Ok (first_usable (can_mkdir w) STATE_PATHS), w).

(** [p.write_text(text)] *)
Definition write_text (p : string) (content : json) : M unit :=
  fun w =>
    let w := record (Write p) w in
    if can_write w p
    then (Ok tt, set_files (<[p := content]> (files w)) w)
    else (Raise (OSError ("cannot write " +:+ p)), w).

Definition write_state (cfg : GeneratedConfig)
  (extra : option (list (string * json))) : M string :=
  p ← state_path;
  w ← get_world;
  let payload :=
    [ ("pid", JInt (pid w)); ("started_at", JStr (clock w));
      ("config", JDict (to_dict cfg)) ] in
  let payload :=
    match extra with
    | Some (kv :: kvs) =>
        fold_left (fun d kv => dict_set kv.1 kv.2 d) (kv :: kvs) payload
    | _ => payload
    end in
  _ ← write_text p (JDict payload);
  mret p.

(** [p.unlink()] *)
Definition unlink (p : string) : M unit :=
  fun w =>
    let w := record (Unlink p) w in
    match files w !! p with
    | Some _ => (Ok tt, set_files (delete p (files w)) w)
    | None => (Raise (FileNotFoundError p), w)
    end.

Definition remove_state : M unit :=
  for_each STATE_PATHS
           (fun p => try_except (unlink p) (fun _ => mret tt)).

(** ** The runner *)

Record RouteGuardRunner := mkRunner {
  cfg : GeneratedConfig;
  logger : Logger;
  auto_up_vpn : bool;
  auto_down_vpn_on_exit : bool;
  cleanup_nft_on_exit : bool
}.

(** What the run cannot decide by itself: how the host drifts before each
    poll of [_wait_for_iface] that fits within the timeout, and before each
    monitoring cycle that starts before the stop event is seen set. *)
Record Schedule := mkSchedule {
  wait_polls : list Drift;
  cycles : list Drift
}.

(** [str.__lt__]-ordered [sorted]. *)
Definition str_le (a b : string) : Prop := String.leb a b = true.

#[global] Instance str_le_dec : RelDecision str_le.
Proof. intros a b. unfold str_le. apply _. Defined.

Definition py_sorted (l : list string) : list string := merge_sort str_le l.

Fixpoint wait_for_iface (r : RouteGuardRunner) (polls : list Drift) : M unit :=
  match polls with
  | [] =>
      raise (RouteGuardError
               ("VPN interface '" +:+ vpn_iface (cfg r) +:+ "' not found."))
  | d :: rest =>
      _ ← modify (apply_drift d);
      up ← interface_exists (vpn_iface (cfg r));
      if (up : bool) then mret tt else wait_for_iface r rest
  end.

Definition alert_line (msg : string) : string :=
  "ALERT suspicious route detected: " +:+ msg.

(** The first statement of the loop body: in [protect] mode a missing
    table is put back. *)
Definition self_heal (r : RouteGuardRunner) : M unit :=
  if String.eqb (mode (cfg r)) "protect" then
    present ← routeguard_table_exists;
    if negb present then
      _ ← call_logger (logger r) "WARNING: nft table missing, re-applying rules.";
      apply_nft_rules (cfg r) (logger r)
    else mret tt
  else mret tt.

(** The scan of both routing tables and the alerts for what is new;
    [warned] comes in and the new value of [warned] is returned. *)
Definition scan_and_alert (r : RouteGuardRunner) (warned : gset string)
  : M (gset string) :=
  v4 ← ip_json_routes false;
  let found4 := suspicious_routes v4 (vpn_iface (cfg r)) false in
  v6 ← ip_json_routes true;
  let found6 := suspicious_routes v6 (vpn_iface (cfg r)) true in
  let current : gset string := list_to_set (found4 ++ found6) in
  _ ← for_each (py_sorted (elements (current ∖ warned)))
               (fun msg => call_logger (logger r) (alert_line msg));
  mret current.

(** One pass of the body of the [while] loop.  The sleep that ends it, cut
    into ticks to notice the stop event early, changes nothing here. *)
Definition monitor_cycle (r : RouteGuardRunner) (warned : gset string)
  : M (gset string) :=
  _ ← self_heal r;
  scan_and_alert r warned.

Fixpoint monitor_loop (r : RouteGuardRunner) (cycles : list Drift)
  (warned : gset string) : M unit :=
  match cycles with
  | [] => mret tt
  | d :: rest =>
      _ ← modify (apply_drift d);
      current ← monitor_cycle r warned;
      monitor_loop r rest current
  end.

Definition endpoint_summary (e : EndpointRule) : string :=
  ip e +:+ ":" +:+ Py.str_of_int (port e) +:+ "/" +:+ proto e.

(** The statements of the [try] block.  [Some code] is an early [return]. *)
Definition mode_dispatch (r : RouteGuardRunner) (s : Schedule)
  : M (option Z) :=
  _ ← (if auto_up_vpn r then wg_quick_up (vpn_iface (cfg r)) (logger r)
       else mret tt);
  if String.eqb (mode (cfg r)) "protect" then
    _ ← wait_for_iface r (wait_polls s);
    _ ← apply_nft_rules (cfg r) (logger r);
    mret None
  else if String.eqb (mode (cfg r)) "monitor" then
    _ ← call_logger (logger r)
          "Monitor mode: no nftables blocking rules will be applied.";
    mret None
  else if String.eqb (mode (cfg r)) "off" then
    _ ← remove_nft_rules (logger r);
    _ ← call_logger (logger r) "Off mode: exiting.";
    mret (Some 0)
  else raise (RouteGuardError ("Unknown mode: " +:+ mode (cfg r))).

Definition monitoring (r : RouteGuardRunner) (s : Schedule) : M Z :=
  statep ← write_state (cfg r) None;
  _ ← call_logger (logger r) ("State file: " +:+ statep);
  _ ← monitor_loop r (cycles s) ∅;
  _ ← call_logger (logger r) "Stopping RouteGuard...";
  mret 0.

Definition run_body (r : RouteGuardRunner) (s : Schedule) : M Z :=
  early ← mode_dispatch r s;
  match early with
  | Some code => mret code
  | None => monitoring r s
  end.

(** The three teardown steps of the [finally] clauses. *)
Definition teardown_firewall (r : RouteGuardRunner) : M unit :=
  if cleanup_nft_on_exit r && String.eqb (mode (cfg r)) "protect"
  then remove_nft_rules (logger r)
  else mret tt.

Definition teardown_tunnel (r : RouteGuardRunner) : M unit :=
  if auto_down_vpn_on_exit r
  then try_except (wg_quick_down (vpn_iface (cfg r)) (logger r))
                  (fun e => call_logger (logger r)
                              ("WARNING wg-quick down failed: " +:+ exn_str e))
  else mret tt.

Definition run (r : RouteGuardRunner) (s : Schedule) : M Z :=
  _ ← call_logger (logger r)
        ("RouteGuard starting: mode=" +:+ mode (cfg r) +:+ ", iface="
           +:+ vpn_iface (cfg r) +:+ ", interval="
           +:+ Py.str_of_int (poll_interval_sec (cfg r)) +:+ "s");
  _ ← call_logger (logger r)
        ("Endpoints: "
           +:+ Py.join ", " (List.map endpoint_summary (endpoints_or_empty (cfg r))));
  try_finally
    (run_body r s)
    (try_finally
       (teardown_firewall r)
       (_ ← teardown_tunnel r; remove_state)).

(** * The specification's side

    Definitions that follow the wording of the specification; the theorems
    below compare them with the functions embedded above. *)

(** ** Required rule order (specification, section 4.4) *)

Definition table_open : list string :=
  [ "table inet routeguard {";
    "  chain rg_output {";
    "    type filter hook output priority filter; policy accept;" ].

Definition table_close : list string := [ "  }"; "}" ].

(** Interface names are interpolated without their quote characters. *)
Definition sanitized_iface (cfg : GeneratedConfig) : string :=
  Py.remove_chr Py.dquote_chr (vpn_iface cfg).

(** 1. accept on the loopback device *)
Definition rule_loopback : string :=
  "    oifname " +:+ Py.dquote +:+ "lo" +:+ Py.dquote +:+ " accept".

(** 2. accept on the tunnel interface itself *)
Definition rule_tunnel (cfg : GeneratedConfig) : string :=
  "    oifname " +:+ Py.dquote +:+ sanitized_iface cfg +:+ Py.dquote +:+ " accept".

(** 3. accept towards the IPv6 link-local and multicast ranges *)
Definition rule_link_local : string :=
  "    ip6 daddr { fe80::/10, ff00::/8 } accept".

(** 4. the DHCPv4 and DHCPv6 client exchanges *)
Definition rules_dhcp : list string :=
  [ "    udp sport 68 udp dport 67 accept";
    "    udp sport 546 udp dport 547 accept" ].

(** 5. the private IPv4 ranges and the private IPv6 range *)
Definition rules_lan : list string :=
  [ "    ip daddr { 10.0.0.0/8, 172.16.0.0/12, 192.168.0.0/16 } accept";
    "    ip6 daddr fc00::/7 accept" ].

(** 6. one accept per endpoint: family by literal syntax, protocol, port *)
Definition rule_endpoint (e : EndpointRule) : string :=
  "    " +:+ (if Py.has_chr ":" (ip e) then "ip6" else "ip") +:+ " daddr "
    +:+ ip e +:+ " " +:+ Py.lower (proto e) +:+ " dport "
    +:+ Py.str_of_int (port e) +:+ " accept".

(** 7. the catch-all: drop what leaves by another device than the tunnel *)
Definition rule_drop (cfg : GeneratedConfig) : string :=
  "    oifname != " +:+ Py.dquote +:+ sanitized_iface cfg +:+ Py.dquote +:+ " drop".

Definition required_rules (cfg : GeneratedConfig) : list string :=
  [ rule_loopback; rule_tunnel cfg; rule_link_local ]
    ++ (if allow_dhcp cfg then rules_dhcp else [])
    ++ (if allow_lan cfg then rules_lan else [])
    ++ List.map rule_endpoint (default [] (vpn_endpoints cfg))
    ++ [ rule_drop cfg ].

(** The rules of the chain in a list of script lines: what stands between
    the three opening lines and the two closing ones. *)
Definition chain_rules (lines : list string) : list string :=
  take (length lines - 5) (drop 3 lines).

(** A text made of lines, each ended by a line feed. *)
Definition unlines (lines : list string) : string :=
  String.concat "" (List.map (fun l => l +:+ Py.nl) lines).

(** ** Split-default leaks (specification, section 4.6) *)

(** The destination is one of the two half-range prefixes of the family. *)
Definition is_split_default (ipv6 : bool) (dst : string) : Prop :=
  if ipv6 then dst = "::/1" ∨ dst = "8000::/1"
  else dst = "0.0.0.0/1" ∨ dst = "128.0.0.0/1".

(** A route leaks when its destination is a split-default prefix and its
    egress device is set and is not the tunnel interface. *)
Definition is_leak (tunnel : string) (ipv6 : bool) (r : gmap string string)
  : Prop :=
  (∃ dst, r !! "dst" = Some dst ∧ is_split_default ipv6 dst)
  ∧ route_dev r ≠ "" ∧ route_dev r ≠ tunnel.

#[global] Instance is_split_default_dec ipv6 dst : Decision (is_split_default ipv6 dst).
Proof. unfold is_split_default. destruct ipv6; apply _. Defined.

#[global] Instance is_leak_dec tunnel ipv6 r : Decision (is_leak tunnel ipv6 r).
Proof.
  unfold is_leak.
  destruct (r !! "dst") as [dst|].
  - destruct (decide (is_split_default ipv6 dst)) as [Hd|Hd].
    + destruct (decide (route_dev r ≠ "" ∧ route_dev r ≠ tunnel)) as [H|H].
      * left. split; [exists dst; auto | exact H].
      * right. intros [_ H']. exact (H H').
    + right. intros [[d [Hs Hd']] _]. inversion Hs; subst. exact (Hd Hd').
  - right. intros [[d [Hs _]] _]. discriminate Hs.
Defined.

(** ** Endpoints of a configuration (specification, section 4.3) *)

(** One rule per resolved address of the peer's endpoint, always [udp];
    none for a peer without endpoint. *)
Definition peer_rules (ns : NameService) (peer : gmap string string)
  : result (list EndpointRule) :=
  match peer !! "Endpoint" with
  | Some (String c s) =>
      hp ← parse_endpoint (String c s);
      ips ← resolve_host_ips ns hp.1;
      Ok (List.map (fun a => mkEndpointRule a hp.2 "udp") ips)
  | _ => Ok []
  end.

(** The rules of all peers in peer order, before deduplication. *)
Fixpoint all_peer_rules (ns : NameService) (ps : list (gmap string string))
  : result (list EndpointRule) :=
  match ps with
  | [] => Ok []
  | p :: ps' =>
      here ← peer_rules ns p;
      rest ← all_peer_rules ns ps';
      Ok (here ++ rest)
  end.

(** The number of rules a peer contributes. *)
Definition peer_count (ns : NameService) (peer : gmap string string) : nat :=
  match peer_rules ns peer with
  | Ok here => length here
  | Raise _ => 0%nat
  end.

(** Deduplication that keeps the first occurrence and the order. *)
Fixpoint keep_first (seen : list EndpointRule) (l : list EndpointRule)
  : list EndpointRule :=
  match l with
  | [] => []
  | e :: l' =>
      if bool_decide (e ∈ seen) then keep_first seen l'
      else e :: keep_first (e :: seen) l'
  end.

(** ** Runner observations *)

(** Two host states that differ at most in their trace. *)
Definition same_host (w w' : World) : Prop :=
  on_path w' = on_path w ∧ nft_table w' = nft_table w
  ∧ nft_verdict w' = nft_verdict w ∧ wg_quick_verdict w' = wg_quick_verdict w
  ∧ links w' = links w ∧ routes w' = routes w
  ∧ can_mkdir w' = can_mkdir w ∧ can_write w' = can_write w
  ∧ files w' = files w ∧ pid w' = pid w ∧ clock w' = clock w.

(** The world after a line went to a logger. *)
Definition log_with (lg : Logger) (msg : string) (w : World) : World :=
  match lg with
  | Recording => record (Log msg) w
  | Discarding => w
  end.

(** What [remove_nft_rules] reports. *)
Definition removal_line (present : bool) : string :=
  if present then "Removed nftables table inet routeguard."
  else "nftables table inet routeguard was not present (nothing to remove).".

(** The world after [remove_nft_rules]. *)
Definition after_remove (lg : Logger) (w : World) : World :=
  if on_path w "nft"
  then log_with lg (removal_line (nft_table w))
                (set_nft_table false (record (Exec nft_delete_argv None) w))
  else w.

(** The events a line sent to a logger leaves. *)
Definition logged (lg : Logger) (msg : string) : list event :=
  match lg with
  | Recording => [Log msg]
  | Discarding => []
  end.

(** What [wg_quick_down] reports for the answer of [wg-quick down]. *)
Definition down_line (iface : string) (cp : CompletedProcess) : string :=
  if returncode cp =? 0
  then "WireGuard interface '" +:+ iface +:+ "' is down."
  else "wg-quick down " +:+ iface +:+ ": "
         +:+ first_nonempty (Py.strip (stdout cp +:+ stderr cp)) "no action".

(** The three teardown steps as the specification orders them: what each
    of them asks of the host when started in the state [w]. *)
Definition firewall_teardown_events (r : RouteGuardRunner) (w : World)
  : list event :=
  if cleanup_nft_on_exit r && String.eqb (mode (cfg r)) "protect"
     && on_path w "nft"
  then Exec nft_delete_argv None :: logged (logger r) (removal_line (nft_table w))
  else [].

Definition tunnel_teardown_events (r : RouteGuardRunner) (w : World)
  : list event :=
  if auto_down_vpn_on_exit r && on_path w "wg-quick"
  then Exec ["wg-quick"; "down"; vpn_iface (cfg r)] None
         :: logged (logger r)
                   (down_line (vpn_iface (cfg r))
                              (wg_quick_verdict w "down" (vpn_iface (cfg r))))
  else [].

Definition state_teardown_events : list event :=
  List.map Unlink STATE_PATHS.

(** The two lines logged before the [try] block. *)
Definition opening_events (r : RouteGuardRunner) : list event :=
  logged (logger r)
         ("RouteGuard starting: mode=" +:+ mode (cfg r) +:+ ", iface="
            +:+ vpn_iface (cfg r) +:+ ", interval="
            +:+ Py.str_of_int (poll_interval_sec (cfg r)) +:+ "s")
  ++ logged (logger r)
       ("Endpoints: "
          +:+ Py.join ", " (List.map endpoint_summary (endpoints_or_empty (cfg r)))).

(** Appending events to the trace of a world. *)
Definition extend (evs : list event) (w : World) : World :=
  fold_left (fun w e => record e w) evs w.

(** A computation keeps a relation between the world before and after. *)
Definition preserves {A : Type} (R : World -> World -> Prop) (m : M A) : Prop :=
  ∀ w, R w (m w).2.

(** Files other than the state files are left alone, and so is the
    search path. *)
Definition keeps_other_files (w w' : World) : Prop :=
  on_path w' = on_path w
  ∧ ∀ p, p ∉ STATE_PATHS -> files w' !! p = files w !! p.

(** Everything the scan reads is left alone. *)
Definition keeps_routes (w w' : World) : Prop :=
  on_path w' = on_path w ∧ routes w' = routes w.

(** The condition under which [wg-quick up] counts as a success. *)
Definition tunnel_up_succeeds (iface : string) (w : World) : bool :=
  on_path w "wg-quick"
  && let cp := wg_quick_verdict w "up" iface in
     let out := stdout cp +:+ stderr cp in
     (returncode cp =? 0)
     || Py.contains "already exists" out || Py.contains "already up" out.

(** The alerts a scan of the present routing tables yields. *)
Definition current_alerts (tunnel : string) (w : World) : gset string :=
  list_to_set
    (suspicious_routes (default [] (routes w false)) tunnel false
       ++ suspicious_routes (default [] (routes w true)) tunnel true).

(** The events of a run that belong to the monitoring phase or to
    applying rules. *)
Definition is_apply (e : event) : Prop :=
  ∃ input, e = Exec nft_load_argv input.

Definition is_state_write (e : event) : Prop :=
  ∃ p, e = Write p.

Definition is_route_poll (e : event) : Prop :=
  ∃ ipv6, e = Exec (ip_route_argv ipv6) None.
(** An event that neither applies rules, nor writes the state file, nor
    polls the routing tables. *)
Definition quiet (e : event) : Prop :=
  ¬ is_apply e ∧ ¬ is_state_write e ∧ ¬ is_route_poll e.

(** ** Sample inputs *)

(** A WireGuard file with two peers: one names its endpoint by address,
    the other by a host name that resolves to two addresses, the first of
    which is the address of the first peer. *)
Definition sample_conf : string :=
  Py.join Py.nl
    [ "[Interface]"; "PrivateKey = kA3x="; "Address = 10.8.0.2/24"; "";
      "# first peer"; "[Peer]"; "PublicKey = pB7y=";
      "Endpoint = 203.0.113.5:51820"; "";
      "[peer]"; "Endpoint = vpn.example.org:51820"; "" ].

Definition sample_path : string := "/etc/wireguard/wg0.conf".

Definition sample_ns : NameService :=
  mkNameService
    (fun v6 host => negb v6 && String.eqb host "203.0.113.5")
    (fun host =>
       if String.eqb host "vpn.example.org"
       then inl [ "203.0.113.5"; "198.51.100.7"; "203.0.113.5" ]
       else inr "[Errno -2] Name or service not known").

Definition sample_data : WgData :=
  mkWgData
    {[ "PrivateKey" := "kA3x="; "Address" := "10.8.0.2/24" ]}
    [ {[ "PublicKey" := "pB7y="; "Endpoint" := "203.0.113.5:51820" ]};
      {[ "Endpoint" := "vpn.example.org:51820" ]} ].

(** The file of the end-to-end scenario: one peer, named by address. *)
Definition single_peer_conf : string :=
  Py.join Py.nl [ "[Interface]"; "PrivateKey = kA3x="; "";
                  "[Peer]"; "Endpoint = 203.0.113.5:51820" ].

(** A host with every program installed, an empty routing table, no
    interface [wg0] yet and no table loaded. *)
Definition sample_world : World :=
  mkWorld (fun _ => true) false
          (fun _ => exit_status true) (fun _ _ => exit_status true)
          [] (fun _ => Some []) (fun _ => true) (fun _ => true)
          ∅ 4242 "2026-01-01 00:00:00" [].

Definition sample_config (mode : string) : GeneratedConfig :=
  mkGeneratedConfig mode "wg0" 5 true true
                    (Some [mkEndpointRule "203.0.113.5" 51820 "udp"]).

(** A split-default route that leaves by [eth0]. *)
Definition leak_route : gmap string string :=
  {[ "dst" := "0.0.0.0/1"; "gateway" := "192.168.1.1"; "dev" := "eth0" ]}.

Definition leak_alert : string :=
  "0.0.0.0/1 via dev=eth0 gateway=192.168.1.1".

(** The IPv4 routing table becomes [table]; nothing else changes. *)
Definition routes_become (table : list (gmap string string)) : Drift :=
  mkDrift None None
          (Some (fun ipv6 : bool => if ipv6 then Some [] else Some table)).

Definition no_drift : Drift := mkDrift None None None.

(** * Further functions of the module and of its callers *)

(** ** [read_state] and [status_summary] *)

(** The loop of [read_state]: the first candidate that exists decides.
    A state file is kept as the value whose JSON text it holds, so
    [json.loads] gives that value back; text that is no JSON (for which
    the function answers [None]) has no counterpart here. *)
Fixpoint first_present (fs : gmap string json) (candidates : list string)
  : option json :=
  match candidates with
  | [] => None
  | p :: rest =>
      match fs !! p with
      | Some v => Some v
      | None => first_present fs rest
      end
  end.

Definition read_state : M (option json) :=
  fun w => (Ok (first_present (files w) STATE_PATHS), w).

(** The dict that [status_summary] returns; [None] is rendered [JNull]. *)
Definition status_summary : M (list (string * json)) :=
  present ← routeguard_table_exists;
  state ← read_state;
  mret [ ("routeguard_nft_table_present", JBool present);
         ("state", default JNull state) ].

(** ** [check_dependencies] and [ensure_root_if_needed] *)

(** [tk_importable] says whether [import tkinter] succeeds. *)
Definition check_dependencies (require_tk tk_importable : bool)
  : M (list string) :=
  ip_found ← command_exists "ip";
  nft_found ← command_exists "nft";
  let missing :=
    (if (ip_found : bool) then [] else ["ip"])
      ++ (if (nft_found : bool) then [] else ["nft"]) in
  if require_tk && negb tk_importable
  then mret (missing ++ ["python-tk"])
  else mret missing.

(** [euid] is the answer of [os.geteuid()]. *)
Definition ensure_root_if_needed (euid : Z) (mode : string) : M unit :=
  if (String.eqb mode "protect" || String.eqb mode "monitor"
      || String.eqb mode "off")
     && negb (euid =? 0)
  then raise (RouteGuardError "Please run as root (sudo).")
  else mret tt.

(** ** The command [cleanup] of the command line *)

Definition cmd_cleanup (euid : Z) : M Z :=
  _ ← ensure_root_if_needed euid "protect";
  _ ← remove_nft_rules Recording;
  mret 0.

(** ** Observations used by the theorems on these functions *)

(** The second world continues the trace of the first by events that
    all satisfy [P]. *)
Definition adds (P : event -> Prop) (w w' : World) : Prop :=
  ∃ evs, trace w' = trace w ++ evs ∧ Forall P evs.

(** An event that starts the [nft] program. *)
Definition is_nft (e : event) : Prop :=
  ∃ rest input, e = Exec ("nft" :: rest) input.

(** A line is a [[peer]] section header for the parser. *)
Definition is_peer_header (raw_line : string) : bool :=
  let line := Py.strip raw_line in
  Py.startswith "[" line && Py.endswith "]" line
  && String.eqb (Py.lower (Py.strip (Py.drop_first_last line))) "peer".

(** The parser's [current_peer] refers to the last peer, and is set
    exactly while the current section is [peer]. *)
Definition parse_state_ok (st : ParseState) : Prop :=
  match current_peer st with
  | Some i => current_section st = Some "peer" ∧ S i = length (peers st)
  | None => current_section st ≠ Some "peer"
  end.

(** The last binding of a key in a list of pairs. *)
Definition last_binding (k : string) (kvs : list (string * json)) : option json :=
  dict_get k (rev kvs).

(** The nft program is there and accepts the script of a configuration. *)
Definition nft_accepts (c : GeneratedConfig) (w : World) : Prop :=
  on_path w "nft" = true
  ∧ returncode (nft_verdict w (build_nft_script c)) = 0.

(** The line [apply_nft_rules] logs on success. *)
Definition applied_line (c : GeneratedConfig) : string :=
  "Applied nftables rules for iface '" +:+ vpn_iface c +:+ "' ("
    +:+ Py.str_of_int (Z.of_nat (length (endpoints_or_empty c)))
    +:+ " endpoint rule(s)).".

(** What [nft -f -] said, as [apply_nft_rules] reports it. *)
Definition load_complaint (cp : CompletedProcess) : string :=
  first_nonempty (Py.strip (first_nonempty (stderr cp) (stdout cp)))
                 "unknown error".

(** The commands [apply_nft_rules] issues before it looks at the answer
    of [nft -f -]. *)
Definition load_events (c : GeneratedConfig) : list event :=
  [ Exec nft_delete_argv None; Exec nft_load_argv (Some (build_nft_script c)) ].

(** [d.update(extra)] on insertion-ordered dicts. *)
Definition dict_update (d extra : list (string * json)) : list (string * json) :=
  fold_left (fun d kv => dict_set kv.1 kv.2 d) extra d.

(** The payload of the state file before [extra] is merged in, and
    after. *)
Definition base_payload (c : GeneratedConfig) (w : World)
  : list (string * json) :=
  [ ("pid", JInt (pid w)); ("started_at", JStr (clock w));
    ("config", JDict (to_dict c)) ].

Definition state_payload (c : GeneratedConfig)
  (extra : option (list (string * json))) (w : World) : list (string * json) :=
  dict_update (base_payload c w) (default [] extra).

(** A file lies in a directory that exists, so that making the
    directory with [exist_ok=True] succeeds. *)
Definition files_have_dirs (w : World) : Prop :=
  ∀ q v, files w !! q = Some v -> can_mkdir w (path_parent q) = true.

(** The programs a runner may start, by its mode and its options. *)
Definition programs_of (r : RouteGuardRunner) : list string :=
  (if String.eqb (mode (cfg r)) "protect" || String.eqb (mode (cfg r)) "monitor"
   then ["ip"] else [])
  ++ (if String.eqb (mode (cfg r)) "protect" || String.eqb (mode (cfg r)) "off"
      then ["nft"] else [])
  ++ (if auto_up_vpn r || auto_down_vpn_on_exit r then ["wg-quick"] else []).

(** What a run may ask of the host: its own programs, lines to its
    logger if that one hands lines on, and the state files. *)
Definition may_do (r : RouteGuardRunner) (e : event) : Prop :=
  match e with
  | Exec (prog :: _) _ => prog ∈ programs_of r
  | Exec [] _ => False
  | Log _ => logger r = Recording
  | Write p => p ∈ STATE_PATHS
  | Unlink p => p ∈ STATE_PATHS
  end.

(** The three modes the runner knows. *)
Definition known_mode (m : string) : bool :=
  String.eqb m "protect" || String.eqb m "monitor" || String.eqb m "off".

(** The host after other actors have acted as a list of drifts says. *)
Definition drifted (ds : list Drift) (w : World) : World :=
  fold_left (fun w d => apply_drift d w) ds w.

(** The command [_wait_for_iface] polls with. *)
Definition link_poll (iface : string) : event :=
  Exec ["ip"; "link"; "show"; iface] None.

(** Text made of ASCII characters only.  On such text the string
    primitives do what [str.strip], [str.splitlines], [str.lower] and
    [str.isdigit] do; beyond it Python also knows white space, line
    breaks and digits that these do not. *)
Fixpoint ascii_text (s : string) : bool :=
  match s with
  | EmptyString => true
  | String a s' => (Ascii.nat_of_ascii a <? 128)%nat && ascii_text s'
  end.

(** * The runner on a host where calls fail

    The definitions above take the operating system at its word: a
    program that [shutil.which] finds starts, the logger returns, a file
    that exists can be removed, and [wg-quick] leaves links and routes
    as they are.  [run] itself does not rely on that: the nested
    [finally] clauses, the [except Exception] around [wg_quick_down] and
    the one in [remove_state] are written for calls that raise.  This
    part embeds the same functions once more, statement by statement, on
    a host that an [Env] describes in addition to its [World]:
    - [spawn_error w argv]: the exception with which [subprocess.run]
      fails to start a program that is on the search path (a
      [PermissionError], an [OSError] for a file that is no executable),
      if it does;
    - [logger_error w line]: the exception the runner's logger raises
      when handed the line (a [print] to a closed pipe), if it does; the
      logger [lambda _msg: None] never raises;
    - [unlink_error w path]: the exception with which [Path.unlink]
      fails on a file that exists, if it does;
    - [write_error w path]: the exception of a [Path.write_text] that
      fails;
    - [tunnel_effect w verb iface]: what a run of [wg-quick] does to
      links, routes and the table;
    - [last_sleep]: what other actors do to the host between the last
      check of the loop and the moment the loop is left.
    The exception of a program that is not found carries the name of
    the program; [exn_str] gives its text as Python words it. *)

Record Env := mkEnv {
  spawn_error : World -> list string -> option exn;
  logger_error : World -> string -> option exn;
  unlink_error : World -> string -> option exn;
  write_error : World -> string -> exn;
  tunnel_effect : World -> string -> string -> Drift;
  last_sleep : Drift
}.

(** The host on which nothing of that happens. *)
Definition calm : Env :=
  mkEnv (fun _ _ => None) (fun _ _ => None) (fun _ _ => None)
        (fun _ p => OSError ("cannot write " +:+ p))
        (fun _ _ _ => no_drift) no_drift.

Module Failing.

(** [str(e)] *)
Definition exn_str (e : exn) : string :=
  match e with
  | RouteGuardError msg => msg
  | FileNotFoundError name =>
      "[Errno 2] No such file or directory: '" +:+ name +:+ "'"
  | OSError msg => msg
  end.

Definition call_logger (env : Env) (lg : Logger) (msg : string) : M unit :=
  match lg with
  | Recording =>
      fun w =>
        match logger_error env w msg with
        | Some e => (Raise e, w)
        | None => (Ok tt, record (Log msg) w)
        end
  | Discarding => mret tt
  end.

(** The answer of a program that started: as before, and [wg-quick]
    has its effect on the host. *)
Definition host_answer (env : Env) (args : list string) (input : option string)
  (w : World) : CompletedProcess * World :=
  let '(cp, w') := host_answer args input w in
  match args with
  | [prog; verb; iface] =>
      if bool_decide (prog = "wg-quick")
      then (cp, apply_drift (tunnel_effect env w verb iface) w')
      else (cp, w')
  | _ => (cp, w')
  end.

Definition run_cmd (env : Env) (args : list string) (input_data : option string)
  : M CompletedProcess :=
  fun w =>
    let w := record (Exec args input_data) w in
    match args with
    | [] => (Raise (OSError "empty argv"), w)
    | prog :: _ =>
        if on_path w prog then
          match spawn_error env w args with
          | Some e => (Raise e, w)
          | None =>
              let '(cp, w') := host_answer env args input_data w in (Ok cp, w')
          end
        else (Raise (FileNotFoundError prog), w)
    end.

Definition interface_exists (env : Env) (iface : string) : M bool :=
  cp ← run_cmd env ["ip"; "link"; "show"; iface] None;
  mret (returncode cp =? 0).

Definition routeguard_table_exists (env : Env) : M bool :=
  found ← command_exists "nft";
  if (found : bool)
  then cp ← run_cmd env nft_list_argv None; mret (returncode cp =? 0)
  else mret false.

Definition remove_nft_rules (env : Env) (logger : Logger) : M unit :=
  found ← command_exists "nft";
  if negb found then mret tt
  else
    cp ← run_cmd env nft_delete_argv None;
    if returncode cp =? 0
    then call_logger env logger "Removed nftables table inet routeguard."
    else call_logger env logger
           "nftables table inet routeguard was not present (nothing to remove).".

Definition apply_nft_rules (env : Env) (cfg : GeneratedConfig) (logger : Logger)
  : M unit :=
  found ← command_exists "nft";
  if negb found
  then raise (RouteGuardError "nft command not found. Install nftables.")
  else
    _ ← remove_nft_rules env Discarding;
    let script := build_nft_script cfg in
    cp ← run_cmd env nft_load_argv (Some script);
    if negb (returncode cp =? 0) then
      let err := Py.strip (first_nonempty (stderr cp) (stdout cp)) in
      raise (RouteGuardError
               ("nft failed to apply rules: "
                  +:+ first_nonempty err "unknown error"))
    else
      present ← routeguard_table_exists env;
      if negb present
      then raise (RouteGuardError
                    "Failed to apply nft rules (table inet routeguard missing).")
      else
        call_logger env logger
          ("Applied nftables rules for iface '" +:+ vpn_iface cfg +:+ "' ("
             +:+ Py.str_of_int (Z.of_nat (length (endpoints_or_empty cfg)))
             +:+ " endpoint rule(s)).").

Definition ip_json_routes (env : Env) (ipv6 : bool)
  : M (list (gmap string string)) :=
  cp ← run_cmd env (ip_route_argv ipv6) None;
  if negb (returncode cp =? 0) then mret []
  else w ← get_world; mret (default [] (routes w ipv6)).

Definition wg_quick_up (env : Env) (iface : string) (logger : Logger) : M unit :=
  found ← command_exists "wg-quick";
  if negb found
  then raise (RouteGuardError "wg-quick not found. Install wireguard-tools.")
  else
    cp ← run_cmd env ["wg-quick"; "up"; iface] None;
    let out := stdout cp +:+ stderr cp in
    if negb (returncode cp =? 0)
       && negb (Py.contains "already exists" out)
       && negb (Py.contains "already up" out)
    then raise (RouteGuardError
                  ("wg-quick up " +:+ iface +:+ " failed:" +:+ Py.nl
                     +:+ Py.strip out))
    else call_logger env logger
           ("WireGuard interface '" +:+ iface +:+ "' is up (or already up).").

Definition wg_quick_down (env : Env) (iface : string) (logger : Logger)
  : M unit :=
  found ← command_exists "wg-quick";
  if negb found then mret tt
  else
    cp ← run_cmd env ["wg-quick"; "down"; iface] None;
    let out := stdout cp +:+ stderr cp in
    if returncode cp =? 0
    then call_logger env logger
           ("WireGuard interface '" +:+ iface +:+ "' is down.")
    else call_logger env logger
           ("wg-quick down " +:+ iface +:+ ": "
              +:+ first_nonempty (Py.strip out) "no action").

Definition write_text (env : Env) (p : string) (content : json) : M unit :=
  fun w =>
    let w := record (Write p) w in
    if can_write w p
    then (Ok tt, set_files (<[p := content]> (files w)) w)
    else (Raise (write_error env w p), w).

Definition write_state (env : Env) (cfg : GeneratedConfig)
  (extra : option (list (string * json))) : M string :=
  p ← state_path;
  w ← get_world;
  let payload :=
    [ ("pid", JInt (pid w)); ("started_at", JStr (clock w));
      ("config", JDict (to_dict cfg)) ] in
  let payload :=
    match extra with
    | Some (kv :: kvs) =>
        fold_left (fun d kv => dict_set kv.1 kv.2 d) (kv :: kvs) payload
    | _ => payload
    end in
  _ ← write_text env p (JDict payload);
  mret p.

Definition unlink (env : Env) (p : string) : M unit :=
  fun w =>
    let w := record (Unlink p) w in
    match files w !! p with
    | Some _ =>
        match unlink_error env w p with
        | Some e => (Raise e, w)
        | None => (Ok tt, set_files (delete p (files w)) w)
        end
    | None => (Raise (FileNotFoundError p), w)
    end.

Definition remove_state (env : Env) : M unit :=
  for_each STATE_PATHS
           (fun p => try_except (unlink env p) (fun _ => mret tt)).

Fixpoint wait_for_iface (env : Env) (r : RouteGuardRunner) (polls : list Drift)
  : M unit :=
  match polls with
  | [] =>
      raise (RouteGuardError
               ("VPN interface '" +:+ vpn_iface (cfg r) +:+ "' not found."))
  | d :: rest =>
      _ ← modify (apply_drift d);
      up ← interface_exists env (vpn_iface (cfg r));
      if (up : bool) then mret tt else wait_for_iface env r rest
  end.

Definition self_heal (env : Env) (r : RouteGuardRunner) : M unit :=
  if String.eqb (mode (cfg r)) "protect" then
    present ← routeguard_table_exists env;
    if negb present then
      _ ← call_logger env (logger r)
            "WARNING: nft table missing, re-applying rules.";
      apply_nft_rules env (cfg r) (logger r)
    else mret tt
  else mret tt.

Definition scan_and_alert (env : Env) (r : RouteGuardRunner)
  (warned : gset string) : M (gset string) :=
  v4 ← ip_json_routes env false;
  let found4 := suspicious_routes v4 (vpn_iface (cfg r)) false in
  v6 ← ip_json_routes env true;
  let found6 := suspicious_routes v6 (vpn_iface (cfg r)) true in
  let current : gset string := list_to_set (found4 ++ found6) in
  _ ← for_each (py_sorted (elements (current ∖ warned)))
               (fun msg => call_logger env (logger r) (alert_line msg));
  mret current.

Definition monitor_cycle (env : Env) (r : RouteGuardRunner)
  (warned : gset string) : M (gset string) :=
  _ ← self_heal env r;
  scan_and_alert env r warned.

Fixpoint monitor_loop (env : Env) (r : RouteGuardRunner) (cycles : list Drift)
  (warned : gset string) : M unit :=
  match cycles with
  | [] => mret tt
  | d :: rest =>
      _ ← modify (apply_drift d);
      current ← monitor_cycle env r warned;
      monitor_loop env r rest current
  end.

Definition mode_dispatch (env : Env) (r : RouteGuardRunner) (s : Schedule)
  : M (option Z) :=
  _ ← (if auto_up_vpn r then wg_quick_up env (vpn_iface (cfg r)) (logger r)
       else mret tt);
  if String.eqb (mode (cfg r)) "protect" then
    _ ← wait_for_iface env r (wait_polls s);
    _ ← apply_nft_rules env (cfg r) (logger r);
    mret None
  else if String.eqb (mode (cfg r)) "monitor" then
    _ ← call_logger env (logger r)
          "Monitor mode: no nftables blocking rules will be applied.";
    mret None
  else if String.eqb (mode (cfg r)) "off" then
    _ ← remove_nft_rules env (logger r);
    _ ← call_logger env (logger r) "Off mode: exiting.";
    mret (Some 0)
  else raise (RouteGuardError ("Unknown mode: " +:+ mode (cfg r))).

(** The loop is left when the stop event is seen set; what happened on
    the host since its last check has happened by then. *)
Definition monitoring (env : Env) (r : RouteGuardRunner) (s : Schedule) : M Z :=
  statep ← write_state env (cfg r) None;
  _ ← call_logger env (logger r) ("State file: " +:+ statep);
  _ ← monitor_loop env r (cycles s) ∅;
  _ ← modify (apply_drift (last_sleep env));
  _ ← call_logger env (logger r) "Stopping RouteGuard...";
  mret 0.

Definition run_body (env : Env) (r : RouteGuardRunner) (s : Schedule) : M Z :=
  early ← mode_dispatch env r s;
  match early with
  | Some code => mret code
  | None => monitoring env r s
  end.

Definition teardown_firewall (env : Env) (r : RouteGuardRunner) : M unit :=
  if cleanup_nft_on_exit r && String.eqb (mode (cfg r)) "protect"
  then remove_nft_rules env (logger r)
  else mret tt.

Definition teardown_tunnel (env : Env) (r : RouteGuardRunner) : M unit :=
  if auto_down_vpn_on_exit r
  then try_except (wg_quick_down env (vpn_iface (cfg r)) (logger r))
                  (fun e => call_logger env (logger r)
                              ("WARNING wg-quick down failed: " +:+ exn_str e))
  else mret tt.

Definition run (env : Env) (r : RouteGuardRunner) (s : Schedule) : M Z :=
  _ ← call_logger env (logger r)
        ("RouteGuard starting: mode=" +:+ mode (cfg r) +:+ ", iface="
           +:+ vpn_iface (cfg r) +:+ ", interval="
           +:+ Py.str_of_int (poll_interval_sec (cfg r)) +:+ "s");
  _ ← call_logger env (logger r)
        ("Endpoints: "
           +:+ Py.join ", "
                 (List.map endpoint_summary (endpoints_or_empty (cfg r))));
  try_finally
    (run_body env r s)
    (try_finally
       (teardown_firewall env r)
       (_ ← teardown_tunnel env r; remove_state env)).

End Failing.

(** ** Observations on a run with failures *)

(** The first teardown step has something to do. *)
Definition firewall_step_due (r : RouteGuardRunner) (w : World) : bool :=
  cleanup_nft_on_exit r && String.eqb (mode (cfg r)) "protect"
  && on_path w "nft".

(** The second teardown step has something to do. *)
Definition tunnel_step_due (r : RouteGuardRunner) (w : World) : bool :=
  auto_down_vpn_on_exit r && on_path w "wg-quick".

(** What a run raises when its [try] block ended in [body] and the
    firewall removal in [fw]: an exception of the [finally] clause takes
    the place of the outcome of the block. *)
Definition after_finally {A : Type} (body : result A) (fw : result unit)
  : result A :=
  match fw with
  | Raise e => Raise e
  | Ok _ => body
  end.

(** The two lines logged before the [try] block. *)
Definition opening (env : Env) (r : RouteGuardRunner) : M unit :=
  _ ← Failing.call_logger env (logger r)
        ("RouteGuard starting: mode=" +:+ mode (cfg r) +:+ ", iface="
           +:+ vpn_iface (cfg r) +:+ ", interval="
           +:+ Py.str_of_int (poll_interval_sec (cfg r)) +:+ "s");
  Failing.call_logger env (logger r)
    ("Endpoints: "
       +:+ Py.join ", " (List.map endpoint_summary (endpoints_or_empty (cfg r)))).

(** A host on which the state file under [/run] cannot be removed. *)
Definition sticky_state : Env :=
  mkEnv (fun _ _ => None) (fun _ _ => None)
        (fun _ p => if String.eqb p "/run/routeguard-auto/state.json"
                    then Some (OSError "[Errno 1] Operation not permitted")
                    else None)
        (fun _ p => OSError ("cannot write " +:+ p))
        (fun _ _ _ => no_drift) no_drift.

(** A host on which [nft] is found but cannot be started. *)
Definition broken_nft : Env :=
  mkEnv (fun _ argv => if bool_decide (head argv = Some "nft")
                       then Some (OSError "[Errno 8] Exec format error: 'nft'")
                       else None)
        (fun _ _ => None) (fun _ _ => None)
        (fun _ p => OSError ("cannot write " +:+ p))
        (fun _ _ _ => no_drift) no_drift.

(** A host whose [wg-quick] cannot be started and whose logger has lost
    its output by the time the run is torn down: it raises on the
    warning about the tunnel. *)
Definition lost_output : Env :=
  mkEnv (fun _ argv => if bool_decide (head argv = Some "wg-quick")
                       then Some (OSError "[Errno 13] Permission denied: 'wg-quick'")
                       else None)
        (fun _ line => if Py.startswith "WARNING wg-quick down failed" line
                       then Some (OSError "[Errno 32] Broken pipe")
                       else None)
        (fun _ _ => None)
        (fun _ p => OSError ("cannot write " +:+ p))
        (fun _ _ _ => no_drift) no_drift.

(** * Theorems *)

(** ** The rule compiler *)

Lemma endpoints_or_empty_default cfg :
  endpoints_or_empty cfg = default [] (vpn_endpoints cfg).
Proof.
  unfold endpoints_or_empty. destruct (vpn_endpoints cfg) as [[|e es]|]; reflexivity.
Qed.

Lemma fold_left_snoc {A B : Type} (f : B -> A) (xs : list B) (init : list A) :
  fold_left (fun acc x => acc ++ [f x]) xs init = init ++ List.map f xs.
Proof.
  revert init. induction xs as [|x xs IH]; intros init; simpl.
  - by rewrite app_nil_r.
  - rewrite IH. by rewrite <- app_assoc.
Qed.

Lemma build_nft_lines_shape cfg :
  build_nft_lines cfg = table_open ++ required_rules cfg ++ table_close.
Proof.
  unfold build_nft_lines, required_rules.
  rewrite fold_left_snoc, endpoints_or_empty_default.
  destruct (allow_dhcp cfg), (allow_lan cfg); simpl;
    rewrite <- ?app_assoc; reflexivity.
Qed.

Lemma chain_rules_between (rules : list string) :
  chain_rules (table_open ++ rules ++ table_close) = rules.
Proof.
  unfold chain_rules. 
  replace (length (table_open ++ rules ++ table_close) - 5)%nat
    with (length rules) by (rewrite !length_app; simpl; lia).
  change (drop 3 (table_open ++ rules ++ table_close)) with (rules ++ table_close).
  apply take_app_length.
Qed.

Lemma str_append_nil_r (s : string) : s +:+ "" = s.
Proof.
  induction s as [|a s IH]; [done|].
  change (String a (s +:+ "") = String a s). by rewrite IH.
Qed.

Lemma str_append_assoc (a b c : string) : (a +:+ b) +:+ c = a +:+ (b +:+ c).
Proof.
  induction a as [|x a IH]; [done|].
  change (String x ((a +:+ b) +:+ c) = String x (a +:+ (b +:+ c))). by rewrite IH.
Qed.

Lemma join_nl_unlines (lines : list string) :
  lines ≠ [] -> Py.join Py.nl lines +:+ Py.nl = unlines lines.
Proof.
  unfold unlines, Py.join.
  induction lines as [|l ls IH]; [done|]. intros _.
  destruct ls as [|l' ls].
  - reflexivity.
  - change (String.concat Py.nl (l :: l' :: ls))
      with (l +:+ Py.nl +:+ String.concat Py.nl (l' :: ls)).
    change (String.concat "" (List.map (fun l0 => l0 +:+ Py.nl) (l :: l' :: ls)))
      with ((l +:+ Py.nl) +:+ String.concat "" (List.map (fun l0 => l0 +:+ Py.nl) (l' :: ls))).
    rewrite <- IH by done.
    by rewrite !str_append_assoc.
Qed.

(** C2. The compiled rule set lists its rules in the required order:
    loopback accept, tunnel accept, IPv6 link-local accept, the two DHCP
    accepts when DHCP is allowed, the two private-range accepts when the
    LAN is allowed, one accept per endpoint, and the catch-all drop last,
    whatever the allow flags. *)
Theorem rules_in_required_order (cfg : GeneratedConfig) :
  let rules := chain_rules (build_nft_lines cfg) in
  build_nft_lines cfg = table_open ++ rules ++ table_close
  ∧ rules = required_rules cfg
  ∧ rules !! 0%nat = Some rule_loopback
  ∧ rules !! 1%nat = Some (rule_tunnel cfg)
  ∧ rules !! 2%nat = Some rule_link_local
  ∧ last rules = Some (rule_drop cfg)
  ∧ build_nft_script cfg = unlines (table_open ++ required_rules cfg ++ table_close).
Proof.
  intros rules. subst rules.
  rewrite build_nft_lines_shape, chain_rules_between.
  split_and!; try reflexivity.
  - unfold required_rules. rewrite !app_assoc. apply last_snoc.
  - unfold build_nft_script. rewrite build_nft_lines_shape.
    apply join_nl_unlines. discriminate.
Qed.

(** C10. A configuration built with its endpoint list left at [None] is
    handled by every consumer: the compiler emits the fixed accepts and
    the final drop with no endpoint rule in between, and [to_dict] and
    [to_json] render the endpoint list as an empty list. *)
Theorem absent_endpoints_total (m i : string) (p : Z) (lan dhcp : bool) :
  let c := mkGeneratedConfig m i p lan dhcp None in
  chain_rules (build_nft_lines c)
    = [ rule_loopback; rule_tunnel c; rule_link_local ]
        ++ (if dhcp then rules_dhcp else [])
        ++ (if lan then rules_lan else [])
        ++ [ rule_drop c ]
  ∧ build_nft_script c = unlines (table_open ++ chain_rules (build_nft_lines c) ++ table_close)
  ∧ endpoints_or_empty c = []
  ∧ to_dict c
    = [ ("mode", JStr m); ("vpn_iface", JStr i); ("poll_interval_sec", JInt p);
        ("allow_lan", JBool lan); ("allow_dhcp", JBool dhcp);
        ("vpn_endpoints", JList []) ]
  ∧ dict_get "vpn_endpoints" (to_dict c) = Some (JList [])
  ∧ ∃ before : string,
      to_json c
      = before +:+ Py.dquote +:+ "vpn_endpoints" +:+ Py.dquote +:+ ": []"
          +:+ Py.nl +:+ "}".
Proof.
  intros c.
  destruct (rules_in_required_order c) as (Hshape & Hrules & _ & _ & _ & _ & Htext).
  split_and!.
  - rewrite Hrules. reflexivity.
  - rewrite Htext, Hrules. reflexivity.
  - reflexivity.
  - reflexivity.
  - reflexivity.
  - exists ("{" +:+ Json.newline_indent 1
              +:+ (Json.encode_str "mode" +:+ ": " +:+ Json.encode_str m)
              +:+ ("," +:+ Json.newline_indent 1)
              +:+ (Json.encode_str "vpn_iface" +:+ ": " +:+ Json.encode_str i)
              +:+ ("," +:+ Json.newline_indent 1)
              +:+ (Json.encode_str "poll_interval_sec" +:+ ": " +:+ Py.str_of_int p)
              +:+ ("," +:+ Json.newline_indent 1)
              +:+ (Json.encode_str "allow_lan" +:+ ": " +:+ (if lan then "true" else "false"))
              +:+ ("," +:+ Json.newline_indent 1)
              +:+ (Json.encode_str "allow_dhcp" +:+ ": " +:+ (if dhcp then "true" else "false"))
              +:+ ("," +:+ Json.newline_indent 1)).
    unfold to_json, Json.dumps.
    change (to_dict c) with
      [ ("mode", JStr m); ("vpn_iface", JStr i); ("poll_interval_sec", JInt p);
        ("allow_lan", JBool lan); ("allow_dhcp", JBool dhcp);
        ("vpn_endpoints", JList []) ].
    destruct lan, dhcp; cbn [Json.dumps_at List.map fst snd Py.join String.concat];
      rewrite !str_append_assoc; reflexivity.
Qed.

(** ** The leak detector *)

Lemma str_leb_trans (a b c : string) :
  String.leb a b = true -> String.leb b c = true -> String.leb a c = true.
Proof.
  unfold String.leb.
  revert b c. induction a as [|x a IH]; intros [|y b] [|z c]; simpl; try done.
  unfold Ascii.compare.
  destruct (N.compare_spec (N_of_ascii x) (N_of_ascii y)) as [Hxy|Hxy|Hxy];
    destruct (N.compare_spec (N_of_ascii y) (N_of_ascii z)) as [Hyz|Hyz|Hyz];
    destruct (N.compare_spec (N_of_ascii x) (N_of_ascii z)) as [Hxz|Hxz|Hxz];
    try done; try lia.
  intros H1 H2. exact (IH b c H1 H2).
Qed.

#[global] Instance str_le_total : Total str_le.
Proof. intros a b. apply String.leb_total. Qed.

#[global] Instance str_le_trans : Transitive str_le.
Proof. intros a b c. apply str_leb_trans. Qed.

Lemma py_sorted_sorted (l : list string) : StronglySorted str_le (py_sorted l).
Proof. apply StronglySorted_merge_sort; apply _. Qed.

Lemma py_sorted_perm (l : list string) : py_sorted l ≡ₚ l.
Proof. apply merge_sort_Permutation. Qed.

Lemma leak_test_spec (tunnel : string) (ipv6 : bool) (r : gmap string string) :
  dst_in_targets (r !! "dst") (split_default_targets ipv6)
    && Py.truthy (Some (route_dev r))
    && negb (String.eqb (route_dev r) tunnel)
  = bool_decide (is_leak tunnel ipv6 r).
Proof.
  apply eq_true_iff_eq.
  rewrite !andb_true_iff, negb_true_iff, bool_decide_eq_true, String.eqb_neq.
  unfold is_leak, dst_in_targets, is_split_default, split_default_targets.
  assert (Htr : Py.truthy (Some (route_dev r)) = true ↔ route_dev r ≠ "").
  { destruct (route_dev r); simpl; split; congruence. }
  rewrite Htr.
  destruct (r !! "dst") as [d|]; simpl.
  - rewrite bool_decide_eq_true.
    assert (Hd : d ∈ (if ipv6 then ({[ "::/1"; "8000::/1" ]} : gset string)
                      else {[ "0.0.0.0/1"; "128.0.0.0/1" ]})
                 ↔ (if ipv6 then d = "::/1" ∨ d = "8000::/1"
                    else d = "0.0.0.0/1" ∨ d = "128.0.0.0/1")).
    { destruct ipv6; by rewrite elem_of_union, !elem_of_singleton. }
    rewrite Hd. split.
    + intros [[H1 H2] H3]. split; [exists d; by split | by split].
    + intros [[d' [Heq H1]] [H2 H3]]. injection Heq as <-. by split_and!.
  - split.
    + intros [[H1 _] _]. discriminate H1.
    + intros [[d [Heq _]] _]. discriminate Heq.
Qed.

Lemma suspicious_routes_from (tunnel : string) (ipv6 : bool)
  (routes : list (gmap string string)) (acc : list string) :
  fold_left
    (fun out r =>
       if dst_in_targets (r !! "dst") (split_default_targets ipv6)
          && Py.truthy (Some (route_dev r))
          && negb (String.eqb (route_dev r) tunnel)
       then out ++ [route_alert r] else out)
    routes acc
  = acc ++ List.map route_alert (filter (is_leak tunnel ipv6) routes).
Proof.
  revert acc. induction routes as [|r rs IH]; intros acc; simpl.
  - by rewrite app_nil_r.
  - rewrite IH, leak_test_spec, filter_cons.
    destruct (decide (is_leak tunnel ipv6 r)) as [Hl|Hl];
      [rewrite bool_decide_eq_true_2 by done
      |rewrite bool_decide_eq_false_2 by done]; simpl.
    + by rewrite <- app_assoc.
    + done.
Qed.

Lemma suspicious_routes_filter (routes : list (gmap string string))
  (tunnel : string) (ipv6 : bool) :
  suspicious_routes routes tunnel ipv6
  = List.map route_alert (filter (is_leak tunnel ipv6) routes).
Proof. unfold suspicious_routes. apply suspicious_routes_from. Qed.

(** C4. The scan flags a route exactly when its destination is one of
    the split-default prefixes of the family and its egress device
    ([route_dev]) is set and is not the tunnel interface: every route of
    the list contributes its alert in that case and nothing otherwise.  In particular a
    [0.0.0.0/1] route by [eth0] is flagged for tunnel [wg0], the same route
    by [wg0] is not, and an empty route list gives no alert. *)
Theorem scan_flags_exactly (routes : list (gmap string string))
  (tunnel : string) (ipv6 : bool) :
  suspicious_routes routes tunnel ipv6
  = flat_map (fun r => if decide (is_leak tunnel ipv6 r)
                       then [route_alert r] else [])
             routes
  ∧ suspicious_routes [ {[ "dst" := "0.0.0.0/1"; "dev" := "eth0" ]} ] "wg0" false
    = [ "0.0.0.0/1 via dev=eth0 gateway=-" ]
  ∧ suspicious_routes [ {[ "dst" := "0.0.0.0/1"; "dev" := "wg0" ]} ] "wg0" false
    = []
  ∧ suspicious_routes [] tunnel ipv6 = [].
Proof.
  split_and!; try reflexivity.
  rewrite suspicious_routes_filter.
  induction routes as [|r rs IH]; [done|].
  rewrite filter_cons. simpl flat_map. rewrite <- IH.
  destruct (decide (is_leak tunnel ipv6 r)); reflexivity.
Qed.

Lemma new_alerts_sorted_set (current warned : gset string) :
  let logged := py_sorted (elements (current ∖ warned)) in
  NoDup logged
  ∧ StronglySorted str_le logged
  ∧ ∀ m, m ∈ logged ↔ m ∈ current ∧ m ∉ warned.
Proof.
  intros logged. subst logged. split_and!.
  - rewrite py_sorted_perm. apply NoDup_elements.
  - apply py_sorted_sorted.
  - intros m. rewrite py_sorted_perm, elem_of_elements. set_solver.
Qed.

(** C5, as the claim states it, fails: the scan returns its alerts in the
    order of the route table and once per flagged route.  Two routes to
    [128.0.0.0/1] by [eth0] that differ in their protocol, with a route to
    [0.0.0.0/1] between them, give a result that repeats a string and is
    not in sorted order. *)
Lemma scan_result_unsorted_with_duplicates :
  let hi_dhcp : gmap string string :=
    {[ "dst" := "128.0.0.0/1"; "dev" := "eth0"; "protocol" := "dhcp" ]} in
  let lo : gmap string string :=
    {[ "dst" := "0.0.0.0/1"; "dev" := "eth0" ]} in
  let hi_static : gmap string string :=
    {[ "dst" := "128.0.0.0/1"; "dev" := "eth0"; "protocol" := "static" ]} in
  let out := suspicious_routes [hi_dhcp; lo; hi_static] "wg0" false in
  out = [ "128.0.0.0/1 via dev=eth0 gateway=-";
          "0.0.0.0/1 via dev=eth0 gateway=-";
          "128.0.0.0/1 via dev=eth0 gateway=-" ]
  ∧ ¬ NoDup out
  ∧ ¬ Sorted str_le out.
Proof.
  intros hi_dhcp lo hi_static out.
  assert (Hout : out = [ "128.0.0.0/1 via dev=eth0 gateway=-";
                         "0.0.0.0/1 via dev=eth0 gateway=-";
                         "128.0.0.0/1 via dev=eth0 gateway=-" ]) by reflexivity.
  rewrite Hout. split_and!.
  - reflexivity.
  - intros Hnd. apply NoDup_cons in Hnd as [Hnin _]. apply Hnin.
    apply list_elem_of_further, list_elem_of_here.
  - intros Hs. apply Sorted_inv in Hs as [_ Hhd].
    apply HdRel_inv in Hhd. discriminate Hhd.
Qed.

(** ** Building the configuration *)

Section KeepFirst.

Implicit Types (seen l : list EndpointRule) (e : EndpointRule).

Lemma keep_first_ext seen seen' l :
  (∀ e, e ∈ seen ↔ e ∈ seen') -> keep_first seen l = keep_first seen' l.
Proof.
  revert seen seen'. induction l as [|x l IH]; intros seen seen' Heq; simpl; [done|].
  destruct (decide (x ∈ seen)) as [Hin|Hin].
  - rewrite (bool_decide_eq_true_2 (x ∈ seen)) by done.
    rewrite (bool_decide_eq_true_2 (x ∈ seen')) by (by apply Heq).
    by apply IH.
  - rewrite (bool_decide_eq_false_2 (x ∈ seen)) by done.
    rewrite (bool_decide_eq_false_2 (x ∈ seen')) by (by rewrite <- Heq).
    f_equal. apply IH. intros e. rewrite !elem_of_cons, Heq. done.
Qed.

Lemma keep_first_elem seen l e :
  e ∈ keep_first seen l ↔ e ∈ l ∧ e ∉ seen.
Proof.
  revert seen. induction l as [|x l IH]; intros seen; simpl.
  - rewrite elem_of_nil. tauto.
  - case_bool_decide as Hx.
    + rewrite IH, elem_of_cons. split; [tauto|].
      intros [[->|He] Hn]; [done | tauto].
    + rewrite !elem_of_cons, IH, elem_of_cons.
      destruct (decide (e = x)) as [->|Hne]; tauto.
Qed.

Lemma keep_first_NoDup seen l : NoDup (keep_first seen l).
Proof.
  revert seen. induction l as [|x l IH]; intros seen; simpl; [constructor|].
  case_bool_decide; [apply IH|].
  constructor; [|apply IH].
  rewrite keep_first_elem, elem_of_cons. tauto.
Qed.

Lemma keep_first_sublist seen l : sublist (keep_first seen l) l.
Proof.
  revert seen. induction l as [|x l IH]; intros seen; simpl; [constructor|].
  case_bool_decide; [apply sublist_cons | apply sublist_skip]; apply IH.
Qed.

Lemma keep_first_app seen l1 l2 :
  keep_first seen (l1 ++ l2)
  = keep_first seen l1 ++ keep_first (seen ++ keep_first seen l1) l2.
Proof.
  revert seen. induction l1 as [|x l1 IH]; intros seen; simpl.
  - by rewrite app_nil_r.
  - case_bool_decide as Hx; [apply IH|].
    simpl. f_equal. rewrite IH. f_equal. apply keep_first_ext.
    intros e. rewrite !elem_of_app, !elem_of_cons, ?elem_of_app. tauto.
Qed.

End KeepFirst.

(** The loop invariant: [seen] holds exactly the keys of [endpoints]. *)
Definition seen_matches (acc : list EndpointRule * gset (string * Z * string))
  : Prop :=
  ∀ k, k ∈ acc.2 ↔ k ∈ List.map endpoint_key acc.1.

Lemma endpoint_key_elem (e : EndpointRule) (l : list EndpointRule) :
  endpoint_key e ∈ List.map endpoint_key l ↔ e ∈ l.
Proof.
  rewrite list_elem_of_In, in_map_iff. split.
  - intros [e' [Hk Hin]]. destruct e, e'. injection Hk as -> -> ->.
    by apply list_elem_of_In.
  - intros Hin. exists e. split; [done | by apply list_elem_of_In].
Qed.

Lemma add_resolved_fold (port : Z) (ips : list string)
  (acc : list EndpointRule * gset (string * Z * string)) :
  seen_matches acc ->
  let acc' := fold_left (add_resolved port) ips acc in
  acc'.1 = acc.1 ++ keep_first acc.1 (List.map (fun a => mkEndpointRule a port "udp") ips)
  ∧ seen_matches acc'.
Proof.
  revert acc. induction ips as [|a ips IH]; intros acc Hinv; simpl.
  - by rewrite app_nil_r.
  - assert (Hkey : (a, port, "udp") ∈ acc.2 ↔ mkEndpointRule a port "udp" ∈ acc.1).
    { rewrite (Hinv (a, port, "udp")).
      apply (endpoint_key_elem (mkEndpointRule a port "udp")). }
    destruct (decide ((a, port, "udp") ∈ acc.2)) as [Hseen|Hseen].
    + assert (Hstep : add_resolved port acc a = acc).
      { unfold add_resolved. by rewrite bool_decide_eq_true_2. }
      rewrite Hstep, bool_decide_eq_true_2 by (by apply Hkey). by apply IH.
    + assert (Hstep : add_resolved port acc a
                      = (acc.1 ++ [mkEndpointRule a port "udp"],
                         {[(a, port, "udp")]} ∪ acc.2)).
      { unfold add_resolved. by rewrite bool_decide_eq_false_2. }
      rewrite Hstep, bool_decide_eq_false_2 by (by rewrite <- Hkey).
      destruct (IH (acc.1 ++ [mkEndpointRule a port "udp"], {[(a, port, "udp")]} ∪ acc.2))
        as [Heq Hinv'].
      { intros k. simpl. rewrite elem_of_union, elem_of_singleton, map_app, elem_of_app.
        rewrite (Hinv k).
        change (List.map endpoint_key [mkEndpointRule a port "udp"])
          with [(a, port, "udp" : string)].
        rewrite (list_elem_of_singleton k). tauto. }
      split; [|exact Hinv'].
      rewrite Heq. simpl. rewrite <- app_assoc. simpl. do 2 f_equal.
      apply keep_first_ext. intros e.
      rewrite elem_of_app, !elem_of_cons, elem_of_nil. tauto.
Qed.

Lemma peer_endpoints_spec (ns : NameService) (peer : gmap string string)
  (acc : list EndpointRule * gset (string * Z * string)) :
  seen_matches acc ->
  match peer_rules ns peer with
  | Raise e => peer_endpoints ns acc peer = Raise e
  | Ok here =>
      ∃ acc', peer_endpoints ns acc peer = Ok acc'
              ∧ acc'.1 = acc.1 ++ keep_first acc.1 here
              ∧ seen_matches acc'
  end.
Proof.
  intros Hinv. unfold peer_rules, peer_endpoints.
  destruct (peer !! "Endpoint") as [[|c s]|]; simpl.
  - exists acc. by rewrite app_nil_r.
  - destruct (parse_endpoint (String c s)) as [[host port]|e]; simpl; [|done].
    destruct (resolve_host_ips ns host) as [ips|e]; simpl; [|done].
    eexists. split; [reflexivity|]. by apply add_resolved_fold.
  - exists acc. by rewrite app_nil_r.
Qed.

Lemma peers_loop_spec (ns : NameService) (ps : list (gmap string string))
  (acc : list EndpointRule * gset (string * Z * string)) :
  seen_matches acc ->
  match all_peer_rules ns ps with
  | Raise e => for_result (peer_endpoints ns) ps acc = Raise e
  | Ok raw =>
      ∃ acc', for_result (peer_endpoints ns) ps acc = Ok acc'
              ∧ acc'.1 = acc.1 ++ keep_first acc.1 raw
  end.
Proof.
  revert acc. induction ps as [|p ps IH]; intros acc Hinv; simpl.
  - exists acc. by rewrite app_nil_r.
  - pose proof (peer_endpoints_spec ns p acc Hinv) as Hp.
    destruct (peer_rules ns p) as [here|e]; simpl.
    + destruct Hp as (acc1 & -> & Hacc1 & Hinv1).
      specialize (IH acc1 Hinv1).
      destruct (all_peer_rules ns ps) as [rest|e]; simpl; [|done].
      destruct IH as (acc' & -> & Hacc').
      exists acc'. split; [done|].
      rewrite Hacc', Hacc1, keep_first_app, <- app_assoc. done.
    + by rewrite Hp.
Qed.

Lemma peer_rules_udp (ns : NameService) (p : gmap string string)
  (here : list EndpointRule) :
  peer_rules ns p = Ok here -> Forall (fun e => proto e = "udp") here.
Proof.
  unfold peer_rules.
  destruct (p !! "Endpoint") as [[|c s]|]; simpl; try (intros [= <-]; constructor).
  destruct (parse_endpoint (String c s)) as [[host port]|e]; simpl; [|done].
  destruct (resolve_host_ips ns host) as [ips|e]; simpl; [|done].
  intros [= <-]. apply Forall_forall. intros e He.
  apply list_elem_of_In, in_map_iff in He as (a & <- & _). done.
Qed.

Lemma all_peer_rules_udp (ns : NameService) (ps : list (gmap string string))
  (raw : list EndpointRule) :
  all_peer_rules ns ps = Ok raw -> Forall (fun e => proto e = "udp") raw.
Proof.
  revert raw. induction ps as [|p ps IH]; intros raw; simpl.
  - intros [= <-]. constructor.
  - destruct (peer_rules ns p) as [here|e] eqn:Hp; simpl; [|done].
    destruct (all_peer_rules ns ps) as [rest|e]; simpl; [|done].
    intros [= <-]. apply Forall_app. split; [by eapply peer_rules_udp | by apply IH].
Qed.

Lemma all_peer_rules_length (ns : NameService) (ps : list (gmap string string))
  (raw : list EndpointRule) :
  all_peer_rules ns ps = Ok raw ->
  (length raw <= length ps * max_list (List.map (peer_count ns) ps))%nat.
Proof.
  revert raw. induction ps as [|p ps IH]; intros raw; simpl.
  - intros [= <-]. simpl. lia.
  - unfold peer_count at 1.
    destruct (peer_rules ns p) as [here|e]; simpl; [|done].
    destruct (all_peer_rules ns ps) as [rest|e]; simpl; [|done].
    intros [= <-]. rewrite length_app. specialize (IH rest eq_refl).
    nia.
Qed.

#[local] Instance endpoint_key_inj : Inj (=) (=) endpoint_key.
Proof. intros [a1 p1 q1] [a2 p2 q2]. unfold endpoint_key. simpl. congruence. Qed.

(** C3. When the WireGuard file parses, the endpoint list of the built
    configuration holds the rules of all peers (one per resolved address
    of each peer's [Endpoint], protocol [udp]) with later repetitions of
    a rule dropped and the order kept: no two entries share their
    [(ip, port, proto)], and the list has at least one entry and at most
    as many as the peers times the largest number of addresses of a
    peer.  When no rule results, building fails with the module's error. *)
Theorem endpoints_of_config (file : file_view) (ns : NameService)
  (path m : string) (iface : option string) (lan dhcp : bool) (poll : Z)
  (data : WgData) :
  parse_wireguard_config file path = Ok data ->
  let built := build_generated_config_from_wg file ns path m iface lan dhcp poll in
  match all_peer_rules ns (wg_peers data) with
  | Raise e => built = Raise e
  | Ok raw =>
      let eps := keep_first [] raw in
      (eps = []
       ∧ built = Raise (RouteGuardError "No Peer Endpoint found in WireGuard config.")
       ∨ (1 <= length eps)%nat
         ∧ ∃ c, built = Ok c ∧ vpn_endpoints c = Some eps)
      ∧ NoDup (List.map endpoint_key eps)
      ∧ Forall (fun e => proto e = "udp") eps
      ∧ (∀ e, e ∈ eps ↔ e ∈ raw)
      ∧ sublist eps raw
      ∧ (length eps <= length raw)%nat
      ∧ (length raw
         <= length (wg_peers data) * max_list (List.map (peer_count ns) (wg_peers data)))%nat
  end.
Proof.
  intros Hparse built. subst built. unfold build_generated_config_from_wg.
  rewrite Hparse. simpl.
  assert (Hinv : seen_matches (([], ∅) : list EndpointRule * gset (string * Z * string))).
  { intros k. simpl. rewrite elem_of_nil. set_solver. }
  pose proof (peers_loop_spec ns (wg_peers data) ([], ∅) Hinv) as Hloop.
  destruct (all_peer_rules ns (wg_peers data)) as [raw|e] eqn:Hraw.
  - destruct Hloop as (acc' & -> & Hacc). simpl in Hacc. simpl.
    rewrite Hacc.
    split_and!.
    + destruct (keep_first [] raw) as [|e0 es]; [left; done|right].
      split; [simpl; lia|]. eexists. split; [reflexivity|done].
    + apply (NoDup_fmap_2 endpoint_key), keep_first_NoDup.
    + pose proof (all_peer_rules_udp _ _ _ Hraw) as Hudp.
      rewrite Forall_forall in Hudp |- *. intros e He.
      apply Hudp. by apply keep_first_elem in He as [He _].
    + intros e. rewrite keep_first_elem, elem_of_nil. tauto.
    + apply keep_first_sublist.
    + apply sublist_length, keep_first_sublist.
    + by apply all_peer_rules_length.
  - by rewrite Hloop.
Qed.

Lemma endpoints_of_config_witness :
  parse_wireguard_config (Text sample_conf) sample_path = Ok sample_data
  /\ ∃ c,
      build_generated_config_from_wg (Text sample_conf) sample_ns sample_path
                                     "protect" None true true 5 = Ok c
      ∧ vpn_endpoints c
        = Some [ mkEndpointRule "203.0.113.5" 51820 "udp";
                 mkEndpointRule "198.51.100.7" 51820 "udp" ].
Proof.
  split; [vm_compute; reflexivity|].
  pose proof (endpoints_of_config (Text sample_conf) sample_ns sample_path
                "protect" None true true 5 sample_data
                ltac:(vm_compute; reflexivity)) as H.
  vm_compute in H.
  destruct H as [[[Hnil _]|[_ Hc]] _]; [discriminate Hnil|].
  destruct Hc as (c & Hb & He). exists c. split; [|exact He].
  rewrite <- Hb. vm_compute. reflexivity.
Defined.

(** The end-to-end scenario: a file whose only peer has the endpoint
    [203.0.113.5:51820], protect mode, LAN and DHCP allowed. *)
Example end_to_end_ruleset :
  ∃ c,
    build_generated_config_from_wg (Text single_peer_conf) sample_ns sample_path
                                   "protect" None true true 5 = Ok c
    ∧ vpn_iface c = "wg0"
    ∧ chain_rules (build_nft_lines c)
      = [ rule_loopback;
          "    oifname " +:+ Py.dquote +:+ "wg0" +:+ Py.dquote +:+ " accept";
          rule_link_local;
          "    udp sport 68 udp dport 67 accept";
          "    udp sport 546 udp dport 547 accept";
          "    ip daddr { 10.0.0.0/8, 172.16.0.0/12, 192.168.0.0/16 } accept";
          "    ip6 daddr fc00::/7 accept";
          "    ip daddr 203.0.113.5 udp dport 51820 accept";
          "    oifname != " +:+ Py.dquote +:+ "wg0" +:+ Py.dquote +:+ " drop" ].
Proof. eexists. split_and!; vm_compute; reflexivity. Qed.

(** ** The firewall controller *)

Lemma bind_ok {A B : Type} (m : M A) (f : A -> M B) (w w' : World) (a : A) :
  m w = (Ok a, w') -> (m ≫= f) w = f a w'.
Proof. intros H. unfold mbind, M_bind. by rewrite H. Qed.

Lemma bind_raise {A B : Type} (m : M A) (f : A -> M B) (w w' : World) (e : exn) :
  m w = (Raise e, w') -> (m ≫= f) w = (Raise e, w').
Proof. intros H. unfold mbind, M_bind. by rewrite H. Qed.

Lemma run_cmd_found (prog : string) (rest : list string)
  (input : option string) (w : World) :
  on_path w prog = true ->
  run_cmd (prog :: rest) input w
  = (Ok (host_answer (prog :: rest) input (record (Exec (prog :: rest) input) w)).1,
     (host_answer (prog :: rest) input (record (Exec (prog :: rest) input) w)).2).
Proof.
  intros Hp. unfold run_cmd. simpl. rewrite Hp.
  by destruct (host_answer _ _ _).
Qed.

Lemma run_cmd_missing (prog : string) (rest : list string)
  (input : option string) (w : World) :
  on_path w prog = false ->
  run_cmd (prog :: rest) input w
  = (Raise (FileNotFoundError prog), record (Exec (prog :: rest) input) w).
Proof. intros Hp. unfold run_cmd. simpl. by rewrite Hp. Qed.

Lemma host_answer_list (input : option string) (w : World) :
  host_answer nft_list_argv input w = (exit_status (nft_table w), w).
Proof. reflexivity. Qed.

Lemma host_answer_delete (input : option string) (w : World) :
  host_answer nft_delete_argv input w
  = (exit_status (nft_table w), set_nft_table false w).
Proof. reflexivity. Qed.

Lemma exit_status_zero (b : bool) : (returncode (exit_status b) =? 0) = b.
Proof. by destruct b. Qed.

Lemma call_logger_eq (lg : Logger) (msg : string) (w : World) :
  call_logger lg msg w = (Ok tt, log_with lg msg w).
Proof. by destruct lg. Qed.

Lemma remove_nft_rules_eq (lg : Logger) (w : World) :
  remove_nft_rules lg w = (Ok tt, after_remove lg w).
Proof.
  unfold remove_nft_rules, after_remove.
  rewrite (bind_ok _ _ w w (on_path w "nft")) by reflexivity.
  destruct (on_path w "nft") eqn:Hp; simpl; [|done].
  erewrite bind_ok
    by exact (run_cmd_found "nft" (tail nft_delete_argv) None w Hp).
  rewrite host_answer_delete. cbn [fst snd]. rewrite exit_status_zero.
  change (nft_table (record (Exec ("nft" :: tail nft_delete_argv) None) w))
    with (nft_table w).
  destruct (nft_table w); apply call_logger_eq.
Qed.

Lemma routeguard_table_exists_eq (w : World) :
  routeguard_table_exists w
  = if on_path w "nft"
    then (Ok (nft_table w), record (Exec nft_list_argv None) w)
    else (Ok false, w).
Proof.
  unfold routeguard_table_exists.
  rewrite (bind_ok _ _ w w (on_path w "nft")) by reflexivity.
  destruct (on_path w "nft") eqn:Hp; simpl; [|done].
  erewrite bind_ok
    by exact (run_cmd_found "nft" (tail nft_list_argv) None w Hp).
  rewrite host_answer_list. cbn [fst snd]. by rewrite exit_status_zero.
Qed.

Lemma same_host_refl (w : World) : same_host w w.
Proof. by repeat split. Qed.

Lemma same_host_record (e : event) (w : World) : same_host w (record e w).
Proof. by repeat split. Qed.

Lemma same_host_log_with (lg : Logger) (msg : string) (w : World) :
  same_host w (log_with lg msg w).
Proof. destruct lg; by repeat split. Qed.

Lemma same_host_trans (w1 w2 w3 : World) :
  same_host w1 w2 -> same_host w2 w3 -> same_host w1 w3.
Proof.
  unfold same_host. intros H12 H23.
  destruct H12 as (?&?&?&?&?&?&?&?&?&?&?), H23 as (?&?&?&?&?&?&?&?&?&?&?).
  repeat split; congruence.
Qed.

Lemma after_remove_table (lg : Logger) (w : World) :
  nft_table (after_remove lg w) = nft_table w && negb (on_path w "nft").
Proof.
  unfold after_remove. destruct (on_path w "nft"), lg, (nft_table w); reflexivity.
Qed.

Lemma after_remove_on_path (lg : Logger) (w : World) :
  on_path (after_remove lg w) = on_path w.
Proof. unfold after_remove. destruct (on_path w "nft"), lg; reflexivity. Qed.

Lemma after_remove_same_host (lg : Logger) (w : World) :
  nft_table w = false -> same_host w (after_remove lg w).
Proof.
  intros Ht. unfold after_remove. destruct (on_path w "nft"); [|apply same_host_refl].
  eapply same_host_trans; [|apply same_host_log_with].
  unfold same_host. simpl. by repeat split.
Qed.



(** ** Relations kept by computations *)

Section Preserves.

Context (R : World -> World -> Prop) `{!Reflexive R} `{!Transitive R}.

Lemma preserves_ret {A : Type} (a : A) : preserves R (mret a).
Proof. intros w. simpl. reflexivity. Qed.

Lemma preserves_raise {A : Type} (e : exn) : preserves R (raise e : M A).
Proof. intros w. simpl. reflexivity. Qed.

Lemma preserves_bind {A B : Type} (m : M A) (f : A -> M B) :
  preserves R m -> (∀ a, preserves R (f a)) -> preserves R (m ≫= f).
Proof.
  intros Hm Hf w. unfold mbind, M_bind. specialize (Hm w).
  destruct (m w) as [[a|e] w1]; simpl in *.
  - etransitivity; [exact Hm | apply Hf].
  - exact Hm.
Qed.

Lemma preserves_try_except {A : Type} (m : M A) (h : exn -> M A) :
  preserves R m -> (∀ e, preserves R (h e)) -> preserves R (try_except m h).
Proof.
  intros Hm Hh w. unfold try_except. specialize (Hm w).
  destruct (m w) as [[a|e] w1]; simpl in *.
  - exact Hm.
  - etransitivity; [exact Hm | apply Hh].
Qed.

Lemma preserves_try_finally {A : Type} (m : M A) (fin : M unit) :
  preserves R m -> preserves R fin -> preserves R (try_finally m fin).
Proof.
  intros Hm Hfin w. unfold try_finally. specialize (Hm w).
  destruct (m w) as [r w1]. specialize (Hfin w1). simpl in *.
  destruct (fin w1) as [[u|e] w2]; simpl in *; etransitivity; eauto.
Qed.

Lemma preserves_for_each {A : Type} (xs : list A) (body : A -> M unit) :
  (∀ x, preserves R (body x)) -> preserves R (for_each xs body).
Proof.
  intros Hb. induction xs as [|x xs IH]; simpl.
  - apply preserves_ret.
  - apply preserves_bind; [apply Hb | intros _; apply IH].
Qed.

Lemma preserves_modify (f : World -> World) :
  (∀ w, R w (f w)) -> preserves R (modify f).
Proof. intros Hf w. apply Hf. Qed.

End Preserves.

#[global] Instance keeps_other_files_refl : Reflexive keeps_other_files.
Proof. intros w. by split. Qed.

#[global] Instance keeps_other_files_trans : Transitive keeps_other_files.
Proof.
  intros w1 w2 w3 [Hp12 Hf12] [Hp23 Hf23]. split; [congruence|].
  intros p Hp. rewrite Hf23, Hf12; done.
Qed.

#[global] Instance keeps_routes_refl : Reflexive keeps_routes.
Proof. intros w. by split. Qed.

#[global] Instance keeps_routes_trans : Transitive keeps_routes.
Proof. intros w1 w2 w3 [? ?] [? ?]. split; congruence. Qed.


Ltac preserve_tc :=
  try match goal with
      | |- Reflexive _ => apply _
      | |- Transitive _ => apply _
      end.

Ltac preserve :=
  repeat first
    [ solve [eauto]
    | apply preserves_ret; preserve_tc
    | apply preserves_raise; preserve_tc
    | apply preserves_bind; preserve_tc; [|intros ?]
    | apply preserves_try_except; preserve_tc; [|intros ?]
    | apply preserves_for_each; preserve_tc; intros ?
    | match goal with
      | |- preserves _ (if ?b then _ else _) => destruct b
      | |- preserves _ (match ?x with _ => _ end) => destruct x
      end ].

Section Commands.

Context (R : World -> World -> Prop) `{!Reflexive R} `{!Transitive R}.
Context (Hrec : ∀ w e, R w (record e w)).
Context (Htab : ∀ w b, R w (set_nft_table b w)).

Lemma preserves_command_exists (c : string) : preserves R (command_exists c).
Proof. intros w. simpl. reflexivity. Qed.

Lemma preserves_get_world : preserves R get_world.
Proof. intros w. simpl. reflexivity. Qed.

Lemma preserves_call_logger (lg : Logger) (msg : string) :
  preserves R (call_logger lg msg).
Proof. intros w. destruct lg; simpl; [apply Hrec | reflexivity]. Qed.

Lemma host_answer_kept (args : list string) (input : option string) (w : World) :
  R w (host_answer args input w).2.
Proof.
  unfold host_answer.
  repeat case_bool_decide; simpl; try reflexivity; try apply Htab.
  - destruct (returncode _ =? 0); [apply Htab | reflexivity].
  - destruct args as [|? [|? [|? [|? [|? ?]]]]]; simpl; try reflexivity;
      case_bool_decide; reflexivity.
Qed.

Lemma preserves_run_cmd (args : list string) (input : option string) :
  preserves R (run_cmd args input).
Proof.
  intros w. unfold run_cmd.
  destruct args as [|prog rest]; simpl; [apply Hrec|].
  destruct (on_path w prog); simpl; [|apply Hrec].
  pose proof (host_answer_kept (prog :: rest) input (record (Exec (prog :: rest) input) w)) as H.
  destruct (host_answer _ _ _) as [cp w']. simpl in *.
  etransitivity; [apply Hrec | exact H].
Qed.

Hint Resolve preserves_command_exists preserves_get_world
  preserves_call_logger preserves_run_cmd : core.

Lemma preserves_interface_exists (iface : string) :
  preserves R (interface_exists iface).
Proof. unfold interface_exists. preserve. Qed.

Lemma preserves_routeguard_table_exists : preserves R routeguard_table_exists.
Proof. unfold routeguard_table_exists. preserve. Qed.

Lemma preserves_remove_nft_rules (lg : Logger) : preserves R (remove_nft_rules lg).
Proof. unfold remove_nft_rules. preserve. Qed.

Hint Resolve preserves_routeguard_table_exists preserves_remove_nft_rules : core.

Lemma preserves_apply_nft_rules (c : GeneratedConfig) (lg : Logger) :
  preserves R (apply_nft_rules c lg).
Proof. unfold apply_nft_rules. preserve. Qed.

Lemma preserves_ip_json_routes (ipv6 : bool) : preserves R (ip_json_routes ipv6).
Proof. unfold ip_json_routes. preserve. Qed.

Lemma preserves_wg_quick_up (iface : string) (lg : Logger) :
  preserves R (wg_quick_up iface lg).
Proof. unfold wg_quick_up. preserve. Qed.

Lemma preserves_wg_quick_down (iface : string) (lg : Logger) :
  preserves R (wg_quick_down iface lg).
Proof. unfold wg_quick_down. preserve. Qed.

Hint Resolve preserves_apply_nft_rules preserves_ip_json_routes : core.

Lemma preserves_self_heal (r : RouteGuardRunner) : preserves R (self_heal r).
Proof. unfold self_heal. preserve. Qed.

Lemma preserves_scan_and_alert (r : RouteGuardRunner) (warned : gset string) :
  preserves R (scan_and_alert r warned).
Proof. unfold scan_and_alert. preserve. Qed.

Hint Resolve preserves_self_heal preserves_scan_and_alert : core.

Lemma preserves_monitor_cycle (r : RouteGuardRunner) (warned : gset string) :
  preserves R (monitor_cycle r warned).
Proof. unfold monitor_cycle. preserve. Qed.

End Commands.

(** ** The runner: what a run leaves of the files *)

Lemma keeps_other_files_record (w : World) (e : event) :
  keeps_other_files w (record e w).
Proof. by split. Qed.

Lemma keeps_other_files_table (w : World) (b : bool) :
  keeps_other_files w (set_nft_table b w).
Proof. by split. Qed.

Lemma keeps_other_files_drift (d : Drift) (w : World) :
  keeps_other_files w (apply_drift d w).
Proof.
  unfold apply_drift.
  destruct (drift_table d), (drift_links d), (drift_routes d); by split.
Qed.

Lemma state_path_candidate (ok : string -> bool) :
  first_usable ok STATE_PATHS ∈ STATE_PATHS.
Proof.
  unfold STATE_PATHS. simpl.
  destruct (ok _); [apply list_elem_of_here|].
  destruct (ok _); apply list_elem_of_further, list_elem_of_here.
Qed.

Lemma preserves_write_text (p : string) (v : json) :
  p ∈ STATE_PATHS -> preserves keeps_other_files (write_text p v).
Proof.
  intros Hp w. unfold write_text.
  change (can_write (record (Write p) w) p) with (can_write w p).
  destruct (can_write w p); simpl; split; try done.
  intros q Hq. simpl. apply lookup_insert_ne. intros ->. done.
Qed.

Lemma preserves_write_state (c : GeneratedConfig)
  (extra : option (list (string * json))) :
  preserves keeps_other_files (write_state c extra).
Proof.
  intros w. unfold write_state, state_path.
  unfold mbind at 1, M_bind at 1.
  unfold mbind at 1, M_bind at 1, get_world.
  apply (preserves_bind keeps_other_files).
  - apply preserves_write_text, state_path_candidate.
  - intros _. apply preserves_ret. apply _.
Qed.

Lemma swallow_unlink (p : string) (w : World) :
  try_except (unlink p) (fun _ => mret tt) w
  = (Ok tt, set_files (delete p (files w)) (record (Unlink p) w)).
Proof.
  unfold try_except, unlink.
  change (files (record (Unlink p) w)) with (files w).
  destruct (files w !! p) eqn:Hp; [done|].
  simpl. unfold mret, M_ret. f_equal.
  unfold set_files, record. simpl. by rewrite delete_id.
Qed.

Lemma remove_state_eq (w : World) :
  ∃ w', remove_state w = (Ok tt, w')
        ∧ trace w' = trace w ++ state_teardown_events
        ∧ files w'
          = delete "/tmp/routeguard-auto-state.json"
                   (delete "/run/routeguard-auto/state.json" (files w))
        ∧ on_path w' = on_path w
        ∧ nft_table w' = nft_table w.
Proof.
  unfold remove_state, STATE_PATHS. simpl for_each.
  erewrite bind_ok by apply swallow_unlink.
  erewrite bind_ok by apply swallow_unlink.
  eexists. split; [reflexivity|]. simpl.
  split_and!; try reflexivity. by rewrite <- app_assoc.
Qed.

Lemma wg_quick_down_eq (iface : string) (lg : Logger) (w : World) :
  wg_quick_down iface lg w
  = (Ok tt,
     if on_path w "wg-quick"
     then log_with lg (down_line iface (wg_quick_verdict w "down" iface))
                   (record (Exec ["wg-quick"; "down"; iface] None) w)
     else w).
Proof.
  unfold wg_quick_down.
  rewrite (bind_ok _ _ w w (on_path w "wg-quick")) by reflexivity.
  destruct (on_path w "wg-quick") eqn:Hp; simpl; [|done].
  erewrite bind_ok by exact (run_cmd_found "wg-quick" ["down"; iface] None w Hp).
  unfold down_line.
  change (host_answer ["wg-quick"; "down"; iface] None
            (record (Exec ["wg-quick"; "down"; iface] None) w))
    with (wg_quick_verdict w "down" iface,
          record (Exec ["wg-quick"; "down"; iface] None) w).
  cbn [fst snd].
  destruct (returncode (wg_quick_verdict w "down" iface) =? 0); apply call_logger_eq.
Qed.

Lemma trace_log_with (lg : Logger) (msg : string) (w : World) :
  trace (log_with lg msg w) = trace w ++ logged lg msg.
Proof. destruct lg; simpl; [done | by rewrite app_nil_r]. Qed.

Lemma teardown_firewall_eq (r : RouteGuardRunner) (w : World) :
  ∃ w', teardown_firewall r w = (Ok tt, w')
        ∧ trace w' = trace w ++ firewall_teardown_events r w
        ∧ files w' = files w
        ∧ on_path w' = on_path w
        ∧ wg_quick_verdict w' = wg_quick_verdict w
        ∧ nft_table w'
          = (if cleanup_nft_on_exit r && String.eqb (mode (cfg r)) "protect"
                && on_path w "nft"
             then false else nft_table w).
Proof.
  unfold teardown_firewall, firewall_teardown_events.
  destruct (cleanup_nft_on_exit r && String.eqb (mode (cfg r)) "protect"); simpl.
  - rewrite remove_nft_rules_eq. eexists. split; [reflexivity|].
    unfold after_remove.
    destruct (on_path w "nft"); simpl.
    + rewrite trace_log_with. simpl. rewrite <- app_assoc.
      destruct (logger r); by split_and!.
    + rewrite app_nil_r. by split_and!.
  - exists w. rewrite app_nil_r. by split_and!.
Qed.

Lemma teardown_tunnel_eq (r : RouteGuardRunner) (w : World) :
  ∃ w', teardown_tunnel r w = (Ok tt, w')
        ∧ trace w' = trace w ++ tunnel_teardown_events r w
        ∧ files w' = files w
        ∧ on_path w' = on_path w
        ∧ nft_table w' = nft_table w.
Proof.
  unfold teardown_tunnel, tunnel_teardown_events.
  destruct (auto_down_vpn_on_exit r); simpl.
  - unfold try_except. rewrite wg_quick_down_eq. eexists. split; [reflexivity|].
    destruct (on_path w "wg-quick"); simpl.
    + rewrite trace_log_with. simpl. rewrite <- app_assoc.
      destruct (logger r); by split_and!.
    + rewrite app_nil_r. by split_and!.
  - exists w. rewrite app_nil_r. by split_and!.
Qed.

Lemma preserves_wait_for_iface (r : RouteGuardRunner) (polls : list Drift) :
  preserves keeps_other_files (wait_for_iface r polls).
Proof.
  induction polls as [|d rest IH]; simpl.
  - apply preserves_raise. apply _.
  - apply preserves_bind; preserve_tc.
    + apply preserves_modify, keeps_other_files_drift.
    + intros _. apply preserves_bind; preserve_tc.
      * apply preserves_interface_exists;
          auto using keeps_other_files_record, keeps_other_files_table; apply _.
      * intros [|]; [apply preserves_ret; apply _ | exact IH].
Qed.

Lemma preserves_monitor_loop (r : RouteGuardRunner) (sched : list Drift)
  (warned : gset string) :
  preserves keeps_other_files (monitor_loop r sched warned).
Proof.
  revert warned. induction sched as [|d rest IH]; intros warned; simpl.
  - apply preserves_ret. apply _.
  - apply preserves_bind; preserve_tc.
    + apply preserves_modify, keeps_other_files_drift.
    + intros _. apply preserves_bind; preserve_tc.
      * apply preserves_monitor_cycle;
          auto using keeps_other_files_record, keeps_other_files_table; apply _.
      * intros current. apply IH.
Qed.

Lemma preserves_run_body (r : RouteGuardRunner) (s : Schedule) :
  preserves keeps_other_files (run_body r s).
Proof.
  assert (Hlog : ∀ lg msg, preserves keeps_other_files (call_logger lg msg)).
  { intros. apply preserves_call_logger; auto using keeps_other_files_record; apply _. }
  assert (Hrm : ∀ lg, preserves keeps_other_files (remove_nft_rules lg)).
  { intros. apply preserves_remove_nft_rules;
      auto using keeps_other_files_record, keeps_other_files_table; apply _. }
  assert (Hap : ∀ c lg, preserves keeps_other_files (apply_nft_rules c lg)).
  { intros. apply preserves_apply_nft_rules;
      auto using keeps_other_files_record, keeps_other_files_table; apply _. }
  assert (Hup : ∀ i lg, preserves keeps_other_files (wg_quick_up i lg)).
  { intros. apply preserves_wg_quick_up;
      auto using keeps_other_files_record, keeps_other_files_table; apply _. }
  pose proof preserves_wait_for_iface as Hwait.
  pose proof preserves_monitor_loop as Hloop.
  pose proof preserves_write_state as Hws.
  unfold run_body, mode_dispatch, monitoring. preserve.
Qed.

Lemma try_finally_total {A : Type} (body : M A) (fin : M unit) (w w2 : World) :
  fin (body w).2 = (Ok tt, w2) -> try_finally body fin w = ((body w).1, w2).
Proof.
  intros Hfin. unfold try_finally. destruct (body w) as [out w1].
  simpl in *. by rewrite Hfin.
Qed.

Lemma teardown_eq (r : RouteGuardRunner) (w : World) :
  ∃ w', try_finally (teardown_firewall r)
                    (teardown_tunnel r ≫= λ _, remove_state) w
        = (Ok tt, w')
        ∧ trace w' = trace w ++ firewall_teardown_events r w
                       ++ tunnel_teardown_events r w ++ state_teardown_events
        ∧ files w'
          = delete "/tmp/routeguard-auto-state.json"
                   (delete "/run/routeguard-auto/state.json" (files w))
        ∧ on_path w' = on_path w
        ∧ nft_table w'
          = (if cleanup_nft_on_exit r && String.eqb (mode (cfg r)) "protect"
                && on_path w "nft"
             then false else nft_table w).
Proof.
  destruct (teardown_firewall_eq r w) as (w1 & Hfw & Ht1 & Hf1 & Hp1 & Hv1 & Hn1).
  destruct (teardown_tunnel_eq r w1) as (w2 & Htun & Ht2 & Hf2 & Hp2 & Hn2).
  destruct (remove_state_eq w2) as (w3 & Hst & Ht3 & Hf3 & Hp3 & Hn3).
  exists w3. split_and!.
  - erewrite try_finally_total; rewrite Hfw; [reflexivity|].
    simpl. erewrite bind_ok by exact Htun. exact Hst.
  - rewrite Ht3, Ht2, Ht1, <- !app_assoc. do 2 f_equal.
    unfold tunnel_teardown_events. by rewrite Hp1, Hv1.
  - by rewrite Hf3, Hf2, Hf1.
  - by rewrite Hp3, Hp2, Hp1.
  - by rewrite Hn3, Hn2, Hn1.
Qed.

Lemma run_opening (r : RouteGuardRunner) (s : Schedule) (w : World) :
  run r s w
  = try_finally (run_body r s)
      (try_finally (teardown_firewall r) (teardown_tunnel r ≫= λ _, remove_state))
      (extend (opening_events r) w).
Proof.
  unfold run. erewrite bind_ok by apply call_logger_eq.
  erewrite bind_ok by apply call_logger_eq.
  f_equal. unfold opening_events. destruct (logger r); reflexivity.
Qed.

Lemma trace_extend (evs : list event) (w : World) :
  trace (extend evs w) = trace w ++ evs.
Proof.
  unfold extend. revert w. induction evs as [|e evs IH]; intros w; simpl.
  - by rewrite app_nil_r.
  - rewrite IH. simpl. by rewrite <- app_assoc.
Qed.

Lemma files_extend (evs : list event) (w : World) :
  files (extend evs w) = files w.
Proof.
  unfold extend. revert w. induction evs as [|e evs IH]; intros w; simpl; [done|].
  by rewrite IH.
Qed.

Lemma on_path_extend (evs : list event) (w : World) :
  on_path (extend evs w) = on_path w.
Proof.
  unfold extend. revert w. induction evs as [|e evs IH]; intros w; simpl; [done|].
  by rewrite IH.
Qed.

(** The teardown on a host where no call fails.  Whatever way the [try]
    block of a run ends (it returns after
    the stop event, or it raises in any of its states, the interface
    time-out included), the run then performs the three teardown steps in
    their order: the table removal when clean-up was asked for in protect
    mode, the tunnel shut-down when configured, and the removal of the
    state files.  A step that fails (a table that is not there, a
    [wg-quick down] that exits non-zero, programs that are missing, a
    state file that does not exist) leaves the later steps in place.  The
    outcome of the run is the outcome of the [try] block, and afterwards no
    state file is present; no other file has been touched. *)
Theorem teardown_always_runs (r : RouteGuardRunner) (s : Schedule) (w : World) :
  ∃ (outcome : result Z) (w_body w_end : World),
    run_body r s (extend (opening_events r) w) = (outcome, w_body)
    ∧ run r s w = (outcome, w_end)
    ∧ trace w_end
      = trace w_body
          ++ firewall_teardown_events r w_body
          ++ tunnel_teardown_events r w_body
          ++ state_teardown_events
    ∧ Forall (fun p => files w_end !! p = None) STATE_PATHS
    ∧ files w_end
      = delete "/tmp/routeguard-auto-state.json"
               (delete "/run/routeguard-auto/state.json" (files w)).
Proof.
  set (w0 := extend (opening_events r) w).
  destruct (run_body r s w0) as [outcome w_body] eqn:Hbody.
  destruct (teardown_eq r w_body) as (w_end & Hfin & Htrace & Hfiles & _).
  exists outcome, w_body, w_end.
  assert (Hdel : ∀ m : gmap string json,
             Forall (fun p => delete "/tmp/routeguard-auto-state.json"
                                (delete "/run/routeguard-auto/state.json" m) !! p = None)
                    STATE_PATHS).
  { intros m. repeat constructor.
    - rewrite lookup_delete_ne by done. apply lookup_delete_eq.
    - apply lookup_delete_eq. }
  split_and!.
  - reflexivity.
  - rewrite run_opening. fold w0.
    erewrite try_finally_total; rewrite Hbody; [reflexivity | exact Hfin].
  - exact Htrace.
  - rewrite Hfiles. apply Hdel.
  - rewrite Hfiles. apply map_eq. intros p.
    pose proof (preserves_run_body r s w0) as [_ Hkeep].
    rewrite Hbody in Hkeep. simpl in Hkeep.
    destruct (decide (p ∈ STATE_PATHS)) as [Hp|Hp].
    + pose proof (Hdel (files w_body)) as H1. pose proof (Hdel (files w)) as H2.
      rewrite Forall_forall in H1, H2. by rewrite H1, H2.
    + assert (p ≠ "/tmp/routeguard-auto-state.json"
              ∧ p ≠ "/run/routeguard-auto/state.json") as [Hn1 Hn2].
      { split; intros ->; apply Hp; unfold STATE_PATHS;
          [apply list_elem_of_further|]; apply list_elem_of_here. }
      rewrite !lookup_delete_ne by done.
      rewrite (Hkeep p Hp). unfold w0. by rewrite files_extend.
Qed.

(** A run in protect mode whose interface never shows up raises, and the
    state file that an earlier run had left is gone afterwards. *)
Example interface_timeout_leaves_no_state :
  let r := mkRunner (sample_config "protect") Recording false true true in
  let w := set_files {[ "/tmp/routeguard-auto-state.json" := JDict [("pid", JInt 17)] ]}
                     sample_world in
  let res := run r (mkSchedule [no_drift; no_drift] []) w in
  res.1 = Raise (RouteGuardError "VPN interface 'wg0' not found.")
  ∧ files res.2 = ∅
  ∧ trace res.2
    = [ Log "RouteGuard starting: mode=protect, iface=wg0, interval=5s";
        Log "Endpoints: 203.0.113.5:51820/udp";
        Exec ["ip"; "link"; "show"; "wg0"] None;
        Exec ["ip"; "link"; "show"; "wg0"] None;
        Exec nft_delete_argv None;
        Log "nftables table inet routeguard was not present (nothing to remove).";
        Exec ["wg-quick"; "down"; "wg0"] None;
        Log "WireGuard interface 'wg0' is down.";
        Unlink "/run/routeguard-auto/state.json";
        Unlink "/tmp/routeguard-auto-state.json" ].
Proof. split_and!; vm_compute; reflexivity. Qed.

(** ** The runner in [off] mode *)

Lemma wg_quick_up_eq (iface : string) (lg : Logger) (w : World) :
  wg_quick_up iface lg w
  = if on_path w "wg-quick" then
      if tunnel_up_succeeds iface w
      then (Ok tt,
            log_with lg ("WireGuard interface '" +:+ iface +:+ "' is up (or already up).")
                     (record (Exec ["wg-quick"; "up"; iface] None) w))
      else (Raise (RouteGuardError
                     ("wg-quick up " +:+ iface +:+ " failed:" +:+ Py.nl
                        +:+ Py.strip (stdout (wg_quick_verdict w "up" iface)
                                        +:+ stderr (wg_quick_verdict w "up" iface)))),
            record (Exec ["wg-quick"; "up"; iface] None) w)
    else (Raise (RouteGuardError "wg-quick not found. Install wireguard-tools."), w).
Proof.
  unfold wg_quick_up, tunnel_up_succeeds.
  rewrite (bind_ok _ _ w w (on_path w "wg-quick")) by reflexivity.
  destruct (on_path w "wg-quick") eqn:Hp; simpl; [|done].
  erewrite bind_ok by exact (run_cmd_found "wg-quick" ["up"; iface] None w Hp).
  change (host_answer ["wg-quick"; "up"; iface] None
            (record (Exec ["wg-quick"; "up"; iface] None) w))
    with (wg_quick_verdict w "up" iface,
          record (Exec ["wg-quick"; "up"; iface] None) w).
  cbn [fst snd].
  destruct (returncode (wg_quick_verdict w "up" iface) =? 0),
    (Py.contains "already exists" _), (Py.contains "already up" _);
    simpl; try apply call_logger_eq; reflexivity.
Qed.

Lemma off_mode_tests (r : RouteGuardRunner) :
  mode (cfg r) = "off" ->
  String.eqb (mode (cfg r)) "protect" = false
  ∧ String.eqb (mode (cfg r)) "monitor" = false
  ∧ String.eqb (mode (cfg r)) "off" = true.
Proof. intros ->. by split_and!. Qed.

Lemma quiet_log (line : string) : quiet (Log line).
Proof. split_and!; intros [x Hx]; discriminate Hx. Qed.

Lemma quiet_unlink (p : string) : quiet (Unlink p).
Proof. split_and!; intros [x Hx]; discriminate Hx. Qed.

Lemma quiet_wg_quick (verb iface : string) (input : option string) :
  quiet (Exec ["wg-quick"; verb; iface] input).
Proof.
  split_and!; intros [x Hx]; try discriminate Hx.
  destruct x; discriminate Hx.
Qed.

Lemma quiet_nft_delete : quiet (Exec nft_delete_argv None).
Proof.
  split_and!; intros [x Hx]; try discriminate Hx.
  destruct x; discriminate Hx.
Qed.

Lemma quiet_logged (lg : Logger) (line : string) : Forall quiet (logged lg line).
Proof. destruct lg; [constructor; [apply quiet_log | constructor] | constructor]. Qed.

Lemma quiet_state_teardown : Forall quiet state_teardown_events.
Proof. unfold state_teardown_events, STATE_PATHS. simpl. repeat (constructor; [apply quiet_unlink|]). constructor. Qed.

Lemma quiet_tunnel_teardown (r : RouteGuardRunner) (w : World) :
  Forall quiet (tunnel_teardown_events r w).
Proof.
  unfold tunnel_teardown_events.
  destruct (auto_down_vpn_on_exit r && on_path w "wg-quick"); [|constructor].
  constructor; [apply quiet_wg_quick | apply quiet_logged].
Qed.

(** The optional bring-up that opens the [try] block. *)
Lemma bring_up_step (r : RouteGuardRunner) (w : World) :
  ∃ out w1 evs,
    (if auto_up_vpn r then wg_quick_up (vpn_iface (cfg r)) (logger r) else mret tt) w
    = (out, w1)
    ∧ trace w1 = trace w ++ evs
    ∧ Forall quiet evs
    ∧ on_path w1 = on_path w
    ∧ nft_table w1 = nft_table w
    ∧ (auto_up_vpn r = false ∨ tunnel_up_succeeds (vpn_iface (cfg r)) w = true ->
       out = Ok tt).
Proof.
  destruct (auto_up_vpn r).
  - rewrite wg_quick_up_eq.
    destruct (on_path w "wg-quick") eqn:Hp.
    + destruct (tunnel_up_succeeds (vpn_iface (cfg r)) w) eqn:Hup.
      * eexists _, _, _. split; [reflexivity|].
        rewrite trace_log_with. simpl. rewrite <- app_assoc.
        split_and!; [reflexivity| |by destruct (logger r)|by destruct (logger r)|done].
        constructor; [apply quiet_wg_quick | apply quiet_logged].
      * eexists _, _, _. split; [reflexivity|]. simpl.
        split_and!; [reflexivity| |done|done|].
        -- constructor; [apply quiet_wg_quick | constructor].
        -- intros [?|?]; done.
    + exists (Raise (RouteGuardError "wg-quick not found. Install wireguard-tools.")), w, [].
      rewrite app_nil_r. split_and!; try done.
      unfold tunnel_up_succeeds. rewrite Hp. intros [?|?]; done.
  - exists (Ok tt), w, []. rewrite app_nil_r. by split_and!.
Qed.




(** ** The monitoring loop *)

Lemma ip_json_routes_found (ipv6 : bool) (w : World) :
  on_path w "ip" = true ->
  ip_json_routes ipv6 w
  = (Ok (default [] (routes w ipv6)), record (Exec (ip_route_argv ipv6) None) w).
Proof.
  intros Hp. unfold ip_json_routes.
  destruct ipv6.
  - erewrite bind_ok
      by exact (run_cmd_found "ip" (tail (ip_route_argv true)) None w Hp).
    change (host_answer ("ip" :: tail (ip_route_argv true)) None
              (record (Exec ("ip" :: tail (ip_route_argv true)) None) w))
      with (exit_status (bool_decide (is_Some (routes w true))),
            record (Exec (ip_route_argv true) None) w).
    cbn [fst snd]. rewrite exit_status_zero.
    case_bool_decide as Hs; simpl.
    + reflexivity.
    + destruct (routes w true) eqn:Hr; [|reflexivity].
      exfalso. apply Hs. by eexists.
  - erewrite bind_ok
      by exact (run_cmd_found "ip" (tail (ip_route_argv false)) None w Hp).
    change (host_answer ("ip" :: tail (ip_route_argv false)) None
              (record (Exec ("ip" :: tail (ip_route_argv false)) None) w))
      with (exit_status (bool_decide (is_Some (routes w false))),
            record (Exec (ip_route_argv false) None) w).
    cbn [fst snd]. rewrite exit_status_zero.
    case_bool_decide as Hs; simpl.
    + reflexivity.
    + destruct (routes w false) eqn:Hr; [|reflexivity].
      exfalso. apply Hs. by eexists.
Qed.

Lemma ip_json_routes_missing (ipv6 : bool) (w : World) :
  on_path w "ip" = false ->
  ip_json_routes ipv6 w
  = (Raise (FileNotFoundError "ip"), record (Exec (ip_route_argv ipv6) None) w).
Proof.
  intros Hp. unfold ip_json_routes.
  erewrite bind_raise; [reflexivity|].
  destruct ipv6; exact (run_cmd_missing "ip" _ None w Hp).
Qed.

Lemma for_each_log (lg : Logger) (f : string -> string) (msgs : list string)
  (w : World) :
  for_each msgs (fun m => call_logger lg (f m)) w
  = (Ok tt, extend (flat_map (fun m => logged lg (f m)) msgs) w).
Proof.
  revert w. induction msgs as [|m msgs IH]; intros w; simpl; [done|].
  erewrite bind_ok by apply call_logger_eq.
  rewrite IH. f_equal. unfold extend. rewrite fold_left_app.
  by destruct lg.
Qed.

Lemma scan_and_alert_found (r : RouteGuardRunner) (warned : gset string)
  (w : World) :
  on_path w "ip" = true ->
  scan_and_alert r warned w
  = (Ok (current_alerts (vpn_iface (cfg r)) w),
     extend
       (flat_map (fun m => logged (logger r) (alert_line m))
                 (py_sorted (elements (current_alerts (vpn_iface (cfg r)) w ∖ warned))))
       (extend [Exec (ip_route_argv false) None; Exec (ip_route_argv true) None] w)).
Proof.
  intros Hp. unfold scan_and_alert.
  erewrite bind_ok by exact (ip_json_routes_found false w Hp).
  erewrite bind_ok
    by exact (ip_json_routes_found true (record (Exec (ip_route_argv false) None) w) Hp).
  erewrite bind_ok by apply for_each_log.
  reflexivity.
Qed.

Lemma scan_and_alert_missing (r : RouteGuardRunner) (warned : gset string)
  (w : World) :
  on_path w "ip" = false -> ∃ e w', scan_and_alert r warned w = (Raise e, w').
Proof.
  intros Hp. unfold scan_and_alert.
  erewrite bind_raise by exact (ip_json_routes_missing false w Hp).
  by eexists _, _.
Qed.

Lemma keeps_routes_record (w : World) (e : event) : keeps_routes w (record e w).
Proof. by split. Qed.

Lemma keeps_routes_table (w : World) (b : bool) :
  keeps_routes w (set_nft_table b w).
Proof. by split. Qed.



(** An alert that is still there in the next cycle is logged once. *)
Example persisting_alert_logged_once :
  let r := mkRunner (sample_config "monitor") Recording false false true in
  let res := monitor_loop r [routes_become [leak_route]; no_drift] ∅ sample_world in
  res.1 = Ok tt
  ∧ trace res.2
    = [ Exec (ip_route_argv false) None; Exec (ip_route_argv true) None;
        Log (alert_line leak_alert);
        Exec (ip_route_argv false) None; Exec (ip_route_argv true) None ].
Proof. split; vm_compute; reflexivity. Qed.

(** An alert that is gone for one cycle and then back is logged again. *)
Example flapping_alert_logged_again :
  let r := mkRunner (sample_config "monitor") Recording false false true in
  let res := monitor_loop r
               [routes_become [leak_route]; routes_become []; routes_become [leak_route]]
               ∅ sample_world in
  res.1 = Ok tt
  ∧ trace res.2
    = [ Exec (ip_route_argv false) None; Exec (ip_route_argv true) None;
        Log (alert_line leak_alert);
        Exec (ip_route_argv false) None; Exec (ip_route_argv true) None;
        Exec (ip_route_argv false) None; Exec (ip_route_argv true) None;
        Log (alert_line leak_alert) ].
Proof. split; vm_compute; reflexivity. Qed.

(** ** The detector and the runner *)

(** C5, amended.  The scan returns a list: one alert per flagged route,
    in the order of the route table, each alert being the destination,
    the egress device and the gateway (or [-]) of its route in a fixed
    layout.  The set and the sorted order belong to the runner: a scan
    of the runner that completes has polled both routing tables, its
    result is the set of the alerts of either family, and what it logs
    are the alerts of that set that were not known before, each once and
    in sorted order. *)
Theorem scan_result_in_table_order (table : list (gmap string string))
  (tunnel : string) (ipv6 : bool) :
  suspicious_routes table tunnel ipv6
  = List.map
      (fun r => default "None" (r !! "dst") +:+ " via dev=" +:+ route_dev r
                  +:+ " gateway=" +:+ default "-" (r !! "gateway"))
      (filter (is_leak tunnel ipv6) table)
  ∧ ∀ (r : RouteGuardRunner) (warned current : gset string) (w w' : World),
      scan_and_alert r warned w = (Ok current, w') ->
      let found4 :=
        suspicious_routes (default [] (routes w false)) (vpn_iface (cfg r)) false in
      let found6 :=
        suspicious_routes (default [] (routes w true)) (vpn_iface (cfg r)) true in
      let news := py_sorted (elements (current ∖ warned)) in
      (∀ m, m ∈ current ↔ m ∈ found4 ∨ m ∈ found6)
      ∧ trace w'
        = trace w
            ++ [Exec (ip_route_argv false) None; Exec (ip_route_argv true) None]
            ++ flat_map (fun m => logged (logger r) (alert_line m)) news
      ∧ NoDup news
      ∧ StronglySorted str_le news
      ∧ ∀ m, m ∈ news ↔ (m ∈ found4 ∨ m ∈ found6) ∧ m ∉ warned.
Proof.
  split; [apply suspicious_routes_filter|].
  intros r warned current w w' Hscan found4 found6 news.
  destruct (on_path w "ip") eqn:Hip.
  2:{ destruct (scan_and_alert_missing r warned w Hip) as (e & v & Hraise).
      rewrite Hraise in Hscan. discriminate Hscan. }
  rewrite (scan_and_alert_found r warned w Hip) in Hscan.
  assert (Hcur : current = current_alerts (vpn_iface (cfg r)) w) by congruence.
  assert (Hw : w' = (Ok current, w').2) by reflexivity.
  rewrite <- Hscan in Hw. cbn [snd] in Hw.
  assert (Hmem : ∀ m, m ∈ current ↔ m ∈ found4 ∨ m ∈ found6).
  { intros m. rewrite Hcur. unfold current_alerts.
    rewrite elem_of_list_to_set, elem_of_app. reflexivity. }
  destruct (new_alerts_sorted_set current warned) as (Hnd & Hsorted & Hnews).
  split_and!.
  - exact Hmem.
  - rewrite Hw, !trace_extend, <- app_assoc. subst news. by rewrite Hcur.
  - exact Hnd.
  - exact Hsorted.
  - intros m. subst news. rewrite Hnews, Hmem. reflexivity.
Qed.

Lemma scan_result_in_table_order_witness :
  let w := apply_drift (routes_become [leak_route; leak_route]) sample_world in
  let r := mkRunner (sample_config "monitor") Recording false false true in
  ∃ current w',
    scan_and_alert r ∅ w = (Ok current, w')
    ∧ trace w'
      = [ Exec (ip_route_argv false) None; Exec (ip_route_argv true) None ]
          ++ flat_map (fun m => [Log (alert_line m)])
                      (py_sorted (elements (current ∖ ∅)))
    ∧ NoDup (py_sorted (elements (current ∖ ∅)))
    ∧ leak_alert ∈ py_sorted (elements (current ∖ ∅)).
Proof.
  intros w r.
  pose proof (scan_and_alert_found r ∅ w eq_refl) as Hscan.
  destruct (proj2 (scan_result_in_table_order [] "" false) r ∅ _ w _ Hscan)
    as (_ & Htr & Hnd & _ & Hmem).
  eexists _, _. split; [exact Hscan|]. split; [exact Htr|].
  split; [exact Hnd|]. apply Hmem. split; [|apply not_elem_of_empty].
  left. apply list_elem_of_here.
Defined.

(** * Further theorems *)

(** ** The configuration reader *)

Lemma startswith_bracket_not_comment (line : string) :
  Py.startswith "[" line = true ->
  String.eqb line "" = false
  ∧ Py.startswith "#" line = false
  ∧ Py.startswith ";" line = false.
Proof.
  destruct line as [|a rest]; [done|].
  change (Py.startswith "[" (String a rest)) with (Ascii.eqb "[" a && true).
  rewrite andb_true_r. intros Ha. apply Ascii.eqb_eq in Ha as <-. done.
Qed.

Lemma split_first_has_chr (c : ascii) (s l r : string) :
  Py.split_first c s = Some (l, r) -> Py.has_chr c s = true.
Proof.
  revert l. induction s as [|a s IH]; intros l H; [done|].
  cbn [Py.split_first] in H. cbn [Py.has_chr].
  destruct (Ascii.eqb a c); [done|].
  destruct (Py.split_first c s) as [[l1 r1]|]; [|done].
  injection H as _ ->. simpl. by apply (IH l1).
Qed.

Lemma parse_line_state_ok (st : ParseState) (raw_line : string) :
  parse_state_ok st -> parse_state_ok (parse_line st raw_line).
Proof.
  intros Hok. unfold parse_line.
  destruct (_ || _ || _); [done|].
  destruct (_ && _).
  { destruct (String.eqb _ "interface"); [by unfold parse_state_ok|].
    destruct (String.eqb _ "peer").
    - unfold parse_state_ok. simpl. split; [done|].
      rewrite length_app. simpl. lia.
    - by unfold parse_state_ok. }
  destruct (negb _); [done|].
  destruct (Py.split_first _ _) as [[k v]|]; [|done].
  case_bool_decide as Hi.
  { unfold parse_state_ok in *. simpl. destruct (current_peer st); [|done].
    destruct Hok as [Hs _]. congruence. }
  case_bool_decide as Hp; [|done].
  unfold parse_state_ok in *. destruct (current_peer st) as [i|] eqn:Hcp; [|done].
  simpl. rewrite ?Hcp. destruct Hok as [Hs Hlen]. split; [done|].
  by rewrite length_alter.
Qed.

Lemma parse_lines_state_ok (lines : list string) (st : ParseState) :
  parse_state_ok st -> parse_state_ok (fold_left parse_line lines st).
Proof.
  revert st. induction lines as [|l ls IH]; intros st Hok; simpl; [done|].
  apply IH, parse_line_state_ok, Hok.
Qed.

(** X1. While the reader goes through the lines, [current_peer] always
    refers to the peer opened last and is set exactly while the section
    is [peer]; so a [key = value] line of a peer section changes the last
    peer only, where it sets (or overwrites) the key. *)
Theorem reader_writes_into_last_peer (lines : list string) (raw_line k v : string) :
  let st := fold_left parse_line lines (mkParseState ∅ [] None None) in
  let line := Py.strip raw_line in
  parse_state_ok st
  ∧ (current_section st = Some "peer" ->
     String.eqb line "" = false ->
     Py.startswith "#" line = false ->
     Py.startswith ";" line = false ->
     Py.startswith "[" line && Py.endswith "]" line = false ->
     Py.split_first "=" line = Some (k, v) ->
     ∃ before last_peer,
       peers st = before ++ [last_peer]
       ∧ peers (parse_line st raw_line)
         = before ++ [<[Py.strip k := Py.strip v]> last_peer]
       ∧ interface (parse_line st raw_line) = interface st).
Proof.
  intros st line.
  assert (Hok : parse_state_ok st).
  { apply parse_lines_state_ok. unfold parse_state_ok. simpl. discriminate. }
  split; [exact Hok|].
  intros Hsec Hne Hc1 Hc2 Hhdr Hkv.
  unfold parse_state_ok in Hok.
  destruct (current_peer st) as [i|] eqn:Hcp; [|done].
  destruct Hok as [_ Hlen].
  destruct (peers st) as [|p0 ps0] eqn:Hps using rev_ind; [simpl in Hlen; lia|].
  clear IHps0. rewrite length_app in Hlen. simpl in Hlen.
  exists ps0, p0. split; [done|].
  unfold parse_line. fold line. rewrite Hne, Hc1, Hc2, Hhdr. simpl.
  rewrite (split_first_has_chr _ _ _ _ Hkv), Hkv. simpl.
  rewrite bool_decide_eq_false_2 by (rewrite Hsec; discriminate).
  rewrite bool_decide_eq_true_2 by done.
  rewrite Hcp. simpl. split; [|done].
  rewrite Hps. assert (i = length ps0) as -> by lia.
  rewrite alter_app_r_alt by lia.
  replace (length ps0 - length ps0)%nat with 0%nat by lia. done.
Qed.

Lemma reader_writes_into_last_peer_witness :
  let lines := [ "[Peer]"; "Endpoint = 203.0.113.5:51820" ] in
  let st := fold_left parse_line lines (mkParseState ∅ [] None None) in
  current_section st = Some "peer"
  /\ peers (parse_line st "Endpoint=198.51.100.7:51820")
     = [ {[ "Endpoint" := "198.51.100.7:51820" ]} ].
Proof.
  intros lines st. subst st.
  destruct (reader_writes_into_last_peer lines "Endpoint=198.51.100.7:51820"
              "Endpoint" "198.51.100.7:51820") as [_ H].
  split; [reflexivity|].
  destruct (H eq_refl eq_refl eq_refl eq_refl eq_refl eq_refl)
    as (before & last_peer & Hps & Hnew & _).
  rewrite Hnew.
  assert (Hb : before = [] ∧ last_peer = {[ "Endpoint" := "203.0.113.5:51820" ]}).
  { assert (Hp : peers (fold_left parse_line lines (mkParseState ∅ [] None None))
                 = [ {[ "Endpoint" := "203.0.113.5:51820" ]} ])
      by (vm_compute; reflexivity).
    rewrite Hp in Hps.
    symmetry in Hps. apply app_singleton in Hps as [[-> Hl]|[_ Hl]]; [|done].
    by injection Hl as ->. }
  destruct Hb as [-> ->]. reflexivity.
Defined.

Lemma parse_line_peer_count (st : ParseState) (raw_line : string) :
  length (peers (parse_line st raw_line))
  = (length (peers st) + (if is_peer_header raw_line then 1 else 0))%nat.
Proof.
  unfold parse_line, is_peer_header.
  destruct (Py.startswith "[" (Py.strip raw_line)) eqn:Hb.
  - destruct (startswith_bracket_not_comment _ Hb) as (-> & -> & ->). simpl.
    destruct (Py.endswith "]" (Py.strip raw_line)); simpl.
    + destruct (String.eqb _ "interface") eqn:Hi.
      * apply String.eqb_eq in Hi. rewrite Hi. simpl. lia.
      * destruct (String.eqb _ "peer"); simpl; [rewrite length_app; simpl|]; lia.
    + destruct (negb _); [lia|].
      destruct (Py.split_first _ _) as [[k v]|]; [|lia].
      repeat case_bool_decide; simpl; try lia.
      destruct (current_peer st); simpl; [rewrite length_alter|]; lia.
  - simpl. destruct (_ || _ || _); [lia|].
    destruct (negb _); [lia|].
    destruct (Py.split_first _ _) as [[k v]|]; [|lia].
    repeat case_bool_decide; simpl; try lia.
    destruct (current_peer st); simpl; [rewrite length_alter|]; lia.
Qed.

Lemma parse_lines_peer_count (lines : list string) (st : ParseState) :
  length (peers (fold_left parse_line lines st))
  = (length (peers st) + length (List.filter is_peer_header lines))%nat.
Proof.
  revert st. induction lines as [|l ls IH]; intros st; simpl; [lia|].
  rewrite IH, parse_line_peer_count. destruct (is_peer_header l); simpl; lia.
Qed.

(** X2. For a file of ASCII text the reader returns as many peers as
    the file has [[peer]] header lines (brackets around the word, in any
    case and with blanks around it), and it fails with the "No [Peer]
    section" error exactly when there is no such line; a missing file is
    the other error. *)
Theorem reader_counts_peer_sections (content path : string) :
  ascii_text content = true ->
  let n := length (List.filter is_peer_header (Py.splitlines content)) in
  match parse_wireguard_config (Text content) path with
  | Ok data => length (wg_peers data) = n ∧ n ≠ 0%nat
  | Raise e =>
      n = 0%nat
      ∧ e = RouteGuardError "No [Peer] section found in WireGuard config."
  end
  ∧ parse_wireguard_config Missing path
    = Raise (RouteGuardError ("WireGuard config not found: " +:+ path)).
Proof.
  intros _ n. split; [|reflexivity].
  unfold parse_wireguard_config.
  pose proof (parse_lines_peer_count (Py.splitlines content)
                (mkParseState ∅ [] None None)) as Hn.
  simpl in Hn. fold n in Hn.
  destruct (peers _) as [|p ps]; simpl in *; [done|].
  split; [done | lia].
Qed.

Lemma reader_counts_peer_sections_witness :
  ascii_text sample_conf = true
  /\ ∃ data, parse_wireguard_config (Text sample_conf) sample_path = Ok data
             ∧ length (wg_peers data) = 2%nat.
Proof.
  assert (Hascii : ascii_text sample_conf = true) by (vm_compute; reflexivity).
  split; [exact Hascii|].
  destruct (reader_counts_peer_sections sample_conf sample_path Hascii) as [H _].
  destruct (parse_wireguard_config (Text sample_conf) sample_path) as [data|e].
  - exists data. split; [reflexivity|]. destruct H as [-> _]. vm_compute. reflexivity.
  - destruct H as [H _]. vm_compute in H. discriminate H.
Defined.

(** ** Strings *)

Lemma str_cons_append (a : ascii) (s t : string) :
  String a s +:+ t = String a (s +:+ t).
Proof. reflexivity. Qed.

Lemma str_rev_app_acc (s acc : string) :
  String.rev_app s acc = String.rev s +:+ acc.
Proof.
  unfold String.rev. revert acc.
  induction s as [|a s IH]; intros acc; [done|].
  cbn [String.rev_app]. rewrite (IH (String a acc)), (IH (String a "")).
  by rewrite str_append_assoc.
Qed.

Lemma str_rev_cons (a : ascii) (s : string) :
  String.rev (String a s) = String.rev s +:+ String a "".
Proof. unfold String.rev at 1. cbn [String.rev_app]. apply str_rev_app_acc. Qed.

Lemma str_rev_append (s t : string) :
  String.rev (s +:+ t) = String.rev t +:+ String.rev s.
Proof.
  induction s as [|a s IH].
  - by rewrite str_append_nil_r.
  - rewrite str_cons_append, !str_rev_cons, IH. apply str_append_assoc.
Qed.

Lemma str_rev_involutive (s : string) : String.rev (String.rev s) = s.
Proof.
  induction s as [|a s IH]; [done|].
  rewrite str_rev_cons, str_rev_append, IH. done.
Qed.

Lemma str_length_append (s t : string) :
  String.length (s +:+ t) = (String.length s + String.length t)%nat.
Proof.
  induction s as [|a s IH]; [done|].
  rewrite str_cons_append. cbn [String.length]. by rewrite IH.
Qed.

Lemma startswith_spec (p s : string) :
  Py.startswith p s = true ↔ ∃ t, s = p +:+ t.
Proof.
  revert s. induction p as [|a p IH]; intros s.
  - split; [intros _; by exists s | done].
  - destruct s as [|b s]; cbn [Py.startswith].
    + split; [done | intros [t Ht]; discriminate Ht].
    + rewrite andb_true_iff, Ascii.eqb_eq, IH. split.
      * intros [-> [t ->]]. by exists t.
      * intros [t Ht]. rewrite str_cons_append in Ht. injection Ht as -> ->.
        split; [done | by exists t].
Qed.

Lemma endswith_spec (p s : string) :
  Py.endswith p s = true ↔ ∃ t, s = t +:+ p.
Proof.
  unfold Py.endswith. rewrite startswith_spec. split.
  - intros [t Ht]. exists (String.rev t).
    rewrite <- (str_rev_involutive s), Ht, str_rev_append.
    by rewrite str_rev_involutive.
  - intros [t ->]. exists (String.rev t). apply str_rev_append.
Qed.

Lemma has_chr_append (c : ascii) (s t : string) :
  Py.has_chr c (s +:+ t) = Py.has_chr c s || Py.has_chr c t.
Proof.
  induction s as [|a s IH]; [done|].
  rewrite str_cons_append. cbn [Py.has_chr]. rewrite IH. apply orb_assoc.
Qed.

Lemma count_chr_append (c : ascii) (s t : string) :
  Py.count_chr c (s +:+ t) = (Py.count_chr c s + Py.count_chr c t)%nat.
Proof.
  induction s as [|a s IH]; [done|].
  rewrite str_cons_append. cbn [Py.count_chr]. rewrite IH. lia.
Qed.

Lemma count_chr_zero (c : ascii) (s : string) :
  Py.count_chr c s = 0%nat ↔ Py.has_chr c s = false.
Proof.
  induction s as [|a s IH]; [done|].
  cbn [Py.count_chr Py.has_chr].
  destruct (Ascii.eqb a c); simpl; [split; [lia | done] | exact IH].
Qed.

Lemma split_last_none (c : ascii) (s : string) :
  Py.split_last c s = None ↔ Py.has_chr c s = false.
Proof.
  induction s as [|a s IH]; [done|].
  cbn [Py.split_last Py.has_chr].
  destruct (Py.split_last c s) as [[l r]|].
  - split; [done|]. intros H. apply orb_false_iff in H as [_ H].
    apply IH in H. discriminate H.
  - assert (Hs : Py.has_chr c s = false) by (by apply IH).
    rewrite Hs, orb_false_r. destruct (Ascii.eqb a c); done.
Qed.

Lemma split_last_some (c : ascii) (s l r : string) :
  Py.split_last c s = Some (l, r)
  ↔ s = l +:+ String c r ∧ Py.has_chr c r = false.
Proof.
  revert l. induction s as [|a s IH]; intros l.
  - split; [done|]. intros [H _]. destruct l; discriminate H.
  - cbn [Py.split_last].
    destruct (Py.split_last c s) as [[l1 r1]|] eqn:Hs.
    + split.
      * intros [= <- <-]. destruct (proj1 (IH l1) eq_refl) as [-> Hr]. done.
      * intros [Heq Hr]. destruct l as [|b l].
        -- simpl in Heq. injection Heq as -> ->.
           apply split_last_none in Hr. congruence.
        -- rewrite str_cons_append in Heq. injection Heq as -> Hs'.
           assert (H' : Some (l1, r1) = Some (l, r)) by (apply IH; done).
           by injection H' as -> ->.
    + apply split_last_none in Hs.
      destruct (Ascii.eqb a c) eqn:Hac.
      * apply Ascii.eqb_eq in Hac as ->. split.
        -- intros [= <- <-]. done.
        -- intros [Heq Hr]. destruct l as [|b l].
           ++ simpl in Heq. by injection Heq as ->.
           ++ rewrite str_cons_append in Heq. injection Heq as -> ->.
              rewrite has_chr_append in Hs. cbn [Py.has_chr] in Hs.
              rewrite Ascii.eqb_refl in Hs. simpl in Hs.
              by rewrite orb_true_r in Hs.
      * split; [done|]. intros [Heq Hr]. destruct l as [|b l].
        -- simpl in Heq. injection Heq as -> ->. by rewrite Ascii.eqb_refl in Hac.
        -- rewrite str_cons_append in Heq. injection Heq as -> ->.
           rewrite has_chr_append in Hs. cbn [Py.has_chr] in Hs.
           rewrite Ascii.eqb_refl in Hs. simpl in Hs.
           by rewrite orb_true_r in Hs.
Qed.

Lemma drop_first_last_bracketed (a b : ascii) (host : string) :
  Py.drop_first_last (String a (host +:+ String b "")) = host.
Proof.
  unfold Py.drop_first_last.
  rewrite str_rev_append. change (String.rev (String b "")) with (String b "").
  rewrite str_cons_append. simpl (_ +:+ _). apply str_rev_involutive.
Qed.

Lemma all_digits_no_chr (c : ascii) (ds : string) :
  Py.is_digit c = false -> Py.all_digits ds = true -> Py.has_chr c ds = false.
Proof.
  intros Hc. induction ds as [|a ds IH]; [done|].
  cbn [Py.all_digits Py.has_chr]. rewrite andb_true_iff. intros [Ha Hds].
  rewrite (IH Hds), orb_false_r.
  destruct (Ascii.eqb a c) eqn:Hac; [|done].
  apply Ascii.eqb_eq in Hac as ->. congruence.
Qed.

Lemma isdigit_all_digits (ds : string) :
  Py.isdigit ds = true -> Py.all_digits ds = true.
Proof. destruct ds; [done|]. done. Qed.

Lemma int_of_digits_from_nonneg (ds : string) (acc : Z) :
  Py.all_digits ds = true -> 0 <= acc -> 0 <= Py.int_of_digits_from acc ds.
Proof.
  revert acc. induction ds as [|a ds IH]; intros acc; [done|].
  cbn [Py.all_digits Py.int_of_digits_from]. rewrite andb_true_iff.
  intros [Ha Hds] Hacc. apply IH; [done|].
  unfold Py.is_digit in Ha. apply andb_true_iff in Ha as [Hlo _].
  apply Nat.leb_le in Hlo. lia.
Qed.

(** ** Endpoint parsing *)

Lemma colon_not_digit : Py.is_digit ":" = false.
Proof. reflexivity. Qed.

Lemma match_bracketed_some (endpoint host ds : string) :
  match_bracketed endpoint = Some (host, ds)
  ↔ endpoint = "[" +:+ host +:+ "]:" +:+ ds
    ∧ Py.isdigit ds = true ∧ host ≠ "" ∧ Py.has_chr Py.nl_chr host = false.
Proof.
  unfold match_bracketed. split.
  - destruct (Py.split_last ":" endpoint) as [[lhs digits]|] eqn:Hs; [|done].
    apply split_last_some in Hs as [-> _].
    destruct (Py.isdigit digits) eqn:Hd; [|done].
    destruct (Py.startswith "[" lhs) eqn:Hb; [|done].
    destruct (Py.endswith "]" lhs) eqn:He; [|done].
    destruct (2 <? String.length lhs)%nat eqn:Hl; [|done].
    destruct (Py.has_chr Py.nl_chr (Py.drop_first_last lhs)) eqn:Hn; [done|].
    simpl. intros [= <- <-].
    apply startswith_spec in Hb as [t ->].
    apply endswith_spec in He as [u Hu].
    destruct u as [|b u].
    { change ("[" +:+ t) with (String "[" t) in Hu.
      change ("" +:+ "]") with (String "]" "") in Hu. discriminate Hu. }
    change ("[" +:+ t) with (String "[" t) in Hu.
    change (String b u +:+ "]") with (String b (u +:+ "]")) in Hu.
    injection Hu as _ ->.
    change ("[" +:+ u +:+ "]") with (String "[" (u +:+ String "]" "")) in *.
    rewrite drop_first_last_bracketed in *.
    split_and!; try done.
    + rewrite (str_cons_append "[" (u +:+ "]")), (str_append_assoc u). reflexivity.
    + intros ->. discriminate Hl.
  - intros (-> & Hd & Hne & Hn).
    assert (Hs : Py.split_last ":" ("[" +:+ host +:+ "]:" +:+ ds)
                 = Some ("[" +:+ host +:+ "]", ds)).
    { apply split_last_some. split.
      - change ("[" +:+ host +:+ "]:" +:+ ds)
          with (String "[" (host +:+ ("]" +:+ String ":" ds))).
        change ("[" +:+ host +:+ "]") with (String "[" (host +:+ "]")).
        rewrite (str_cons_append "[" (host +:+ "]")), (str_append_assoc host).
        reflexivity.
      - apply all_digits_no_chr; [reflexivity | by apply isdigit_all_digits]. }
    rewrite Hs, Hd.
    change ("[" +:+ host +:+ "]") with (String "[" (host +:+ String "]" "")).
    rewrite drop_first_last_bracketed, Hn.
    assert (Hb : Py.startswith "[" (String "[" (host +:+ String "]" "")) = true)
      by (apply startswith_spec; by eexists).
    assert (He : Py.endswith "]" (String "[" (host +:+ String "]" "")) = true).
    { apply endswith_spec. exists (String "[" host). done. }
    assert (Hl : (2 <? String.length (String "[" (host +:+ String "]" "")))%nat = true).
    { apply Nat.ltb_lt. cbn [String.length]. rewrite str_length_append.
      destruct host; [done|]. simpl. lia. }
    rewrite Hb, He, Hl. done.
Qed.



(** ** The interface name taken from the file name *)

Lemma split_chr_from_plain (c : ascii) (cur s : string) :
  Py.has_chr c s = false ->
  Py.split_chr_from c cur s = [String.rev cur +:+ s].
Proof.
  revert cur. induction s as [|a s IH]; intros cur; cbn [Py.has_chr Py.split_chr_from].
  - by rewrite str_append_nil_r.
  - intros H. apply orb_false_iff in H as [-> Hs].
    rewrite (IH _ Hs), str_rev_cons, str_append_assoc. done.
Qed.

Lemma split_chr_from_app (c : ascii) (cur a b : string) :
  Py.split_chr_from c cur (a +:+ String c b)
  = Py.split_chr_from c cur a ++ Py.split_chr_from c EmptyString b.
Proof.
  revert cur. induction a as [|x a IH]; intros cur.
  - change ("" +:+ String c b) with (String c b). cbn [Py.split_chr_from].
    by rewrite Ascii.eqb_refl.
  - rewrite str_cons_append. cbn [Py.split_chr_from].
    destruct (Ascii.eqb x c); [|apply IH].
    by rewrite IH.
Qed.

Lemma path_name_last (dir name : string) :
  Py.has_chr "/" name = false -> name ≠ "" -> name ≠ "." ->
  Py.path_name (dir +:+ "/" +:+ name) = name.
Proof.
  intros Hs Hn Hd. unfold Py.path_name, Py.split_chr.
  change (dir +:+ "/" +:+ name) with (dir +:+ String "/" name).
  rewrite split_chr_from_app, (split_chr_from_plain _ _ _ Hs).
  change (String.rev "" +:+ name) with name.
  rewrite List.filter_app. simpl List.filter.
  apply String.eqb_neq in Hn, Hd. rewrite Hn, Hd. simpl.
  apply last_last.
Qed.

Lemma path_name_alone (name : string) :
  Py.has_chr "/" name = false -> name ≠ "" -> name ≠ "." ->
  Py.path_name name = name.
Proof.
  intros Hs Hn Hd. unfold Py.path_name, Py.split_chr.
  rewrite (split_chr_from_plain _ _ _ Hs).
  change (String.rev "" +:+ name) with name. simpl List.filter.
  apply String.eqb_neq in Hn, Hd. by rewrite Hn, Hd.
Qed.

Lemma substring_prefix (s t : string) :
  String.substring 0 (String.length s) (s +:+ t) = s.
Proof.
  induction s as [|a s IH].
  - destruct t; reflexivity.
  - rewrite str_cons_append. cbn [String.length String.substring]. by rewrite IH.
Qed.

Lemma drop_last_suffix (s t : string) :
  Py.drop_last (String.length t) (s +:+ t) = s.
Proof.
  unfold Py.drop_last. rewrite str_length_append.
  replace (String.length s + String.length t - String.length t)%nat
    with (String.length s) by lia.
  apply substring_prefix.
Qed.

(** X5. The interface name inferred from a path is its last component
    without a final [.conf]: a directory in front and the extension are
    dropped, and a name without that extension is kept whole. *)
Theorem iface_name_from_path (dir name : string) :
  Py.has_chr "/" name = false ->
  (infer_iface_name_from_wg_path (dir +:+ "/" +:+ name +:+ ".conf") = name
   ∧ infer_iface_name_from_wg_path (name +:+ ".conf") = name)
  ∧ (name ≠ "" -> name ≠ "." -> Py.endswith ".conf" name = false ->
     infer_iface_name_from_wg_path (dir +:+ "/" +:+ name) = name
     ∧ infer_iface_name_from_wg_path name = name).
Proof.
  intros Hs.
  assert (Hext : Py.has_chr "/" (name +:+ ".conf") = false)
    by (rewrite has_chr_append, Hs; reflexivity).
  assert (Hn : name +:+ ".conf" ≠ "").
  { intros H. apply (f_equal String.length) in H.
    rewrite str_length_append in H. simpl in H. lia. }
  assert (Hd : name +:+ ".conf" ≠ ".").
  { intros H. apply (f_equal String.length) in H.
    rewrite str_length_append in H. simpl in H. lia. }
  assert (He : Py.endswith ".conf" (name +:+ ".conf") = true)
    by (apply endswith_spec; by exists name).
  unfold infer_iface_name_from_wg_path. split_and!.
  - rewrite (path_name_last dir (name +:+ ".conf") Hext Hn Hd), He.
    apply (drop_last_suffix name ".conf").
  - rewrite (path_name_alone (name +:+ ".conf") Hext Hn Hd), He.
    apply (drop_last_suffix name ".conf").
  - intros Hne Hnd Hnc. split.
    + by rewrite (path_name_last dir name Hs Hne Hnd), Hnc.
    + by rewrite (path_name_alone name Hs Hne Hnd), Hnc.
Qed.

Lemma iface_name_from_path_witness :
  Py.has_chr "/" "wg0" = false
  /\ infer_iface_name_from_wg_path ("/etc/wireguard" +:+ "/" +:+ "wg0" +:+ ".conf")
     = "wg0".
Proof.
  split; [reflexivity|].
  destruct (iface_name_from_path "/etc/wireguard" "wg0" eq_refl) as [[H _] _].
  exact H.
Defined.

(** ** More on the rule compiler *)

Lemma has_chr_remove_chr (c : ascii) (s : string) :
  Py.has_chr c (Py.remove_chr c s) = false.
Proof.
  induction s as [|a s IH]; [done|].
  cbn [Py.remove_chr]. destruct (Ascii.eqb a c) eqn:Hac; [done|].
  cbn [Py.has_chr]. by rewrite Hac, IH.
Qed.

Lemma remove_chr_absent (c : ascii) (s : string) :
  Py.has_chr c s = false -> Py.remove_chr c s = s.
Proof.
  induction s as [|a s IH]; [done|].
  cbn [Py.remove_chr Py.has_chr]. intros H.
  apply orb_false_iff in H as [-> Hs]. by rewrite (IH Hs).
Qed.

Lemma count_quotes_around (before after name : string) :
  Py.count_chr Py.dquote_chr before = 0%nat ->
  Py.count_chr Py.dquote_chr after = 0%nat ->
  Py.has_chr Py.dquote_chr name = false ->
  Py.count_chr Py.dquote_chr
    (before +:+ Py.dquote +:+ name +:+ Py.dquote +:+ after) = 2%nat.
Proof.
  intros Hb Ha Hn. apply count_chr_zero in Hn.
  rewrite !count_chr_append, Hb, Ha, Hn. reflexivity.
Qed.

(** X6. The interface name is written into the script without its
    double quotes, so the two rules that name it (the tunnel accept
    and the final drop) hold exactly the two quotes that delimit the
    name; a name without quotes is written unchanged. *)
Theorem interface_name_stays_quoted (c : GeneratedConfig) :
  Py.has_chr Py.dquote_chr (sanitized_iface c) = false
  ∧ build_nft_lines c !! 4%nat = Some (rule_tunnel c)
  ∧ Py.count_chr Py.dquote_chr (rule_tunnel c) = 2%nat
  ∧ last (build_nft_lines c) = Some "}"
  ∧ rule_drop c ∈ build_nft_lines c
  ∧ Py.count_chr Py.dquote_chr (rule_drop c) = 2%nat
  ∧ (Py.has_chr Py.dquote_chr (vpn_iface c) = false ->
     sanitized_iface c = vpn_iface c).
Proof.
  pose proof (has_chr_remove_chr Py.dquote_chr (vpn_iface c)) as Hs.
  rewrite build_nft_lines_shape.
  split_and!.
  - exact Hs.
  - reflexivity.
  - apply (count_quotes_around "    oifname " " accept"); [reflexivity..|exact Hs].
  - rewrite !last_app. reflexivity.
  - rewrite !elem_of_app. right. left. unfold required_rules.
    rewrite !elem_of_app. do 4 right. apply list_elem_of_here.
  - apply (count_quotes_around "    oifname != " " drop"); [reflexivity..|exact Hs].
  - apply remove_chr_absent.
Qed.

Lemma interface_name_stays_quoted_witness :
  Py.has_chr Py.dquote_chr (vpn_iface (sample_config "protect")) = false
  /\ sanitized_iface (sample_config "protect") = "wg0".
Proof.
  split; [reflexivity|].
  destruct (interface_name_stays_quoted (sample_config "protect"))
    as (_ & _ & _ & _ & _ & _ & H).
  apply H. reflexivity.
Defined.

(** ** More on the leak detector *)

(** X7. Routes that leave by the tunnel interface, or that name no
    device, are never flagged; the scan flags at most one alert per
    route and treats a list route by route; and the prefixes of one
    family mean nothing to the scan of the other. *)
Theorem scan_never_flags (routes : list (gmap string string))
  (tunnel : string) (ipv6 : bool) :
  (Forall (fun r => route_dev r = tunnel ∨ route_dev r = "") routes ->
   suspicious_routes routes tunnel ipv6 = [])
  ∧ (length (suspicious_routes routes tunnel ipv6) <= length routes)%nat
  ∧ (∀ more, suspicious_routes (routes ++ more) tunnel ipv6
             = suspicious_routes routes tunnel ipv6
                 ++ suspicious_routes more tunnel ipv6)
  ∧ (Forall (fun r => ∃ dst, r !! "dst" = Some dst ∧ is_split_default (negb ipv6) dst)
            routes ->
     suspicious_routes routes tunnel ipv6 = []).
Proof.
  rewrite !suspicious_routes_filter. split_and!.
  - intros Hall. induction routes as [|r rs IH]; [done|].
    apply Forall_cons in Hall as [Hr Hrs]. rewrite filter_cons.
    destruct (decide (is_leak tunnel ipv6 r)) as [[_ [H1 H2]]|_]; [|by apply IH].
    destruct Hr; done.
  - rewrite length_map. apply length_filter.
  - intros more. rewrite !suspicious_routes_filter, filter_app. apply map_app.
  - intros Hall. induction routes as [|r rs IH]; [done|].
    apply Forall_cons in Hall as [Hr Hrs]. rewrite filter_cons.
    destruct (decide (is_leak tunnel ipv6 r)) as [[[d [Hd Hs]] _]|_]; [|by apply IH].
    exfalso. destruct Hr as (d' & Hd' & Hs'). rewrite Hd in Hd'. injection Hd' as <-.
    unfold is_split_default in *. destruct ipv6; simpl in *;
      destruct Hs as [->| ->], Hs' as [?|?]; discriminate.
Qed.

Lemma scan_never_flags_witness :
  let own : gmap string string := {[ "dst" := "0.0.0.0/1"; "dev" := "wg0" ]} in
  Forall (fun r => route_dev r = "wg0" ∨ route_dev r = "") [own]
  /\ suspicious_routes [own] "wg0" false = [].
Proof.
  intros own.
  assert (H : Forall (fun r => route_dev r = "wg0" ∨ route_dev r = "") [own])
    by (repeat constructor).
  split; [exact H|].
  apply (proj1 (scan_never_flags [own] "wg0" false)). exact H.
Defined.

(** ** Applying the rules *)

Lemma host_answer_load (script : string) (w : World) :
  host_answer nft_load_argv (Some script) w
  = (nft_verdict w script,
     if returncode (nft_verdict w script) =? 0 then set_nft_table true w else w).
Proof. reflexivity. Qed.

Lemma apply_nft_rules_eq (c : GeneratedConfig) (lg : Logger) (w : World) :
  apply_nft_rules c lg w
  = if on_path w "nft" then
      let w1 := extend (load_events c) (set_nft_table false w) in
      if returncode (nft_verdict w (build_nft_script c)) =? 0
      then (Ok tt,
            log_with lg (applied_line c)
                     (record (Exec nft_list_argv None) (set_nft_table true w1)))
      else (Raise (RouteGuardError
                     ("nft failed to apply rules: "
                        +:+ load_complaint (nft_verdict w (build_nft_script c)))),
            w1)
    else (Raise (RouteGuardError "nft command not found. Install nftables."), w).
Proof.
  unfold apply_nft_rules.
  rewrite (bind_ok _ _ w w (on_path w "nft")) by reflexivity.
  destruct (on_path w "nft") eqn:Hp; cbn [negb]; [|reflexivity].
  erewrite bind_ok by apply remove_nft_rules_eq.
  unfold after_remove. rewrite Hp. cbn [log_with].
  set (w0 := set_nft_table false (record (Exec nft_delete_argv None) w)).
  assert (Hp0 : on_path w0 "nft" = true) by exact Hp.
  erewrite bind_ok
    by exact (run_cmd_found "nft" (tail nft_load_argv) (Some (build_nft_script c)) w0 Hp0).
  change ("nft" :: tail nft_load_argv) with nft_load_argv.
  rewrite host_answer_load. cbn [fst snd].
  change (nft_verdict (record (Exec nft_load_argv (Some (build_nft_script c))) w0))
    with (nft_verdict w).
  destruct (returncode (nft_verdict w (build_nft_script c)) =? 0) eqn:Hrc;
    cbn [negb].
  - set (w2 := set_nft_table true _).
    assert (Hp2 : on_path w2 "nft" = true) by exact Hp.
    erewrite bind_ok; [|rewrite routeguard_table_exists_eq, Hp2; reflexivity].
    change (nft_table w2) with true. cbn [negb].
    apply call_logger_eq.
  - reflexivity.
Qed.

Lemma load_complaint_nonempty (cp : CompletedProcess) : load_complaint cp ≠ "".
Proof.
  unfold load_complaint.
  generalize (Py.strip (first_nonempty (stderr cp) (stdout cp))).
  intros [|a s]; discriminate.
Qed.

Lemma apply_accepted (c : GeneratedConfig) (lg : Logger) (w : World) :
  nft_accepts c w ->
  ∃ w', apply_nft_rules c lg w = (Ok tt, w')
        ∧ nft_table w' = true
        ∧ trace w'
          = trace w ++ load_events c ++ [Exec nft_list_argv None]
              ++ logged lg (applied_line c)
        ∧ same_host (set_nft_table true w) w'.
Proof.
  intros [Hp Hrc]. apply Z.eqb_eq in Hrc.
  rewrite apply_nft_rules_eq, Hp. cbv zeta. rewrite Hrc.
  eexists. split; [reflexivity|].
  split_and!.
  - by destruct lg.
  - rewrite trace_log_with. simpl. by rewrite <- !app_assoc.
  - destruct lg; by repeat split.
Qed.

Lemma nft_accepts_same_host (c : GeneratedConfig) (w w' : World) :
  on_path w' = on_path w -> nft_verdict w' = nft_verdict w ->
  nft_accepts c w -> nft_accepts c w'.
Proof. unfold nft_accepts. intros -> ->. done. Qed.



(** X9. When the nft program is installed but rejects the script,
    [apply_nft_rules] raises the module's error with what nft said (or
    [unknown error]), logs nothing, and leaves the host without the
    table even if one was loaded before the call: the old table is
    deleted before the new script is tried.  Without the nft program the
    call raises at once and runs nothing. *)
Theorem rejected_script_leaves_no_table (c : GeneratedConfig) (lg : Logger)
  (w : World) :
  (on_path w "nft" = true ->
   returncode (nft_verdict w (build_nft_script c)) ≠ 0 ->
   ∃ said w',
     apply_nft_rules c lg w
     = (Raise (RouteGuardError ("nft failed to apply rules: " +:+ said)), w')
     ∧ said ≠ ""
     ∧ nft_table w' = false
     ∧ trace w' = trace w ++ load_events c
     ∧ same_host (set_nft_table false w) w')
  ∧ (on_path w "nft" = false ->
     apply_nft_rules c lg w
     = (Raise (RouteGuardError "nft command not found. Install nftables."), w)).
Proof.
  split.
  - intros Hp Hrc. apply Z.eqb_neq in Hrc.
    rewrite apply_nft_rules_eq, Hp. cbv zeta. rewrite Hrc.
    eexists _, _. split; [reflexivity|].
    split_and!.
    + apply load_complaint_nonempty.
    + reflexivity.
    + simpl. by rewrite <- app_assoc.
    + by repeat split.
  - intros Hp. by rewrite apply_nft_rules_eq, Hp.
Qed.

Lemma rejected_script_leaves_no_table_witness :
  let w := mkWorld (fun _ => true) true (fun _ => mkCompletedProcess 1 "" "syntax error")
                   (fun _ _ => exit_status true) [] (fun _ => Some [])
                   (fun _ => true) (fun _ => true) ∅ 1 "t" [] in
  nft_table w = true
  /\ ∃ said w', apply_nft_rules (sample_config "protect") Recording w
                = (Raise (RouteGuardError ("nft failed to apply rules: " +:+ said)), w')
                ∧ nft_table w' = false.
Proof.
  intros w. split; [reflexivity|].
  destruct (rejected_script_leaves_no_table (sample_config "protect") Recording w)
    as [H _].
  destruct (H eq_refl) as (said & w' & Heq & _ & Ht & _); [by cbv|].
  exists said, w'. by split.
Defined.



(** ** The state store *)

Lemma dict_get_set (k k' : string) (v : json) (d : list (string * json)) :
  dict_get k (dict_set k' v d) = if String.eqb k' k then Some v else dict_get k d.
Proof.
  induction d as [|[k0 v0] d IH]; simpl.
  - done.
  - destruct (String.eqb k0 k') eqn:H0; simpl.
    + apply String.eqb_eq in H0 as ->. by destruct (String.eqb k' k).
    + destruct (String.eqb k0 k) eqn:H1.
      * apply String.eqb_eq in H1 as ->.
        rewrite String.eqb_sym in H0. by rewrite H0.
      * exact IH.
Qed.

Lemma dict_set_keys (k : string) (v : json) (d : list (string * json)) :
  ∃ more, List.map fst (dict_set k v d) = List.map fst d ++ more.
Proof.
  induction d as [|[k0 v0] d [more IH]]; simpl.
  - by exists [k].
  - destruct (String.eqb k0 k) eqn:H0; simpl.
    + apply String.eqb_eq in H0 as ->. exists []. by rewrite app_nil_r.
    + exists more. by rewrite IH.
Qed.

Lemma dict_update_keys (extra d : list (string * json)) :
  ∃ more, List.map fst (dict_update d extra) = List.map fst d ++ more.
Proof.
  unfold dict_update. revert d.
  induction extra as [|[k v] extra IH]; intros d; simpl.
  - exists []. by rewrite app_nil_r.
  - destruct (IH (dict_set k v d)) as [more2 H2].
    destruct (dict_set_keys k v d) as [more1 H1].
    exists (more1 ++ more2). by rewrite H2, H1, app_assoc.
Qed.

Lemma dict_get_update (k : string) (extra d : list (string * json)) :
  dict_get k (dict_update d extra)
  = match last_binding k extra with
    | Some v => Some v
    | None => dict_get k d
    end.
Proof.
  unfold dict_update, last_binding. revert d.
  induction extra as [|[k' v'] extra IH] using rev_ind; intros d.
  - reflexivity.
  - rewrite fold_left_app, rev_unit. simpl.
    rewrite dict_get_set. destruct (String.eqb k' k); [done|apply IH].
Qed.

Lemma read_state_eq (w : World) :
  read_state w
  = (Ok (match files w !! "/run/routeguard-auto/state.json" with
         | Some v => Some v
         | None => files w !! "/tmp/routeguard-auto-state.json"
         end), w).
Proof.
  unfold read_state, STATE_PATHS. simpl.
  by destruct (files w !! "/run/routeguard-auto/state.json"),
       (files w !! "/tmp/routeguard-auto-state.json").
Qed.

Lemma write_state_eq (c : GeneratedConfig)
  (extra : option (list (string * json))) (w : World) :
  write_state c extra w
  = let p := first_usable (can_mkdir w) STATE_PATHS in
    if can_write w p
    then (Ok p,
          set_files (<[p := JDict (state_payload c extra w)]> (files w))
                    (record (Write p) w))
    else (Raise (OSError ("cannot write " +:+ p)), record (Write p) w).
Proof.
  unfold write_state.
  rewrite (bind_ok _ _ w w (first_usable (can_mkdir w) STATE_PATHS)) by reflexivity.
  rewrite (bind_ok _ _ w w w) by reflexivity.
  cbv zeta.
  assert (Hpay : match extra with
                 | Some (kv :: kvs) =>
                     fold_left (fun d kv => dict_set kv.1 kv.2 d) (kv :: kvs)
                               (base_payload c w)
                 | _ => base_payload c w
                 end = state_payload c extra w).
  { unfold state_payload, dict_update. by destruct extra as [[|kv kvs]|]. }
  unfold base_payload in Hpay at 1 2 3. rewrite Hpay.
  unfold mbind, M_bind, write_text.
  change (can_write (record (Write ?p) w)) with (can_write w).
  destruct (can_write w _); reflexivity.
Qed.

(** X11. What [write_state] writes is what [read_state] reads: when the
    chosen state file can be written (and files lie in directories that
    exist), [write_state] returns the first candidate whose directory
    can be made, writes that file and no other, and a following
    [read_state] returns the payload just written, leaving the host as
    it is.  When the file cannot be written the error of the write
    comes out and no file changes. *)
Theorem state_written_is_state_read (c : GeneratedConfig)
  (extra : option (list (string * json))) (w : World) :
  files_have_dirs w ->
  let p := first_usable (can_mkdir w) STATE_PATHS in
  (can_write w p = true ->
   ∃ w', write_state c extra w = (Ok p, w')
         ∧ p ∈ STATE_PATHS
         ∧ trace w' = trace w ++ [Write p]
         ∧ (∀ q, q ≠ p -> files w' !! q = files w !! q)
         ∧ read_state w' = (Ok (Some (JDict (state_payload c extra w))), w'))
  ∧ (can_write w p = false ->
     ∃ msg w', write_state c extra w = (Raise (OSError msg), w')
               ∧ files w' = files w).
Proof.
  intros Hdirs p. split.
  - intros Hcw. rewrite write_state_eq. cbv zeta. fold p. rewrite Hcw.
    eexists. split; [reflexivity|]. split_and!.
    + apply state_path_candidate.
    + reflexivity.
    + intros q Hq. simpl. by apply lookup_insert_ne.
    + rewrite read_state_eq. simpl files. f_equal. f_equal.
      subst p. unfold STATE_PATHS in *. simpl in *.
      destruct (can_mkdir w (path_parent "/run/routeguard-auto/state.json")) eqn:Hrun.
      * by rewrite lookup_insert_eq.
      * assert (Hnone : files w !! "/run/routeguard-auto/state.json" = None).
        { destruct (files w !! "/run/routeguard-auto/state.json") as [v|] eqn:Hv;
            [|done].
          apply Hdirs in Hv. congruence. }
        destruct (can_mkdir w (path_parent "/tmp/routeguard-auto-state.json"));
          rewrite lookup_insert_ne by done; rewrite Hnone;
          by rewrite lookup_insert_eq.
  - intros Hcw. rewrite write_state_eq. cbv zeta. fold p. rewrite Hcw.
    by eexists _, _.
Qed.

Lemma state_written_is_state_read_witness :
  files_have_dirs sample_world
  /\ ∃ w', write_state (sample_config "monitor") None sample_world
           = (Ok "/run/routeguard-auto/state.json", w')
           ∧ read_state w'
             = (Ok (Some (JDict (base_payload (sample_config "monitor") sample_world))), w').
Proof.
  assert (H : files_have_dirs sample_world) by (intros q v Hq; done).
  split; [exact H|].
  destruct (state_written_is_state_read (sample_config "monitor") None sample_world H)
    as [Hw _].
  destruct (Hw eq_refl) as (w' & Heq & _ & _ & _ & Hread).
  exists w'. split; [exact Heq|exact Hread].
Defined.

(** X12. What [write_state] puts into the state file: a dict that
    starts with the keys [pid], [started_at] and [config], in that
    order, holding the process id, the time stamp and the dict of the
    configuration; a key of [extra] takes the place of a key of the same
    name and its last value wins, and keys that are new follow.  Without
    [extra], or with an empty one, the three keys are all there is. *)
Theorem state_payload_merges_extra (c : GeneratedConfig)
  (extra : option (list (string * json))) (w : World) :
  let p := first_usable (can_mkdir w) STATE_PATHS in
  let base := [ ("pid", JInt (pid w)); ("started_at", JStr (clock w));
                ("config", JDict (to_dict c)) ] in
  can_write w p = true ->
  ∃ payload,
    (write_state c extra w).1 = Ok p
    ∧ files (write_state c extra w).2 !! p = Some (JDict payload)
    ∧ (∀ k, dict_get k payload
            = match last_binding k (default [] extra) with
              | Some v => Some v
              | None => dict_get k base
              end)
    ∧ (∃ more, List.map fst payload = ["pid"; "started_at"; "config"] ++ more)
    ∧ (extra = None ∨ extra = Some [] -> payload = base).
Proof.
  intros p base Hcw. exists (state_payload c extra w).
  rewrite write_state_eq. cbv zeta. fold p. rewrite Hcw. simpl.
  split_and!.
  - reflexivity.
  - apply lookup_insert_eq.
  - intros k. apply dict_get_update.
  - apply (dict_update_keys (default [] extra) (base_payload c w)).
  - intros [-> | ->]; reflexivity.
Qed.

Lemma state_payload_merges_extra_witness :
  ∃ payload,
    files (write_state (sample_config "monitor")
             (Some [("pid", JInt 1); ("note", JStr "a"); ("note", JStr "b")])
             sample_world).2 !! "/run/routeguard-auto/state.json"
    = Some (JDict payload)
    ∧ dict_get "pid" payload = Some (JInt 1)
    ∧ dict_get "note" payload = Some (JStr "b").
Proof.
  destruct (state_payload_merges_extra (sample_config "monitor")
              (Some [("pid", JInt 1); ("note", JStr "a"); ("note", JStr "b")])
              sample_world eq_refl)
    as (payload & _ & Hfile & Hget & _).
  exists payload. split; [exact Hfile|].
  split; rewrite Hget; reflexivity.
Defined.

Lemma routeguard_table_exists_eq_pair (w : World) :
  routeguard_table_exists w
  = (Ok (on_path w "nft" && nft_table w),
     if on_path w "nft" then record (Exec nft_list_argv None) w else w).
Proof. rewrite routeguard_table_exists_eq. by destruct (on_path w "nft"). Qed.

(** ** What a run asks of the host *)

#[global] Instance adds_refl (P : event -> Prop) : Reflexive (adds P).
Proof. intros w. exists []. by rewrite app_nil_r. Qed.

#[global] Instance adds_trans (P : event -> Prop) : Transitive (adds P).
Proof.
  intros w1 w2 w3 (e1 & H1 & F1) (e2 & H2 & F2). exists (e1 ++ e2).
  split; [by rewrite H2, H1, app_assoc | by apply Forall_app].
Qed.

Section Adds.

Context (P : event -> Prop) (r : RouteGuardRunner).
Context (Hlog : logger r = Recording -> ∀ msg, P (Log msg)).

Lemma adds_record (e : event) (w : World) : P e -> adds P w (record e w).
Proof. intros He. exists [e]. split; [done | by constructor]. Qed.

Lemma adds_same_trace (w w' : World) : trace w' = trace w -> adds P w w'.
Proof. intros H. exists []. by rewrite app_nil_r. Qed.

Lemma adds_run_cmd (args : list string) (input : option string) :
  P (Exec args input) -> preserves (adds P) (run_cmd args input).
Proof.
  intros He w. unfold run_cmd.
  destruct args as [|prog rest]; simpl; [by apply adds_record|].
  destruct (on_path w prog); simpl; [|by apply adds_record].
  pose proof (@host_answer_kept (fun v v' => trace v' = trace v) (fun _ => eq_refl)
                (fun _ _ => eq_refl)
                (prog :: rest) input (record (Exec (prog :: rest) input) w)) as H.
  destruct (host_answer _ _ _) as [cp w']. simpl in *.
  exists [Exec (prog :: rest) input]. split; [done | by constructor].
Qed.

Lemma adds_logger (msg : string) : preserves (adds P) (call_logger (logger r) msg).
Proof.
  intros w. destruct (logger r) eqn:Hl; simpl.
  - apply adds_record. by apply Hlog.
  - reflexivity.
Qed.

Lemma adds_silent (msg : string) : preserves (adds P) (call_logger Discarding msg).
Proof. intros w. simpl. reflexivity. Qed.

Lemma adds_command_exists (c : string) : preserves (adds P) (command_exists c).
Proof. intros w. simpl. reflexivity. Qed.

Lemma adds_get_world : preserves (adds P) get_world.
Proof. intros w. simpl. reflexivity. Qed.

Lemma adds_drift (d : Drift) : preserves (adds P) (modify (apply_drift d)).
Proof.
  intros w. apply adds_same_trace. unfold modify, apply_drift. simpl.
  by destruct (drift_table d), (drift_links d), (drift_routes d).
Qed.

Hint Resolve adds_logger adds_silent adds_command_exists adds_get_world
  adds_drift : core.

Section Nft.

Context (Hnft : ∀ rest input, P (Exec ("nft" :: rest) input)).

Lemma adds_table_exists : preserves (adds P) routeguard_table_exists.
Proof.
  pose proof (adds_run_cmd nft_list_argv None (Hnft _ _)).
  unfold routeguard_table_exists. preserve.
Qed.

Lemma adds_remove : preserves (adds P) (remove_nft_rules (logger r)).
Proof.
  pose proof (adds_run_cmd nft_delete_argv None (Hnft _ _)).
  unfold remove_nft_rules. preserve.
Qed.

Lemma adds_remove_silent : preserves (adds P) (remove_nft_rules Discarding).
Proof.
  pose proof (adds_run_cmd nft_delete_argv None (Hnft _ _)).
  unfold remove_nft_rules. preserve.
Qed.

Lemma adds_apply : preserves (adds P) (apply_nft_rules (cfg r) (logger r)).
Proof.
  pose proof adds_table_exists. pose proof adds_remove_silent.
  pose proof (fun s => adds_run_cmd nft_load_argv (Some s) (Hnft _ _)).
  unfold apply_nft_rules. preserve.
Qed.

End Nft.

Lemma adds_self_heal :
  (mode (cfg r) = "protect" -> ∀ rest input, P (Exec ("nft" :: rest) input)) ->
  preserves (adds P) (self_heal r).
Proof.
  intros Hnft. unfold self_heal.
  destruct (String.eqb (mode (cfg r)) "protect") eqn:Hm; [|preserve].
  apply String.eqb_eq in Hm.
  pose proof (adds_table_exists (Hnft Hm)). pose proof (adds_apply (Hnft Hm)).
  preserve.
Qed.

Section Ip.

Context (Hip : ∀ rest input, P (Exec ("ip" :: rest) input)).

Lemma adds_interface_exists (iface : string) :
  preserves (adds P) (interface_exists iface).
Proof.
  pose proof (adds_run_cmd ["ip"; "link"; "show"; iface] None (Hip _ _)).
  unfold interface_exists. preserve.
Qed.

Lemma adds_ip_json_routes (ipv6 : bool) : preserves (adds P) (ip_json_routes ipv6).
Proof.
  assert (preserves (adds P) (run_cmd (ip_route_argv ipv6) None))
    by (apply adds_run_cmd; destruct ipv6; apply Hip).
  unfold ip_json_routes. preserve.
Qed.

Lemma adds_scan (warned : gset string) : preserves (adds P) (scan_and_alert r warned).
Proof.
  pose proof adds_ip_json_routes. unfold scan_and_alert. preserve.
Qed.

Lemma adds_wait (polls : list Drift) : preserves (adds P) (wait_for_iface r polls).
Proof.
  pose proof adds_interface_exists.
  induction polls as [|d rest IH]; simpl; preserve.
Qed.

Lemma adds_monitor_loop (sched : list Drift) (warned : gset string) :
  (mode (cfg r) = "protect" -> ∀ rest input, P (Exec ("nft" :: rest) input)) ->
  preserves (adds P) (monitor_loop r sched warned).
Proof.
  intros Hnft. pose proof (adds_self_heal Hnft). pose proof adds_scan.
  revert warned. induction sched as [|d rest IH]; intros warned; simpl.
  - preserve.
  - unfold monitor_cycle. preserve.
Qed.

End Ip.

Section Wg.

Context (Hwg : ∀ rest input, P (Exec ("wg-quick" :: rest) input)).

Lemma adds_wg_up : preserves (adds P) (wg_quick_up (vpn_iface (cfg r)) (logger r)).
Proof.
  pose proof (adds_run_cmd ["wg-quick"; "up"; vpn_iface (cfg r)] None (Hwg _ _)).
  unfold wg_quick_up. preserve.
Qed.

Lemma adds_wg_down :
  preserves (adds P) (wg_quick_down (vpn_iface (cfg r)) (logger r)).
Proof.
  pose proof (adds_run_cmd ["wg-quick"; "down"; vpn_iface (cfg r)] None (Hwg _ _)).
  unfold wg_quick_down. preserve.
Qed.

End Wg.

Section State.

Context (Hwrite : ∀ p, p ∈ STATE_PATHS -> P (Write p)).
Context (Hunlink : ∀ p, p ∈ STATE_PATHS -> P (Unlink p)).

Lemma adds_write_state (c : GeneratedConfig) (extra : option (list (string * json))) :
  preserves (adds P) (write_state c extra).
Proof.
  intros w. rewrite write_state_eq. cbv zeta.
  destruct (can_write w _); simpl; apply adds_record, Hwrite, state_path_candidate.
Qed.

Lemma adds_remove_state : preserves (adds P) remove_state.
Proof.
  intros w. destruct (remove_state_eq w) as (w' & -> & Htr & _). simpl.
  exists state_teardown_events. split; [exact Htr|].
  unfold state_teardown_events. apply Forall_fmap, Forall_forall.
  intros p Hp. by apply Hunlink.
Qed.

End State.

End Adds.

Lemma bind_ok_inv {A B : Type} (m : M A) (f : A -> M B) (w w' : World) (b : B) :
  (m ≫= f) w = (Ok b, w') -> ∃ a w1, m w = (Ok a, w1) ∧ f a w1 = (Ok b, w').
Proof.
  unfold mbind, M_bind. destruct (m w) as [[a|e] w1]; [|discriminate].
  intros H. by exists a, w1.
Qed.

(** The [try] block goes on to monitoring in protect and monitor mode
    only. *)
Lemma mode_dispatch_none (r : RouteGuardRunner) (s : Schedule) (w w1 : World) :
  mode_dispatch r s w = (Ok None, w1) ->
  String.eqb (mode (cfg r)) "protect" || String.eqb (mode (cfg r)) "monitor" = true.
Proof.
  unfold mode_dispatch. intros H.
  apply bind_ok_inv in H as (_ & w2 & _ & H).
  destruct (String.eqb (mode (cfg r)) "protect"); [done|].
  destruct (String.eqb (mode (cfg r)) "monitor"); [done|].
  destruct (String.eqb (mode (cfg r)) "off").
  - apply bind_ok_inv in H as (_ & w3 & _ & H).
    apply bind_ok_inv in H as (_ & w4 & _ & H). discriminate.
  - discriminate.
Qed.

Lemma may_do_program (r : RouteGuardRunner) (prog : string) :
  prog ∈ programs_of r -> ∀ rest input, may_do r (Exec (prog :: rest) input).
Proof. intros H rest input. exact H. Qed.

Lemma run_adds (r : RouteGuardRunner) (s : Schedule) :
  preserves (adds (may_do r)) (run r s).
Proof.
  set (P := may_do r).
  assert (Hlog : logger r = Recording -> ∀ msg, P (Log msg)) by (intros H msg; exact H).
  assert (Hip : String.eqb (mode (cfg r)) "protect" || String.eqb (mode (cfg r)) "monitor" = true ->
                ∀ rest input, P (Exec ("ip" :: rest) input)).
  { intros H. apply may_do_program. unfold programs_of. rewrite H.
    apply list_elem_of_here. }
  assert (Hnft : String.eqb (mode (cfg r)) "protect" || String.eqb (mode (cfg r)) "off" = true ->
                 ∀ rest input, P (Exec ("nft" :: rest) input)).
  { intros H. apply may_do_program. unfold programs_of. rewrite H.
    rewrite !elem_of_app. right. left. apply list_elem_of_here. }
  assert (Hwg : auto_up_vpn r || auto_down_vpn_on_exit r = true ->
                ∀ rest input, P (Exec ("wg-quick" :: rest) input)).
  { intros H. apply may_do_program. unfold programs_of. rewrite H.
    rewrite !elem_of_app. right. right. apply list_elem_of_here. }
  assert (Hwrite : ∀ p, p ∈ STATE_PATHS -> P (Write p)) by (intros p H; exact H).
  assert (Hunlink : ∀ p, p ∈ STATE_PATHS -> P (Unlink p)) by (intros p H; exact H).
  pose proof (adds_logger P r Hlog) as Hl.
  pose proof (adds_remove_state P Hunlink) as Hrs.
  pose proof (adds_write_state P Hwrite) as Hws.
  assert (Hup : preserves (adds P)
                  (if auto_up_vpn r then wg_quick_up (vpn_iface (cfg r)) (logger r)
                   else mret tt)).
  { destruct (auto_up_vpn r) eqn:Hu; [|preserve].
    apply adds_wg_up; [exact Hlog|]. apply Hwg. rewrite ?Hu. done. }
  assert (Hdown : preserves (adds P) (teardown_tunnel r)).
  { unfold teardown_tunnel. destruct (auto_down_vpn_on_exit r) eqn:Hd; [|preserve].
    assert (preserves (adds P) (wg_quick_down (vpn_iface (cfg r)) (logger r))).
    { apply adds_wg_down; [exact Hlog|]. apply Hwg. rewrite ?Hd. apply orb_true_r. }
    preserve. }
  assert (Hfw : preserves (adds P) (teardown_firewall r)).
  { unfold teardown_firewall.
    destruct (cleanup_nft_on_exit r); simpl; [|preserve].
    destruct (String.eqb (mode (cfg r)) "protect") eqn:Hm; [|preserve].
    apply adds_remove; [exact Hlog|]. apply Hnft. rewrite ?Hm. done. }
  assert (Hmon : String.eqb (mode (cfg r)) "protect"
                 || String.eqb (mode (cfg r)) "monitor" = true ->
                 preserves (adds P) (monitoring r s)).
  { intros Hmode.
    assert (Hno : mode (cfg r) = "protect" ->
                  ∀ rest input, P (Exec ("nft" :: rest) input)).
    { intros Heq. apply Hnft. by rewrite Heq. }
    pose proof (adds_monitor_loop P r Hlog (Hip Hmode) (cycles s) ∅ Hno).
    unfold monitoring. preserve. }
  assert (Hdisp : preserves (adds P) (mode_dispatch r s)).
  { unfold mode_dispatch.
    destruct (String.eqb (mode (cfg r)) "protect") eqn:Hm.
    - pose proof (adds_wait P r (Hip ltac:(rewrite ?Hm; done)) (wait_polls s)).
      pose proof (adds_apply P r Hlog (Hnft ltac:(rewrite ?Hm; done))).
      preserve.
    - destruct (String.eqb (mode (cfg r)) "monitor") eqn:Hmonitor; [preserve|].
      destruct (String.eqb (mode (cfg r)) "off") eqn:Hoff; [|preserve].
      pose proof (adds_remove P r Hlog (Hnft ltac:(rewrite ?Hm, ?Hoff; done))).
      preserve. }
  assert (Hbody : preserves (adds P) (run_body r s)).
  { intros w. unfold run_body, mbind, M_bind.
    pose proof (Hdisp w) as Hd.
    destruct (mode_dispatch r s w) as [[[code|]|e] w1] eqn:Heq; simpl in *;
      try exact Hd.
    etransitivity; [exact Hd|].
    apply Hmon. by apply (mode_dispatch_none r s w w1). }
  unfold run. preserve.
  apply preserves_try_finally; preserve_tc; [exact Hbody|].
  apply preserves_try_finally; preserve_tc; [exact Hfw|]. preserve.
Qed.

(** X14. What a run asks of the host, however it ends: it starts no
    program but [ip] (in protect and monitor mode), [nft] (in protect
    and off mode) and [wg-quick] (when bringing the tunnel up or down
    was asked for); it writes and removes no file but the state files;
    and it hands lines to its own logger only. *)
Theorem run_asks_only_for_its_own (r : RouteGuardRunner) (s : Schedule) (w : World) :
  ∃ evs, trace (run r s w).2 = trace w ++ evs
         ∧ Forall (may_do r) evs
         ∧ (mode (cfg r) ≠ "protect" -> mode (cfg r) ≠ "off" ->
            Forall (fun e => ¬ is_nft e) evs)
         ∧ (auto_up_vpn r = false -> auto_down_vpn_on_exit r = false ->
            Forall (fun e => ∀ rest input, e ≠ Exec ("wg-quick" :: rest) input) evs).
Proof.
  destruct (run_adds r s w) as (evs & Htr & Hall).
  exists evs. split_and!; [exact Htr | exact Hall | |].
  - intros Hp Ho. apply String.eqb_neq in Hp, Ho.
    eapply Forall_impl; [exact Hall|].
    intros e He (rest & input & ->). simpl in He.
    unfold programs_of in He. rewrite Hp, Ho in He.
    destruct (String.eqb (mode (cfg r)) "monitor"),
      (auto_up_vpn r || auto_down_vpn_on_exit r); simpl in He;
      repeat (apply elem_of_cons in He as [He|He]; [discriminate|]);
      by apply elem_of_nil in He.
  - intros Hu Hd.
    eapply Forall_impl; [exact Hall|].
    intros e He rest input ->. simpl in He.
    unfold programs_of in He. rewrite Hu, Hd in He.
    destruct (_ || _), (_ || _); simpl in He;
      repeat (apply elem_of_cons in He as [He|He]; [discriminate|]);
      by apply elem_of_nil in He.
Qed.

Lemma run_asks_only_for_its_own_witness :
  let r := mkRunner (sample_config "monitor") Recording false false true in
  ∃ evs, trace (run r (mkSchedule [] [no_drift]) sample_world).2
         = trace sample_world ++ evs
         ∧ Forall (fun e => ¬ is_nft e) evs.
Proof.
  intros r.
  destruct (run_asks_only_for_its_own r (mkSchedule [] [no_drift]) sample_world)
    as (evs & Htr & _ & Hnft & _).
  exists evs. split; [exact Htr|]. by apply Hnft.
Defined.

(** ** How a run ends *)

(** The outcome of a run is the outcome of its [try] block. *)
Lemma run_outcome_of_body (r : RouteGuardRunner) (s : Schedule) (w : World) :
  (run r s w).1 = (run_body r s (extend (opening_events r) w)).1.
Proof.
  rewrite run_opening.
  destruct (teardown_eq r (run_body r s (extend (opening_events r) w)).2)
    as (w' & Heq & _).
  by rewrite (try_finally_total _ _ _ w' Heq).
Qed.

(** ** The command line *)



(** X19. [check_dependencies] asks the search path and nothing else:
    the host is left as it is, and the answer lists, in this order,
    [ip] and [nft] when they are not found and [python-tk] when the
    window tool kit was asked for and cannot be loaded.  It is empty
    exactly when nothing of that is missing; [wg-quick] is never in it. *)
Theorem dependencies_listed (require_tk tk_importable : bool) (w : World) :
  ∃ missing,
    check_dependencies require_tk tk_importable w = (Ok missing, w)
    ∧ (∀ prog, prog ∈ missing ↔
               (prog = "ip" ∨ prog = "nft") ∧ on_path w prog = false
               ∨ prog = "python-tk" ∧ require_tk = true ∧ tk_importable = false)
    ∧ sublist missing ["ip"; "nft"; "python-tk"]
    ∧ (missing = [] ↔
       on_path w "ip" = true ∧ on_path w "nft" = true
       ∧ (require_tk = true -> tk_importable = true)).
Proof.
  unfold check_dependencies.
  rewrite (bind_ok _ _ w w (on_path w "ip")) by reflexivity.
  rewrite (bind_ok _ _ w w (on_path w "nft")) by reflexivity.
  destruct (on_path w "ip") eqn:Hip, (on_path w "nft") eqn:Hnft,
    require_tk, tk_importable; simpl;
    (eexists; split; [reflexivity|]); split_and!;
    try (intros prog; rewrite ?elem_of_cons, elem_of_nil; split;
         [ intros H; repeat destruct H as [H|H]; try done; subst; auto
         | intros [[[->| ->] H]|(-> & H1 & H2)]; try congruence; auto ]);
    try (split; [intros H; try discriminate H; by split_and!
                | intros (H1 & H2 & H3); try discriminate; try done;
                  by specialize (H3 eq_refl)]);
    repeat first [ apply sublist_nil_l | apply sublist_skip; [] | apply sublist_cons; []
                 | by apply sublist_skip, sublist_skip, sublist_cons
                 | by apply sublist_skip, sublist_cons ].
Qed.

(** ** The other fields of a built configuration *)

(** X20. A configuration that [build_generated_config_from_wg] returns
    carries the mode and the two LAN options as they were given (the
    mode is not checked here), a polling interval of at least one
    second (the given one if it is one or more), the given interface
    name, or the one inferred from the file name when none or an empty
    one was given, and a list of endpoints that is not empty; and the
    file was there and had a peer section. *)
Theorem built_config_fields (file : file_view) (ns : NameService)
  (path m : string) (iface : option string) (lan dhcp : bool) (poll : Z)
  (c : GeneratedConfig) :
  build_generated_config_from_wg file ns path m iface lan dhcp poll = Ok c ->
  mode c = m ∧ allow_lan c = lan ∧ allow_dhcp c = dhcp
  ∧ poll_interval_sec c = Z.max 1 poll ∧ 1 <= poll_interval_sec c
  ∧ (1 <= poll -> poll_interval_sec c = poll)
  ∧ vpn_iface c
    = match iface with
      | Some (String a rest) => String a rest
      | _ => infer_iface_name_from_wg_path path
      end
  ∧ (∃ e eps, vpn_endpoints c = Some (e :: eps))
  ∧ (∃ content data, file = Text content
                     ∧ parse_wireguard_config file path = Ok data
                     ∧ wg_peers data ≠ []).
Proof.
  unfold build_generated_config_from_wg. intros H.
  destruct (parse_wireguard_config file path) as [data|e] eqn:Hparse;
    [|discriminate]. simpl in H.
  destruct (for_result _ _ _) as [acc|e]; [|discriminate]. simpl in H.
  destruct acc.1 as [|e0 eps] eqn:Hacc; [discriminate|].
  injection H as <-. simpl.
  split_and!; try done.
  - lia.
  - lia.
  - by destruct iface as [[|a rest]|].
  - by eexists _, _.
  - unfold parse_wireguard_config in Hparse.
    destruct file as [|why|content]; [discriminate..|].
    exists content, data. split; [done|]. split; [done|].
    cbv zeta in Hparse.
    match type of Hparse with
    | context [peers ?st] => remember st as parsed eqn:Hst
    end.
    destruct (peers parsed) eqn:Hp; [discriminate|].
    injection Hparse as <-. simpl. rewrite ?Hp. done.
Qed.

Lemma built_config_fields_witness :
  ∃ c, build_generated_config_from_wg (Text single_peer_conf) sample_ns
         sample_path "protect" None true false 0 = Ok c
       ∧ vpn_iface c = "wg0" ∧ poll_interval_sec c = 1.
Proof.
  eexists. split; [vm_compute; reflexivity|].
  match goal with
  | |- vpn_iface ?c = _ ∧ _ =>
      destruct (built_config_fields (Text single_peer_conf) sample_ns sample_path
                  "protect" None true false 0 c)
        as (_ & _ & _ & Hpoll & _ & _ & Hif & _)
  end.
  - vm_compute. reflexivity.
  - split; [rewrite Hif | rewrite Hpoll]; reflexivity.
Defined.

(** ** A mode the runner does not know *)

Lemma same_host_extend (evs : list event) (w : World) : same_host w (extend evs w).
Proof.
  unfold extend. revert w. induction evs as [|e evs IH]; intros w; simpl.
  - apply same_host_refl.
  - eapply same_host_trans; [apply same_host_record | apply IH].
Qed.



(** ** Waiting for the interface *)

Lemma interface_exists_eq (iface : string) (w : World) :
  on_path w "ip" = true ->
  interface_exists iface w
  = (Ok (bool_decide (iface ∈ links w)), record (link_poll iface) w).
Proof.
  intros Hp. unfold interface_exists, link_poll.
  erewrite bind_ok by exact (run_cmd_found "ip" ["link"; "show"; iface] None w Hp).
  change (host_answer ["ip"; "link"; "show"; iface] None
            (record (Exec ["ip"; "link"; "show"; iface] None) w))
    with (exit_status (bool_decide (iface ∈ links w)),
          record (Exec ["ip"; "link"; "show"; iface] None) w).
  cbn [fst snd]. by rewrite exit_status_zero.
Qed.

Lemma same_host_drift (d : Drift) (w v : World) :
  same_host w v -> same_host (apply_drift d w) (apply_drift d v).
Proof.
  intros (?&?&?&?&?&?&?&?&?&?&?). unfold apply_drift.
  destruct (drift_table d), (drift_links d), (drift_routes d);
    repeat split; simpl; done.
Qed.

Lemma same_host_drifted (ds : list Drift) (w v : World) :
  same_host w v -> same_host (drifted ds w) (drifted ds v).
Proof.
  unfold drifted. revert w v. induction ds as [|d ds IH]; intros w v H; simpl.
  - exact H.
  - by apply IH, same_host_drift.
Qed.

Lemma wait_for_iface_spec (r : RouteGuardRunner) (polls : list Drift) (w : World) :
  on_path w "ip" = true ->
  (∀ k, (k < length polls)%nat ->
        vpn_iface (cfg r) ∉ links (drifted (take (S k) polls) w)) ∧
  (wait_for_iface r polls w).1
  = Raise (RouteGuardError ("VPN interface '" +:+ vpn_iface (cfg r) +:+ "' not found."))
  ∧ trace (wait_for_iface r polls w).2
    = trace w ++ replicate (length polls) (link_poll (vpn_iface (cfg r)))
  ∨ ∃ k, (k < length polls)%nat
         ∧ vpn_iface (cfg r) ∈ links (drifted (take (S k) polls) w)
         ∧ (∀ j, (j < k)%nat ->
                 vpn_iface (cfg r) ∉ links (drifted (take (S j) polls) w))
         ∧ (wait_for_iface r polls w).1 = Ok tt
         ∧ trace (wait_for_iface r polls w).2
           = trace w ++ replicate (S k) (link_poll (vpn_iface (cfg r))).
Proof.
  revert w. induction polls as [|d rest IH]; intros w Hp.
  - left. simpl. split_and!; [intros k Hk; lia | done | by rewrite app_nil_r].
  - cbn [wait_for_iface].
    erewrite bind_ok by reflexivity.
    assert (Hp1 : on_path (apply_drift d w) "ip" = true).
    { unfold apply_drift.
      by destruct (drift_table d), (drift_links d), (drift_routes d). }
    erewrite bind_ok by exact (interface_exists_eq _ _ Hp1).
    set (w1 := record (link_poll (vpn_iface (cfg r))) (apply_drift d w)).
    assert (Hsame : same_host (apply_drift d w) w1) by apply same_host_record.
    assert (Hlinks : ∀ ds, links (drifted ds w1) = links (drifted ds (apply_drift d w))).
    { intros ds. by destruct (same_host_drifted ds _ _ Hsame) as (_&_&_&_&->&_). }
    assert (Htr1 : trace w1 = trace w ++ [link_poll (vpn_iface (cfg r))]).
    { subst w1. simpl. f_equal. unfold apply_drift.
      by destruct (drift_table d), (drift_links d), (drift_routes d). }
    case_bool_decide as Hin.
    + right. exists 0%nat. simpl. split_and!; try done; [lia | intros j Hj; lia].
    + destruct (IH w1 Hp1) as [(Hnone & Hout & Htr)|(k & Hk & Hseen & Hbefore & Hout & Htr)].
      * left. split_and!.
        -- intros [|k] Hk; simpl in *; [done|].
           change (fold_left _ (take (S k) rest) (apply_drift d w))
             with (drifted (take (S k) rest) (apply_drift d w)).
           rewrite <- Hlinks. apply Hnone. lia.
        -- exact Hout.
        -- rewrite Htr, Htr1, <- app_assoc. reflexivity.
      * right. exists (S k). split_and!.
        -- simpl. lia.
        -- cbn [take drifted fold_left].
           change (fold_left _ (take (S k) rest) (apply_drift d w))
             with (drifted (take (S k) rest) (apply_drift d w)).
           by rewrite <- Hlinks.
        -- intros [|j] Hj; [done|].
           cbn [take drifted fold_left].
           change (fold_left _ (take (S j) rest) (apply_drift d w))
             with (drifted (take (S j) rest) (apply_drift d w)).
           rewrite <- Hlinks. apply Hbefore. lia.
        -- exact Hout.
        -- rewrite Htr, Htr1, <- app_assoc. reflexivity.
Qed.

(** X24. [_wait_for_iface] on a host with the [ip] program: it returns
    at the first poll that finds the interface among the links, having
    asked [ip link show] once per poll up to that one, and it raises
    [VPN interface ... not found] after as many polls as fit into the
    time-out when none of them finds it.  Nothing else is started and
    nothing is logged. *)
Theorem wait_ends_at_first_sighting (r : RouteGuardRunner) (polls : list Drift)
  (w : World) :
  on_path w "ip" = true ->
  let iface := vpn_iface (cfg r) in
  let seen k := iface ∈ links (drifted (take (S k) polls) w) in
  (∀ k, (k < length polls)%nat -> seen k ->
        (∀ j, (j < k)%nat -> ¬ seen j) ->
        (wait_for_iface r polls w).1 = Ok tt
        ∧ trace (wait_for_iface r polls w).2
          = trace w ++ replicate (S k) (link_poll iface))
  ∧ ((∀ k, (k < length polls)%nat -> ¬ seen k) ->
     (wait_for_iface r polls w).1
     = Raise (RouteGuardError ("VPN interface '" +:+ iface +:+ "' not found."))
     ∧ trace (wait_for_iface r polls w).2
       = trace w ++ replicate (length polls) (link_poll iface))
  ∧ ((wait_for_iface r polls w).1 = Ok tt ↔ ∃ k, (k < length polls)%nat ∧ seen k).
Proof.
  intros Hp iface seen.
  destruct (wait_for_iface_spec r polls w Hp)
    as [(Hnone & Hout & Htr)|(k & Hk & Hseen & Hbefore & Hout & Htr)].
  - split_and!.
    + intros k Hk Hs _. by destruct (Hnone k Hk).
    + done.
    + rewrite Hout. split; [done|]. intros (k & Hk & Hs). by destruct (Hnone k Hk).
  - split_and!.
    + intros k' Hk' Hs' Hb'.
      assert (k' = k) as ->.
      { destruct (Nat.lt_trichotomy k' k) as [Hlt|[Heq|Hgt]]; [|done|].
        - by destruct (Hbefore k' Hlt).
        - by destruct (Hb' k Hgt). }
      done.
    + intros Hnone. by destruct (Hnone k Hk).
    + split; [|done]. intros _. by exists k.
Qed.

Lemma wait_ends_at_first_sighting_witness :
  let r := mkRunner (sample_config "protect") Recording false false true in
  let polls := [no_drift; mkDrift None (Some ["wg0"]) None; no_drift] in
  on_path sample_world "ip" = true
  /\ (wait_for_iface r polls sample_world).1 = Ok tt
  /\ length (trace (wait_for_iface r polls sample_world).2) = 2%nat.
Proof.
  intros r polls.
  destruct (wait_ends_at_first_sighting r polls sample_world eq_refl) as [H _].
  destruct (H 1%nat) as [Hout Htr].
  - simpl. lia.
  - simpl. apply list_elem_of_here.
  - intros [|j] Hj; [|lia]. simpl. apply not_elem_of_nil.
  - split; [reflexivity|]. split; [exact Hout|]. by rewrite Htr.
Defined.

(** * Theorems on the host where calls fail *)

(** ** The teardown *)

Lemma trace_apply_drift (d : Drift) (w : World) :
  trace (apply_drift d w) = trace w.
Proof.
  unfold apply_drift.
  by destruct (drift_table d), (drift_links d), (drift_routes d).
Qed.

Lemma files_apply_drift (d : Drift) (w : World) :
  files (apply_drift d w) = files w.
Proof.
  unfold apply_drift.
  by destruct (drift_table d), (drift_links d), (drift_routes d).
Qed.

Lemma failing_host_answer_trace (env : Env) (args : list string)
  (input : option string) (w : World) :
  trace (Failing.host_answer env args input w).2 = trace w.
Proof.
  unfold Failing.host_answer.
  pose proof (@host_answer_kept (fun v v' => trace v' = trace v) (fun _ => eq_refl)
                (fun _ _ => eq_refl) args input w) as H.
  destruct (host_answer args input w) as [cp w']. simpl in H.
  destruct args as [|a [|b [|c [|d l]]]]; simpl; try done.
  case_bool_decide; simpl; [|done]. by rewrite trace_apply_drift.
Qed.

(** A command that is on the path leaves its [Exec] event, whether it
    starts or not. *)
Lemma failing_run_cmd_trace (env : Env) (args : list string)
  (input : option string) (w : World) :
  trace (Failing.run_cmd env args input w).2 = trace w ++ [Exec args input].
Proof.
  unfold Failing.run_cmd.
  destruct args as [|prog rest]; [done|].
  cbn [on_path record].
  destruct (on_path w prog); [|done].
  destruct (spawn_error env _ _); [done|].
  pose proof (failing_host_answer_trace env (prog :: rest) input
                (record (Exec (prog :: rest) input) w)) as H.
  destruct (Failing.host_answer env _ _ _) as [cp w']. exact H.
Qed.

Lemma failing_logger_trace (env : Env) (lg : Logger) (msg : string) (w : World) :
  ∃ evs, trace (Failing.call_logger env lg msg w).2 = trace w ++ evs.
Proof.
  destruct lg; simpl.
  - destruct (logger_error env w msg); [exists [] | exists [Log msg]]; simpl;
      by rewrite ?app_nil_r.
  - exists []. by rewrite app_nil_r.
Qed.

(** A command followed by one line to the logger. *)
Lemma command_then_line (env : Env) (args : list string) (lg : Logger)
  (line : CompletedProcess -> string) (w : World) :
  ∃ evs,
    trace ((Failing.run_cmd env args None
              ≫= λ cp, Failing.call_logger env lg (line cp)) w).2
    = trace w ++ Exec args None :: evs.
Proof.
  unfold mbind, M_bind.
  pose proof (failing_run_cmd_trace env args None w) as Hcmd.
  destruct (Failing.run_cmd env args None w) as [[cp|e] w1]; simpl in *.
  - destruct (failing_logger_trace env lg (line cp) w1) as [evs Hevs].
    exists evs. by rewrite Hevs, Hcmd, <- app_assoc.
  - exists []. exact Hcmd.
Qed.

Lemma firewall_step_trace (env : Env) (r : RouteGuardRunner) (w : World) :
  ∃ evs, trace (Failing.teardown_firewall env r w).2 = trace w ++ evs
         ∧ head evs = if firewall_step_due r w
                      then Some (Exec nft_delete_argv None) else None.
Proof.
  unfold Failing.teardown_firewall, firewall_step_due.
  destruct (cleanup_nft_on_exit r && String.eqb (mode (cfg r)) "protect"); simpl.
  - unfold Failing.remove_nft_rules.
    rewrite (bind_ok _ _ w w (on_path w "nft")) by reflexivity.
    destruct (on_path w "nft"); simpl.
    + destruct (command_then_line env nft_delete_argv (logger r)
                  (fun cp => if returncode cp =? 0
                             then "Removed nftables table inet routeguard."
                             else "nftables table inet routeguard was not present (nothing to remove).")
                  w) as [evs Hevs].
      exists (Exec nft_delete_argv None :: evs). split; [|done].
      rewrite <- Hevs. unfold mbind, M_bind.
      destruct (Failing.run_cmd env nft_delete_argv None w) as [[cp|e] w1]; [|done].
      by destruct (returncode cp =? 0).
    + exists []. by rewrite app_nil_r.
  - exists []. by rewrite app_nil_r.
Qed.

Lemma tunnel_step_trace (env : Env) (r : RouteGuardRunner) (w : World) :
  ∃ evs, trace (Failing.teardown_tunnel env r w).2 = trace w ++ evs
         ∧ head evs = if tunnel_step_due r w
                      then Some (Exec ["wg-quick"; "down"; vpn_iface (cfg r)] None)
                      else None.
Proof.
  unfold Failing.teardown_tunnel, tunnel_step_due.
  destruct (auto_down_vpn_on_exit r); simpl; [|exists []; by rewrite app_nil_r].
  unfold try_except, Failing.wg_quick_down.
  rewrite (bind_ok _ _ w w (on_path w "wg-quick")) by reflexivity.
  destruct (on_path w "wg-quick"); simpl; [|exists []; by rewrite app_nil_r].
  destruct (command_then_line env ["wg-quick"; "down"; vpn_iface (cfg r)] (logger r)
              (fun cp => if returncode cp =? 0
                         then "WireGuard interface '" +:+ vpn_iface (cfg r) +:+ "' is down."
                         else "wg-quick down " +:+ vpn_iface (cfg r) +:+ ": "
                                +:+ first_nonempty (Py.strip (stdout cp +:+ stderr cp))
                                                   "no action")
              w) as [evs Hevs].
  match goal with
  | |- context [match ?m w with _ => _ end] =>
      assert (Hsame : trace (m w).2 = trace w
                        ++ Exec ["wg-quick"; "down"; vpn_iface (cfg r)] None :: evs);
      [|destruct (m w) as [[u|e] w1]]
  end.
  - rewrite <- Hevs. unfold mbind, M_bind.
    destruct (Failing.run_cmd env _ None w) as [[cp|e] w1]; [|done].
    by destruct (returncode cp =? 0).
  - simpl in *. by eexists.
  - simpl in *.
    destruct (failing_logger_trace env (logger r)
                ("WARNING wg-quick down failed: " +:+ Failing.exn_str e) w1)
      as [more Hmore].
    exists (Exec ["wg-quick"; "down"; vpn_iface (cfg r)] None :: evs ++ more).
    split; [|done]. rewrite Hmore, Hsame, <- app_assoc. reflexivity.
Qed.

(** The tunnel step raises only what the logger raises on the warning. *)
Lemma tunnel_step_outcome (env : Env) (r : RouteGuardRunner) (w : World) :
  (∀ v e, logger_error env v
            ("WARNING wg-quick down failed: " +:+ Failing.exn_str e) = None) ->
  (Failing.teardown_tunnel env r w).1 = Ok tt.
Proof.
  intros Hlog. unfold Failing.teardown_tunnel.
  destruct (auto_down_vpn_on_exit r); [|done].
  unfold try_except.
  destruct (Failing.wg_quick_down env _ _ w) as [[[]|e] w1]; [done|].
  destruct (logger r); simpl; [|done]. by rewrite Hlog.
Qed.

Lemma swallowed_unlink (env : Env) (p : string) (w : World) :
  ∃ w', try_except (Failing.unlink env p) (fun _ => mret tt) w = (Ok tt, w')
        ∧ trace w' = trace w ++ [Unlink p]
        ∧ on_path w' = on_path w ∧ nft_table w' = nft_table w
        ∧ (∀ q, q ≠ p -> files w' !! q = files w !! q)
        ∧ (files w' !! p = None
           ∨ files w' = files w
             ∧ ∃ e, unlink_error env (record (Unlink p) w) p = Some e).
Proof.
  unfold try_except, Failing.unlink.
  change (files (record (Unlink p) w)) with (files w).
  destruct (files w !! p) as [v|] eqn:Hp.
  - destruct (unlink_error env (record (Unlink p) w) p) as [e|] eqn:He.
    + eexists. split; [reflexivity|]. simpl. split_and!; try done.
      right. split; [done|]. by exists e.
    + eexists. split; [reflexivity|]. simpl. split_and!; try done.
      * intros q Hq. by apply lookup_delete_ne.
      * left. apply lookup_delete_eq.
  - eexists. split; [reflexivity|]. simpl. split_and!; try done. by left.
Qed.

Lemma failing_remove_state (env : Env) (w : World) :
  ∃ w', Failing.remove_state env w = (Ok tt, w')
        ∧ trace w' = trace w ++ state_teardown_events
        ∧ on_path w' = on_path w ∧ nft_table w' = nft_table w
        ∧ (∀ q, q ∉ STATE_PATHS -> files w' !! q = files w !! q)
        ∧ (∀ p, p ∈ STATE_PATHS ->
                files w' !! p = None
                ∨ files w' !! p = files w !! p
                  ∧ ∃ v e, unlink_error env v p = Some e).
Proof.
  unfold Failing.remove_state, STATE_PATHS. simpl for_each.
  destruct (swallowed_unlink env "/run/routeguard-auto/state.json" w)
    as (w1 & Heq1 & Ht1 & Hp1 & Hn1 & Ho1 & Hs1).
  destruct (swallowed_unlink env "/tmp/routeguard-auto-state.json" w1)
    as (w2 & Heq2 & Ht2 & Hp2 & Hn2 & Ho2 & Hs2).
  exists w2. split_and!.
  - erewrite bind_ok by exact Heq1. erewrite bind_ok by exact Heq2. reflexivity.
  - rewrite Ht2, Ht1, <- app_assoc. reflexivity.
  - congruence.
  - congruence.
  - intros q Hq. rewrite !not_elem_of_cons in Hq. destruct Hq as (H1 & H2 & _).
    rewrite Ho2, Ho1; done.
  - intros p Hp. rewrite !elem_of_cons, elem_of_nil in Hp.
    destruct Hp as [->|[->|[]]].
    + rewrite Ho2 by done.
      destruct Hs1 as [Hgone|[Hsame [e He]]]; [by left|right].
      split; [by rewrite Hsame|]. by eexists _, _.
    + destruct Hs2 as [Hgone|[Hsame [e He]]]; [by left|right].
      split; [rewrite Hsame; by apply Ho1|]. by eexists _, _.
Qed.

(** C1, as the claim states it, fails: the removal of the state files
    ignores its own failures.  On a host where the file under [/run]
    cannot be removed, a run in monitor mode that is stopped after one
    cycle returns 0, has asked for both files to go, and the state file
    is still there and is what [read_state] returns. *)
Lemma state_file_survives_failed_unlink :
  let r := mkRunner (sample_config "monitor") Recording false false true in
  let out := Failing.run sticky_state r (mkSchedule [] [no_drift]) sample_world in
  out.1 = Ok 0
  ∧ Unlink "/run/routeguard-auto/state.json" ∈ trace out.2
  ∧ Unlink "/tmp/routeguard-auto-state.json" ∈ trace out.2
  ∧ is_Some (files out.2 !! "/run/routeguard-auto/state.json")
  ∧ (read_state out.2).1 ≠ Ok None.
Proof.
  intros r out.
  assert (Hout : out.1 = Ok 0) by (vm_compute; reflexivity).
  assert (Htrace : trace out.2
                   = [ Log "RouteGuard starting: mode=monitor, iface=wg0, interval=5s";
                       Log "Endpoints: 203.0.113.5:51820/udp";
                       Log "Monitor mode: no nftables blocking rules will be applied.";
                       Write "/run/routeguard-auto/state.json";
                       Log "State file: /run/routeguard-auto/state.json";
                       Exec (ip_route_argv false) None;
                       Exec (ip_route_argv true) None;
                       Log "Stopping RouteGuard...";
                       Unlink "/run/routeguard-auto/state.json";
                       Unlink "/tmp/routeguard-auto-state.json" ])
    by (vm_compute; reflexivity).
  assert (Hfile : is_Some (files out.2 !! "/run/routeguard-auto/state.json"))
    by (vm_compute; eexists; reflexivity).
  split; [exact Hout|].
  split; [rewrite Htrace; do 8 apply list_elem_of_further; apply list_elem_of_here|].
  split; [rewrite Htrace; do 9 apply list_elem_of_further; apply list_elem_of_here|].
  split; [exact Hfile|].
  rewrite read_state_eq. destruct Hfile as [v ->]. simpl. discriminate.
Qed.

(** C1, amended.  Once the two opening lines are logged and the [try]
    block is entered, then however the block ends (it returns, or it
    raises in any of its states, the interface time-out included) the
    three teardown steps are started in their order, each in the state
    its predecessor left: the firewall removal (which starts [nft delete
    table] when clean-up was asked for, the mode is protect and nft is
    installed, and does nothing otherwise), then the tunnel shut-down
    (which starts [wg-quick down] when it was asked for and the program
    is installed), then the removal of the state files, which asks for
    both files to go and never raises.  A firewall removal that raises
    does not keep the two later steps from running; its exception is
    what the run raises once they are done.  A tunnel shut-down that
    raises is reported to the logger and not propagated.  Afterwards each
    state file is absent unless its removal failed, in which case the
    file is as it was.  What becomes of the last step when the logger
    itself raises on the report of a failed shut-down is not part of the
    statement. *)
Theorem teardown_steps_all_run (env : Env) (r : RouteGuardRunner) (s : Schedule)
  (w w0 : World) :
  opening env r w = (Ok tt, w0) ->
  ∃ (body : result Z) (fw : result unit) (wb w1 w2 w3 : World)
    (ev1 ev2 : list event),
    Failing.run_body env r s w0 = (body, wb)
    ∧ Failing.teardown_firewall env r wb = (fw, w1)
    ∧ (Failing.teardown_tunnel env r w1).2 = w2
    ∧ Failing.remove_state env w2 = (Ok tt, w3)
    ∧ trace w1 = trace wb ++ ev1
    ∧ head ev1 = (if firewall_step_due r wb
                  then Some (Exec nft_delete_argv None) else None)
    ∧ trace w2 = trace w1 ++ ev2
    ∧ head ev2 = (if tunnel_step_due r w1
                  then Some (Exec ["wg-quick"; "down"; vpn_iface (cfg r)] None)
                  else None)
    ∧ trace w3 = trace w2 ++ List.map Unlink STATE_PATHS
    ∧ (∀ p, p ∈ STATE_PATHS ->
            files w3 !! p = None
            ∨ files w3 !! p = files w2 !! p
              ∧ ∃ v e, unlink_error env v p = Some e)
    ∧ (∀ q, q ∉ STATE_PATHS -> files w3 !! q = files w2 !! q)
    ∧ ((Failing.teardown_tunnel env r w1).1 = Ok tt ->
       Failing.run env r s w = (after_finally body fw, w3))
    ∧ ((∀ v e, logger_error env v
                 ("WARNING wg-quick down failed: " +:+ Failing.exn_str e) = None) ->
       (Failing.teardown_tunnel env r w1).1 = Ok tt).
Proof.
  intros Hopen.
  destruct (Failing.run_body env r s w0) as [body wb] eqn:Hbody.
  destruct (Failing.teardown_firewall env r wb) as [fw w1] eqn:Hfw.
  destruct (firewall_step_trace env r wb) as (ev1 & Htr1 & Hhd1).
  rewrite Hfw in Htr1. simpl in Htr1.
  destruct (tunnel_step_trace env r w1) as (ev2 & Htr2 & Hhd2).
  destruct (failing_remove_state env (Failing.teardown_tunnel env r w1).2)
    as (w3 & Hrm & Htr3 & _ & _ & Hother & Hstate).
  exists body, fw, wb, w1, (Failing.teardown_tunnel env r w1).2, w3, ev1, ev2.
  split_and!; try done.
  - intros Htun.
    unfold opening in Hopen. apply bind_ok_inv in Hopen as ([] & wa & Hl1 & Hl2).
    unfold Failing.run.
    erewrite bind_ok by exact Hl1. erewrite bind_ok by exact Hl2.
    unfold try_finally at 1. rewrite Hbody.
    unfold try_finally. rewrite Hfw.
    unfold mbind, M_bind.
    destruct (Failing.teardown_tunnel env r w1) as [[[]|e] w2]; [|done].
    simpl in Hrm. rewrite Hrm. by destruct fw.
  - apply tunnel_step_outcome.
Qed.

Lemma teardown_steps_all_run_witness :
  let r := mkRunner (sample_config "protect") Recording false true true in
  let s := mkSchedule [mkDrift None (Some ["wg0"]) None] [no_drift] in
  ∃ w0 wb w3,
    opening broken_nft r sample_world = (Ok tt, w0)
    ∧ Failing.run broken_nft r s sample_world
      = (Raise (OSError "[Errno 8] Exec format error: 'nft'"), w3)
    ∧ (Failing.run_body broken_nft r s w0).2 = wb
    ∧ trace w3
      = trace wb ++ [ Exec nft_delete_argv None;
                      Exec ["wg-quick"; "down"; "wg0"] None;
                      Log "WireGuard interface 'wg0' is down.";
                      Unlink "/run/routeguard-auto/state.json";
                      Unlink "/tmp/routeguard-auto-state.json" ].
Proof.
  intros r s.
  assert (Hopen : ∃ w0, opening broken_nft r sample_world = (Ok tt, w0))
    by (eexists; reflexivity).
  destruct Hopen as [w0 Hopen].
  destruct (teardown_steps_all_run broken_nft r s sample_world w0 Hopen)
    as (body & fw & wb & w1 & w2 & w3 & ev1 & ev2 & Hbody & Hfw & Htun & Hrm
        & Htr1 & Hhd1 & Htr2 & Hhd2 & Htr3 & _ & _ & Hrun & Hquiet).
  specialize (Hrun (Hquiet (fun _ _ => eq_refl))).
  exists w0, wb, w3. split; [exact Hopen|].
  assert (Hw0 : w0 = (opening broken_nft r sample_world).2) by (by rewrite Hopen).
  assert (Hwb : wb = (Failing.run_body broken_nft r s w0).2) by (by rewrite Hbody).
  split_and!.
  - rewrite Hrun. f_equal.
    assert (Hb : body = (Failing.run_body broken_nft r s w0).1) by (by rewrite Hbody).
    assert (Hf : fw = (Failing.teardown_firewall broken_nft r wb).1) by (by rewrite Hfw).
    rewrite Hb, Hf, Hwb, Hw0. vm_compute. reflexivity.
  - by rewrite Hbody.
  - assert (Hw3 : w3 = (Failing.remove_state broken_nft w2).2) by (by rewrite Hrm).
    assert (Hw1 : w1 = (Failing.teardown_firewall broken_nft r wb).2) by (by rewrite Hfw).
    rewrite Hw3, <- Htun, Hw1, Hwb, Hw0. vm_compute. reflexivity.
Defined.

(** The interface never shows up and [nft] cannot be started: the
    time-out of the [try] block gives way to the exception of the
    firewall removal, and both later steps have run by then; the state
    file an earlier run had left is gone. *)
Example timeout_then_failed_removal :
  let r := mkRunner (sample_config "protect") Recording false true true in
  let w := set_files {[ "/tmp/routeguard-auto-state.json" := JDict [("pid", JInt 17)] ]}
                     sample_world in
  let out := Failing.run broken_nft r (mkSchedule [no_drift] []) w in
  (Failing.run_body broken_nft r (mkSchedule [no_drift] [])
     (opening broken_nft r w).2).1
  = Raise (RouteGuardError "VPN interface 'wg0' not found.")
  ∧ out.1 = Raise (OSError "[Errno 8] Exec format error: 'nft'")
  ∧ files out.2 = ∅
  ∧ trace out.2
    = [ Log "RouteGuard starting: mode=protect, iface=wg0, interval=5s";
        Log "Endpoints: 203.0.113.5:51820/udp";
        Exec ["ip"; "link"; "show"; "wg0"] None;
        Exec nft_delete_argv None;
        Exec ["wg-quick"; "down"; "wg0"] None;
        Log "WireGuard interface 'wg0' is down.";
        Unlink "/run/routeguard-auto/state.json";
        Unlink "/tmp/routeguard-auto-state.json" ].
Proof. split_and!; vm_compute; reflexivity. Qed.

(** The case the amended statement leaves open.  [wg-quick] cannot be
    started and the logger has lost its output: the handler of the
    failed shut-down raises in its turn, the run ends with that
    exception, and the removal of the state files is not reached. *)
Example failed_report_skips_state_removal :
  let r := mkRunner (sample_config "monitor") Recording false true true in
  let out := Failing.run lost_output r (mkSchedule [] [no_drift]) sample_world in
  out.1 = Raise (OSError "[Errno 32] Broken pipe")
  ∧ last (trace out.2) = Some (Exec ["wg-quick"; "down"; "wg0"] None)
  ∧ is_Some (files out.2 !! "/run/routeguard-auto/state.json").
Proof.
  intros r out. split_and!.
  - vm_compute. reflexivity.
  - vm_compute. reflexivity.
  - vm_compute. eexists. reflexivity.
Qed.

(** ** The state files on a host where calls fail *)

(** X13. [remove_state] on a host where removing a file can fail: it
    never raises, asks for both candidate files to go, in their order,
    and touches no other file.  Afterwards each of the two is absent
    unless its removal failed, in which case it is as it was; so when no
    removal fails, [read_state] returns [None] whatever files were
    there, and [status_summary] reports a null state. *)
Theorem no_state_after_remove (env : Env) (w : World) :
  ∃ w', Failing.remove_state env w = (Ok tt, w')
        ∧ trace w' = trace w ++ List.map Unlink STATE_PATHS
        ∧ (∀ q, q ∉ STATE_PATHS -> files w' !! q = files w !! q)
        ∧ (∀ p, p ∈ STATE_PATHS ->
                files w' !! p = None
                ∨ files w' !! p = files w !! p
                  ∧ ∃ v e, unlink_error env v p = Some e)
        ∧ ((∀ v p, unlink_error env v p = None) ->
           read_state w' = (Ok None, w')
           ∧ (status_summary w').1
             = Ok [ ("routeguard_nft_table_present",
                      JBool (on_path w "nft" && nft_table w));
                    ("state", JNull) ]).
Proof.
  destruct (failing_remove_state env w) as (w' & Heq & Htr & Hp & Hn & Hother & Hstate).
  exists w'. split_and!; try done.
  intros Hnone.
  assert (Hgone : ∀ p, p ∈ STATE_PATHS -> files w' !! p = None).
  { intros p Hin. destruct (Hstate p Hin) as [H|[_ (v & e & He)]]; [done|].
    by rewrite Hnone in He. }
  assert (Hm : match files w' !! "/run/routeguard-auto/state.json" with
               | Some v => Some v
               | None => files w' !! "/tmp/routeguard-auto-state.json"
               end = None).
  { rewrite (Hgone "/run/routeguard-auto/state.json") by apply list_elem_of_here.
    apply Hgone, list_elem_of_further, list_elem_of_here. }
  split.
  - by rewrite read_state_eq, Hm.
  - unfold status_summary.
    erewrite bind_ok by apply routeguard_table_exists_eq_pair.
    erewrite bind_ok by apply read_state_eq.
    rewrite Hp, Hn.
    destruct (on_path w "nft"); simpl files; rewrite Hm; reflexivity.
Qed.

(** ** What a run returns *)

Lemma try_finally_ok_inv {A : Type} (body : M A) (fin : M unit) (w w' : World)
  (a : A) :
  try_finally body fin w = (Ok a, w') -> ∃ w1, body w = (Ok a, w1).
Proof.
  unfold try_finally. destruct (body w) as [out w1].
  destruct (fin w1) as [[u|e] w2]; [|discriminate].
  intros [= -> _]. by exists w1.
Qed.

Lemma failing_run_body_ok (env : Env) (r : RouteGuardRunner) (s : Schedule)
  (w w' : World) (rc : Z) :
  Failing.run_body env r s w = (Ok rc, w') ->
  rc = 0 ∧ known_mode (mode (cfg r)) = true.
Proof.
  unfold Failing.run_body, known_mode. intros H.
  apply bind_ok_inv in H as (early & w1 & Hdisp & H).
  unfold Failing.mode_dispatch in Hdisp.
  apply bind_ok_inv in Hdisp as (_ & w2 & _ & Hdisp).
  destruct (String.eqb (mode (cfg r)) "protect").
  - split; [|done].
    apply bind_ok_inv in Hdisp as (_ & w3 & _ & Hdisp).
    apply bind_ok_inv in Hdisp as (_ & w4 & _ & Hdisp).
    injection Hdisp as <- <-.
    unfold Failing.monitoring in H.
    repeat (apply bind_ok_inv in H as (? & ? & _ & H)).
    by injection H as <-.
  - destruct (String.eqb (mode (cfg r)) "monitor").
    + split; [|done].
      apply bind_ok_inv in Hdisp as (_ & w3 & _ & Hdisp).
      injection Hdisp as <- <-.
      unfold Failing.monitoring in H.
      repeat (apply bind_ok_inv in H as (? & ? & _ & H)).
      by injection H as <-.
    + destruct (String.eqb (mode (cfg r)) "off"); [|discriminate].
      split; [|done].
      apply bind_ok_inv in Hdisp as (_ & w3 & _ & Hdisp).
      apply bind_ok_inv in Hdisp as (_ & w4 & _ & Hdisp).
      injection Hdisp as <- <-. by injection H as <-.
Qed.

(** X15. A run that returns returns 0, on any host and whatever fails
    on it: the code is that of the [try] block, which did not raise,
    and no teardown step raised; and the mode was one of the three the
    runner knows. *)
Theorem run_returns_zero (env : Env) (r : RouteGuardRunner) (s : Schedule)
  (w : World) (rc : Z) :
  (Failing.run env r s w).1 = Ok rc ->
  rc = 0
  ∧ known_mode (mode (cfg r)) = true
  ∧ ∃ w0 wb, opening env r w = (Ok tt, w0)
             ∧ Failing.run_body env r s w0 = (Ok 0, wb)
             ∧ (Failing.teardown_firewall env r wb).1 = Ok tt.
Proof.
  intros H.
  destruct (Failing.run env r s w) as [out w'] eqn:Hrun. simpl in H. subst out.
  unfold Failing.run in Hrun.
  apply bind_ok_inv in Hrun as ([] & wa & Hl1 & Hrun).
  apply bind_ok_inv in Hrun as ([] & w0 & Hl2 & Hrun).
  assert (Hopen : opening env r w = (Ok tt, w0)).
  { unfold opening. erewrite bind_ok by exact Hl1. exact Hl2. }
  pose proof Hrun as Hfin.
  apply try_finally_ok_inv in Hrun as [wb Hbody].
  destruct (failing_run_body_ok env r s w0 wb rc Hbody) as [-> Hmode].
  split; [done|]. split; [done|].
  exists w0, wb. split_and!; try done.
  unfold try_finally at 1 in Hfin. rewrite Hbody in Hfin.
  unfold try_finally in Hfin.
  destruct (Failing.teardown_firewall env r wb) as [[[]|e] w1]; [done|].
  exfalso.
  destruct ((Failing.teardown_tunnel env r ≫= λ _ : (), Failing.remove_state env) w1)
    as [[u|e'] w2]; discriminate Hfin.
Qed.

Lemma run_returns_zero_witness :
  let r := mkRunner (sample_config "off") Recording false false true in
  (Failing.run broken_nft r (mkSchedule [] []) sample_world).1
  = Raise (OSError "[Errno 8] Exec format error: 'nft'")
  /\ (Failing.run calm r (mkSchedule [] []) sample_world).1 = Ok 0
  /\ known_mode (mode (cfg r)) = true.
Proof.
  intros r.
  assert (H : (Failing.run calm r (mkSchedule [] []) sample_world).1 = Ok 0)
    by (vm_compute; reflexivity).
  split; [vm_compute; reflexivity|]. split; [exact H|].
  exact (proj1 (proj2 (run_returns_zero calm r (mkSchedule [] []) sample_world 0 H))).
Defined.

(** ** The dependency check and the tunnel program *)



(** ** The host without failures

    On [calm] the functions of this part are those of the first, so
    what was proved of a run there is proved of a run here on a host
    where nothing fails. *)

Lemma bind_ext {A B : Type} (m m' : M A) (f f' : A -> M B) (w : World) :
  m w = m' w -> (∀ a v, f a v = f' a v) -> (m ≫= f) w = (m' ≫= f') w.
Proof.
  intros Hm Hf. unfold mbind, M_bind. rewrite Hm.
  destruct (m' w) as [[a|e] w1]; [apply Hf | done].
Qed.

Lemma try_except_ext {A : Type} (m m' : M A) (h h' : exn -> M A) (w : World) :
  m w = m' w -> (∀ e v, h e v = h' e v) -> try_except m h w = try_except m' h' w.
Proof.
  intros Hm Hh. unfold try_except. rewrite Hm.
  destruct (m' w) as [[a|e] w1]; [done | apply Hh].
Qed.

Lemma try_finally_ext {A : Type} (body body' : M A) (fin fin' : M unit) (w : World) :
  body w = body' w -> (∀ v, fin v = fin' v) ->
  try_finally body fin w = try_finally body' fin' w.
Proof.
  intros Hb Hf. unfold try_finally. rewrite Hb.
  destruct (body' w) as [out w1]. by rewrite Hf.
Qed.

Lemma for_each_ext {A : Type} (xs : list A) (body body' : A -> M unit) (w : World) :
  (∀ x v, body x v = body' x v) -> for_each xs body w = for_each xs body' w.
Proof.
  intros Hb. revert w. induction xs as [|x xs IH]; intros w; simpl; [done|].
  apply bind_ext; [apply Hb | intros _ v; apply IH].
Qed.

Ltac on_calm :=
  repeat first
    [ reflexivity
    | solve [auto]
    | apply bind_ext; [|intros ? ?]
    | apply for_each_ext; intros ? ?
    | match goal with
      | |- (if ?b then _ else _) _ = (if ?b then _ else _) _ => destruct b
      | |- (match ?x with _ => _ end) _ = (match ?x with _ => _ end) _ => destruct x
      end ].

Lemma calm_call_logger (lg : Logger) (msg : string) (w : World) :
  Failing.call_logger calm lg msg w = call_logger lg msg w.
Proof. by destruct lg. Qed.

Lemma calm_run_cmd (args : list string) (input : option string) (w : World) :
  Failing.run_cmd calm args input w = run_cmd args input w.
Proof.
  unfold Failing.run_cmd, run_cmd, Failing.host_answer.
  destruct args as [|prog rest]; [done|]. cbn [on_path record].
  destruct (on_path w prog); [|done]. simpl spawn_error. cbv iota.
  destruct (host_answer (prog :: rest) input _) as [cp w'].
  destruct rest as [|b [|c [|d l]]]; try done.
  case_bool_decide; done.
Qed.

Lemma calm_interface_exists (iface : string) (w : World) :
  Failing.interface_exists calm iface w = interface_exists iface w.
Proof.
  pose proof calm_run_cmd.
  unfold Failing.interface_exists, interface_exists. on_calm.
Qed.

Lemma calm_table_exists (w : World) :
  Failing.routeguard_table_exists calm w = routeguard_table_exists w.
Proof.
  pose proof calm_run_cmd.
  unfold Failing.routeguard_table_exists, routeguard_table_exists. on_calm.
Qed.

Lemma calm_remove (lg : Logger) (w : World) :
  Failing.remove_nft_rules calm lg w = remove_nft_rules lg w.
Proof.
  pose proof calm_run_cmd. pose proof calm_call_logger.
  unfold Failing.remove_nft_rules, remove_nft_rules. on_calm.
Qed.

Lemma calm_apply (c : GeneratedConfig) (lg : Logger) (w : World) :
  Failing.apply_nft_rules calm c lg w = apply_nft_rules c lg w.
Proof.
  pose proof calm_run_cmd. pose proof calm_call_logger.
  pose proof calm_remove. pose proof calm_table_exists.
  unfold Failing.apply_nft_rules, apply_nft_rules. on_calm.
Qed.

Lemma calm_ip_json_routes (ipv6 : bool) (w : World) :
  Failing.ip_json_routes calm ipv6 w = ip_json_routes ipv6 w.
Proof.
  pose proof calm_run_cmd.
  unfold Failing.ip_json_routes, ip_json_routes. on_calm.
Qed.

Lemma calm_wg_quick_up (iface : string) (lg : Logger) (w : World) :
  Failing.wg_quick_up calm iface lg w = wg_quick_up iface lg w.
Proof.
  pose proof calm_run_cmd. pose proof calm_call_logger.
  unfold Failing.wg_quick_up, wg_quick_up. on_calm.
Qed.

Lemma calm_wg_quick_down (iface : string) (lg : Logger) (w : World) :
  Failing.wg_quick_down calm iface lg w = wg_quick_down iface lg w.
Proof.
  pose proof calm_run_cmd. pose proof calm_call_logger.
  unfold Failing.wg_quick_down, wg_quick_down. on_calm.
Qed.

Lemma calm_write_state (c : GeneratedConfig) (extra : option (list (string * json)))
  (w : World) :
  Failing.write_state calm c extra w = write_state c extra w.
Proof. reflexivity. Qed.

Lemma calm_remove_state (w : World) :
  Failing.remove_state calm w = remove_state w.
Proof.
  unfold Failing.remove_state, remove_state.
  apply for_each_ext. intros p v.
  apply try_except_ext; [|done].
  unfold Failing.unlink, unlink. simpl. by destruct (files v !! p).
Qed.

Lemma calm_wait_for_iface (r : RouteGuardRunner) (polls : list Drift) (w : World) :
  Failing.wait_for_iface calm r polls w = wait_for_iface r polls w.
Proof.
  pose proof calm_interface_exists.
  revert w. induction polls as [|d rest IH]; intros w; simpl; on_calm.
Qed.

Lemma calm_self_heal (r : RouteGuardRunner) (w : World) :
  Failing.self_heal calm r w = self_heal r w.
Proof.
  pose proof calm_table_exists. pose proof calm_call_logger. pose proof calm_apply.
  unfold Failing.self_heal, self_heal. on_calm.
Qed.

Lemma calm_scan_and_alert (r : RouteGuardRunner) (warned : gset string)
  (w : World) :
  Failing.scan_and_alert calm r warned w = scan_and_alert r warned w.
Proof.
  pose proof calm_ip_json_routes. pose proof calm_call_logger.
  unfold Failing.scan_and_alert, scan_and_alert. on_calm.
Qed.

Lemma calm_monitor_loop (r : RouteGuardRunner) (sched : list Drift)
  (warned : gset string) (w : World) :
  Failing.monitor_loop calm r sched warned w = monitor_loop r sched warned w.
Proof.
  pose proof calm_self_heal. pose proof calm_scan_and_alert.
  revert warned w. induction sched as [|d rest IH]; intros warned w; simpl; [done|].
  unfold Failing.monitor_cycle, monitor_cycle. on_calm.
Qed.

Lemma calm_mode_dispatch (r : RouteGuardRunner) (s : Schedule) (w : World) :
  Failing.mode_dispatch calm r s w = mode_dispatch r s w.
Proof.
  pose proof calm_wg_quick_up. pose proof calm_wait_for_iface.
  pose proof calm_apply. pose proof calm_call_logger. pose proof calm_remove.
  unfold Failing.mode_dispatch, mode_dispatch. on_calm.
Qed.

Lemma calm_monitoring (r : RouteGuardRunner) (s : Schedule) (w : World) :
  Failing.monitoring calm r s w = monitoring r s w.
Proof.
  pose proof calm_call_logger. pose proof calm_monitor_loop.
  unfold Failing.monitoring, monitoring.
  apply bind_ext; [reflexivity|]. intros statep v.
  apply bind_ext; [done|]. intros _ v1.
  apply bind_ext; [done|]. intros _ v2.
  erewrite bind_ok by reflexivity.
  change (apply_drift (last_sleep calm) v2) with v2.
  on_calm.
Qed.

Lemma calm_run_body (r : RouteGuardRunner) (s : Schedule) (w : World) :
  Failing.run_body calm r s w = run_body r s w.
Proof.
  pose proof calm_mode_dispatch. pose proof calm_monitoring.
  unfold Failing.run_body, run_body. on_calm.
Qed.

Lemma calm_teardown_firewall (r : RouteGuardRunner) (w : World) :
  Failing.teardown_firewall calm r w = teardown_firewall r w.
Proof.
  pose proof calm_remove.
  unfold Failing.teardown_firewall, teardown_firewall. on_calm.
Qed.

Lemma calm_teardown_tunnel (r : RouteGuardRunner) (w : World) :
  Failing.teardown_tunnel calm r w = teardown_tunnel r w.
Proof.
  unfold Failing.teardown_tunnel, teardown_tunnel.
  destruct (auto_down_vpn_on_exit r); [|done].
  unfold try_except. rewrite calm_wg_quick_down, wg_quick_down_eq. reflexivity.
Qed.

(** The two embeddings of [run] agree where nothing fails. *)
Theorem calm_run (r : RouteGuardRunner) (s : Schedule) (w : World) :
  Failing.run calm r s w = run r s w.
Proof.
  pose proof calm_call_logger. pose proof calm_run_body.
  pose proof calm_teardown_firewall. pose proof calm_teardown_tunnel.
  pose proof calm_remove_state.
  unfold Failing.run, run.
  apply bind_ext; [done|]. intros _ v.
  apply bind_ext; [done|]. intros _ v1.
  apply try_finally_ext; [done|]. intros v2.
  apply try_finally_ext; [done|]. intros v3.
  apply bind_ext; [done|]. intros _ v4. done.
Qed.
